(** * UltraForward: a shallow embedding of the relay bot's core

    The development follows the Python sources of the repository:
    - [uf/src/spam_detect.py]  keyword fallback and [check_spam];
    - [uf/src/verify.py]       the captcha text generator;
    - [uf/src/cache.py]        the session cache ([DataCache]);
    - [uf/src/sql/repository.py], [uf/src/sql/model.py]  the repository;
    - [uf/src/bot.py]          the handlers of [MyBot].

    Conventions of the embedding.
    - A Python [str] is a [string]: the bytes of its UTF-8 encoding.
      Equality, concatenation and the substring test [w in text] agree
      with the code-point reading, since UTF-8 is self-synchronising.
      [str.upper] is modelled on the ASCII letters (other bytes are kept).
    - Python [int] is [Z]; readings of [time.monotonic()] and of
      [datetime.now()] are passed in as [Z] (seconds), exact arithmetic
      standing for the float arithmetic of the source.
    - A raised exception is a value of [exn]; a computation that may
      raise returns a [res].  Stateful code is written in the monad [M],
      which keeps the state reached when an exception is raised (Python
      does not undo mutations on [raise]).
    - External collaborators (the Telegram gateway, the OpenAI client,
      pydantic's JSON validation, the entropy source) are parameters. *)

From Stdlib Require Import ZArith String Ascii List Lia Bool DecimalString.
From stdpp Require Import base option list gmap strings.

Open Scope string_scope.
Open Scope list_scope.
Open Scope Z_scope.

(* ================================================================== *)
(** * Part I. The embedding                                            *)
(* ================================================================== *)

(** ** Exceptions and results *)

(** The exception classes the handlers of the source tell apart.
    [CancelledError] derives from [BaseException] only; every other
    constructor is an instance of [Exception]. *)
Inductive exn : Type :=
| TimedOut                      (* telegram.error.TimedOut *)
| Forbidden                     (* telegram.error.Forbidden *)
| BadRequest                    (* telegram.error.BadRequest *)
| AsyncTimeoutError             (* asyncio.TimeoutError *)
| OpenAIError                   (* openai.OpenAIError and subclasses *)
| ValidationError               (* pydantic.ValidationError *)
| TypeError
| ValueError
| IndexError
| MultipleResultsFound          (* sqlalchemy.exc.MultipleResultsFound *)
| RuntimeError (msg : string)
| PyException (msg : string)    (* any other instance of Exception *)
| CancelledError.

Definition is_Exception (e : exn) : bool :=
  match e with CancelledError => false | _ => true end.

Definition exn_str (e : exn) : string :=
  match e with
  | TimedOut => "Timed out"
  | Forbidden => "Forbidden"
  | BadRequest => "Bad Request"
  | AsyncTimeoutError => ""
  | OpenAIError => "OpenAIError"
  | ValidationError => "ValidationError"
  | TypeError => "TypeError"
  | ValueError => "ValueError"
  | IndexError => "list index out of range"
  | MultipleResultsFound => "Multiple rows were found when one or none was required"
  | RuntimeError m => m
  | PyException m => m
  | CancelledError => ""
  end.

Inductive res (A : Type) : Type :=
| Ok (a : A)
| Raise (e : exn).
Arguments Ok {A} a.
Arguments Raise {A} e.

Definition is_Ok {A} (r : res A) : bool :=
  match r with Ok _ => true | Raise _ => false end.

(** ** Strings *)

(** Truthiness of a [str]: [not s] holds exactly for the empty string. *)
Definition str_truthy (s : string) : bool :=
  match s with EmptyString => false | String _ _ => true end.

Definition upper_char (c : ascii) : ascii :=
  let n := N_of_ascii c in
  if ((97 <=? n) && (n <=? 122))%N then ascii_of_N (n - 32) else c.

Definition lower_char (c : ascii) : ascii :=
  let n := N_of_ascii c in
  if ((65 <=? n) && (n <=? 90))%N then ascii_of_N (n + 32) else c.

(** [text.upper()] *)
Fixpoint upper (s : string) : string :=
  match s with
  | EmptyString => EmptyString
  | String c r => String (upper_char c) (upper r)
  end.

(** [text.lower()] *)
Fixpoint lower (s : string) : string :=
  match s with
  | EmptyString => EmptyString
  | String c r => String (lower_char c) (lower r)
  end.

(** [text.startswith(w)] *)
Fixpoint starts_with (w text : string) : bool :=
  match w with
  | EmptyString => true
  | String a w' =>
      match text with
      | EmptyString => false
      | String b text' => Ascii.eqb a b && starts_with w' text'
      end
  end.

(** [w in text]: the substring test of Python, by scanning the start
    positions of [text] from the left. *)
Fixpoint str_in (w text : string) : bool :=
  starts_with w text ||
  match text with
  | EmptyString => false
  | String _ r => str_in w r
  end.

(** The reference reading of "occurs as a substring". *)
Definition occurs_in (w text : string) : Prop :=
  exists pre post : string, text = pre +:+ w +:+ post.

(** [str(n)] for an [int]. *)
Definition str_of_int (z : Z) : string := NilZero.string_of_int (Z.to_int z).

(** [s.endswith(c)] for a one-character [c]. *)
Fixpoint ends_with_char (c : ascii) (s : string) : bool :=
  match s with
  | EmptyString => false
  | String a r =>
      match r with
      | EmptyString => Ascii.eqb a c
      | String _ _ => ends_with_char c r
      end
  end.

(** [s.rstrip(c)] for a one-character [c]: the trailing run of [c] goes. *)
Fixpoint rstrip_char (c : ascii) (s : string) : string :=
  match s with
  | EmptyString => EmptyString
  | String a r =>
      match rstrip_char c r with
      | EmptyString => if Ascii.eqb a c then EmptyString else String a EmptyString
      | String b r' => String a (String b r')
      end
  end.

(** [c * n] for a one-character [c]. *)
Fixpoint repeat_char (c : ascii) (n : nat) : string :=
  match n with
  | O => EmptyString
  | S n' => String c (repeat_char c n')
  end.

(** The characters for which [str.isspace] holds, in UTF-8: U+0009 to
    U+000D, U+001C to U+0020, U+0085, U+00A0, U+1680, U+2000 to U+200A,
    U+2028, U+2029, U+202F, U+205F and U+3000. *)
Definition bytes (l : list N) : list ascii := map ascii_of_N l.

Definition whitespace : list (list ascii) :=
  map bytes
    ([[9]; [10]; [11]; [12]; [13]; [28]; [29]; [30]; [31]; [32];
      [194; 133]; [194; 160]; [225; 154; 128]]
     ++ map (fun k => [226; 128; k]) [128; 129; 130; 131; 132; 133; 134; 135; 136; 137; 138]
     ++ [[226; 128; 168]; [226; 128; 169]; [226; 128; 175]; [226; 129; 159];
         [227; 128; 128]])%N.

(** Is [w] a prefix of [l]?  If so, what follows it. *)
Fixpoint strip_prefix (w l : list ascii) : option (list ascii) :=
  match w with
  | [] => Some l
  | a :: w' =>
      match l with
      | [] => None
      | b :: l' => if Ascii.eqb a b then strip_prefix w' l' else None
      end
  end.

(** Dropping leading characters, each of them one of [ws]; [fuel] bounds
    the number of characters dropped. *)
Fixpoint lstrip_of (ws : list (list ascii)) (fuel : nat) (l : list ascii) : list ascii :=
  match fuel with
  | O => l
  | S fuel' =>
      match omap (fun w => strip_prefix w l) ws with
      | rest :: _ => lstrip_of ws fuel' rest
      | [] => l
      end
  end.

(** [s.strip()]: leading and trailing whitespace goes.  The trailing
    side is the leading side of the reversed bytes. *)
Definition strip (s : string) : string :=
  let l := list_ascii_of_string s in
  let l1 := lstrip_of whitespace (length l) l in
  string_of_list_ascii
    (rev (lstrip_of (map (@rev ascii) whitespace) (length l1) (rev l1))).

(** ** spam_detect.py *)

Record Spam : Type := { spam : bool; reason : string }.

Definition keyword_reason_prefix : string := "触发关键词: ".
Definition no_keyword_reason : string := "未触发任何关键词".

(** [SpamDetector._detect_of_words]; the module-level list
    [prohibited_words] (read from an asset file) is a parameter. *)
Definition _detect_of_words (prohibited_words : list string) (text : string) : Spam :=
  match List.find (fun w => str_in w text) prohibited_words with
  | Some word => {| spam := true; reason := keyword_reason_prefix +:+ word |}
  | None => {| spam := false; reason := no_keyword_reason |}
  end.

(** The fields of [SpamDetector] that [check_spam] tests. *)
Record SpamDetector : Type := {
  base_url : string;
  model : string;
  token : string
}.

(** The reply of [client.chat.completions.create]. *)
Record ChatCompletionMessage : Type := { content : option string }.
Record ChatCompletion : Type := { choices : option (list ChatCompletionMessage) }.

(** What the outside world does during one call of [_detect_of_openai]:
    the outcome of [limiter.acquire()] and the outcome of
    [asyncio.wait_for(create(...), 40.0)] (which is
    [Raise AsyncTimeoutError] when the deadline passes). *)
Record ai_run : Type := {
  limiter_acquire : res unit;
  chat_completions_create : res ChatCompletion
}.

(** [SpamDetector._detect_of_openai]: returns [msg.content]. *)
Definition _detect_of_openai (run : ai_run) (text : string) : res (option string) :=
  match limiter_acquire run with
  | Raise e => Raise e
  | Ok _ =>
      match chat_completions_create run with
      | Raise e => Raise e
      | Ok response =>
          (* response.choices[0].message.content *)
          match choices response with
          | None => Raise TypeError
          | Some [] => Raise IndexError
          | Some (msg :: _) => Ok (content msg)
          end
      end
  end.

(** [Spam.model_validate_json]: pydantic's validation against the
    two-field schema is the parameter [parse]; a rejected input (also
    [None]) raises [ValidationError]. *)
Definition model_validate_json (parse : string -> option Spam)
    (response : option string) : res Spam :=
  match response with
  | None => Raise ValidationError
  | Some js =>
      match parse js with
      | Some sp => Ok sp
      | None => Raise ValidationError
      end
  end.

(** The body of the [try] of [check_spam]. *)
Definition check_spam_try (parse : string -> option Spam) (run : ai_run)
    (text : string) : res Spam :=
  match _detect_of_openai run text with
  | Raise e => Raise e
  | Ok response => model_validate_json parse response
  end.

(** [SpamDetector.check_spam] *)
Definition check_spam (sd : SpamDetector) (prohibited_words : list string)
    (parse : string -> option Spam) (run : ai_run) (text : string)
  : res (bool * string) :=
  if negb (str_truthy (token sd)) || negb (str_truthy (base_url sd))
     || negb (str_truthy (model sd))
  then
    let sp := _detect_of_words prohibited_words text in
    Ok (spam sp, reason sp)
  else
    match check_spam_try parse run text with
    | Ok sp => Ok (spam sp, reason sp)
    | Raise AsyncTimeoutError =>
        let sp := _detect_of_words prohibited_words text in Ok (spam sp, reason sp)
    | Raise OpenAIError =>
        let sp := _detect_of_words prohibited_words text in Ok (spam sp, reason sp)
    | Raise ValidationError | Raise TypeError | Raise ValueError =>
        let sp := _detect_of_words prohibited_words text in Ok (spam sp, reason sp)
    | Raise e => Raise e        (* except Exception: raise; or not caught *)
    end.

(** The four outcomes the specification tells apart for one classifier
    call, read off the two statements of the [try] body: a failure of
    [_detect_of_openai] by deadline, by a client-declared error or by
    anything else, and a failure of the validation of its answer. *)
Inductive classifier_failure : Type :=
| ClassifierTimeout
| ClassifierError
| ClassifierSchemaInvalid
| ClassifierUnknownFailure (e : exn).

Definition classify_failure (parse : string -> option Spam) (run : ai_run)
    (text : string) : option classifier_failure :=
  match _detect_of_openai run text with
  | Raise AsyncTimeoutError => Some ClassifierTimeout
  | Raise OpenAIError => Some ClassifierError
  | Raise e => Some (ClassifierUnknownFailure e)
  | Ok response =>
      match model_validate_json parse response with
      | Raise _ => Some ClassifierSchemaInvalid
      | Ok _ => None
      end
  end.

(** [self.token and self.base_url and self.model] are all set. *)
Definition configured (sd : SpamDetector) : bool :=
  str_truthy (token sd) && str_truthy (base_url sd) && str_truthy (model sd).

(** The exception classes named by the first three [except] clauses. *)
Definition falls_back (e : exn) : bool :=
  match e with
  | AsyncTimeoutError | OpenAIError | ValidationError | TypeError | ValueError => true
  | _ => false
  end.

(** The keyword-fallback answer of [check_spam]. *)
Definition keyword_fallback (prohibited_words : list string) (text : string)
  : res (bool * string) :=
  Ok (spam (_detect_of_words prohibited_words text),
      reason (_detect_of_words prohibited_words text)).

(** A configured detector, and a classifier call in which the client
    library raises a [ValueError] that has nothing to do with the
    classifier's answer. *)
Definition sd_configured : SpamDetector :=
  {| base_url := "https://api.example/v1"; model := "m"; token := "k" |}.
Definition run_client_value_error : ai_run :=
  {| limiter_acquire := Ok tt; chat_completions_create := Raise ValueError |}.

(** [SpamDetector._replace_base_url] *)
Definition _replace_base_url (url : string) : string :=
  if ends_with_char "/" url then rstrip_char "/" url else url.

(** [SpamDetector.__init__], on the three settings of [config.openai]
    that [check_spam] depends on. *)
Definition SpamDetector_init (config_base_url config_model config_token : string)
  : SpamDetector :=
  {| base_url := _replace_base_url config_base_url;
     model := config_model;
     token := config_token |}.

(** ** verify.py *)

Definition allowed_chars : string := "ABCEFHJKLMNPRTVXYZ".

(** [secrets.choice(seq)] is [seq[secrets.randbelow(len(seq))]]; the
    value drawn by [randbelow] is the argument [r]. *)
Definition secrets_choice (r : nat) (seq : list ascii) : option ascii := seq !! r.

(** The text of [Visual.sync_generate_captcha_gif]:
    [''.join(secrets.choice(list(self.allowed_chars)) for _ in range(5))],
    where [randbelow i] is the value drawn at the [i]-th iteration.
    The image is not modelled. *)
Definition sync_generate_captcha_text (randbelow : nat -> nat) : option string :=
  string_of_list_ascii <$>
    mapM (fun i => secrets_choice (randbelow i) (list_ascii_of_string allowed_chars))
         (seq 0 5).

(** The comparison of [MyBot._verify_attempts]. *)
Definition code_matches (text code : string) : bool :=
  bool_decide (upper text = code).


(** ** cache.py *)

(** The values the bot stores under a cache key ([Any] in the source). *)
Inductive pyval : Type :=
| VNone
| VBool (b : bool)
| VInt (z : Z).

(** Python truthiness ([if v:], [not v]). *)
Definition truthy (v : pyval) : bool :=
  match v with
  | VNone => false
  | VBool b => b
  | VInt z => negb (z =? 0)
  end.

(** [DataCache].  An [asyncio.Lock] object is known by its identity: the
    number of lock objects created before it.  [locks_created] is that
    allocation counter; it is not a field of the Python object.
    [startup_time] is not modelled. *)
Record DataCache : Type := {
  user_locks : gmap Z nat;
  locks_created : nat;
  user_data : gmap Z (gmap string pyval);
  topic_data : gmap Z (gmap string pyval);
  user_message_time_queues : gmap Z (list Z)
}.

Definition DataCache_init : DataCache :=
  {| user_locks := ∅; locks_created := 0%nat; user_data := ∅;
     topic_data := ∅; user_message_time_queues := ∅ |}.

(** [dict.setdefault(k, v)]: the stored value and the dictionary. *)
Definition dict_setdefault {V} (k : Z) (v : V) (d : gmap Z V) : V * gmap Z V :=
  match d !! k with
  | Some x => (x, d)
  | None => (v, <[k:=v]> d)
  end.

(** [DataCache.get_user_lock] *)
Definition get_user_lock (user_id : Z) (c : DataCache) : nat * DataCache :=
  match user_locks c !! user_id with
  | None =>
      let lock := locks_created c in                (* asyncio.Lock() *)
      let '(lock', locks') := dict_setdefault user_id lock (user_locks c) in
      (lock', {| user_locks := locks'; locks_created := S (locks_created c);
                 user_data := user_data c; topic_data := topic_data c;
                 user_message_time_queues := user_message_time_queues c |})
  | Some lock => (lock, c)
  end.

(** [DataCache._get_user_data]: creates the user's dictionary on a miss. *)
Definition _get_user_data (user_id : Z) (c : DataCache)
  : gmap string pyval * DataCache :=
  match user_data c !! user_id with
  | None =>
      (∅, {| user_locks := user_locks c; locks_created := locks_created c;
             user_data := <[user_id := ∅]> (user_data c);
             topic_data := topic_data c;
             user_message_time_queues := user_message_time_queues c |})
  | Some data => (data, c)
  end.

(** [DataCache._get_topic_data] *)
Definition _get_topic_data (topic_id : Z) (c : DataCache)
  : gmap string pyval * DataCache :=
  match topic_data c !! topic_id with
  | None =>
      (∅, {| user_locks := user_locks c; locks_created := locks_created c;
             user_data := user_data c;
             topic_data := <[topic_id := ∅]> (topic_data c);
             user_message_time_queues := user_message_time_queues c |})
  | Some data => (data, c)
  end.

(** [DataCache._get_user_message_time_queue] *)
Definition _get_user_message_time_queue (user_id : Z) (c : DataCache)
  : list Z * DataCache :=
  match user_message_time_queues c !! user_id with
  | None =>
      ([], {| user_locks := user_locks c; locks_created := locks_created c;
              user_data := user_data c; topic_data := topic_data c;
              user_message_time_queues :=
                <[user_id := []]> (user_message_time_queues c) |})
  | Some q => (q, c)
  end.

(** [while q and (now - q[0]) > window: q.popleft()] *)
Fixpoint evict (now window : Z) (q : list Z) : list Z :=
  match q with
  | [] => []
  | t :: q' => if now - t >? window then evict now window q' else q
  end.

(** [DataCache.flood_message]; [now] is the reading of
    [time.monotonic()].  The deque is shared with the dictionary, so the
    appended and evicted queue is what the dictionary holds. *)
Definition flood_message (user_id : Z) (window now : Z) (c : DataCache)
  : Z * DataCache :=
  if window <=? 0 then (0, c)
  else
    let '(q, c1) := _get_user_message_time_queue user_id c in
    let q1 := evict now window (q ++ [now]) in
    let queues := <[user_id := q1]> (user_message_time_queues c1) in
    let queues' :=
      match q1 with
      | [] => delete user_id queues      (* pop(user_id, None) *)
      | _ :: _ => queues
      end in
    (Z.of_nat (length q1),
     {| user_locks := user_locks c1; locks_created := locks_created c1;
        user_data := user_data c1; topic_data := topic_data c1;
        user_message_time_queues := queues' |}).

(** [DataCache.get_flag]: [data.get(key, default)] *)
Definition get_flag (user_id : Z) (key : string) (default : pyval)
    (c : DataCache) : pyval * DataCache :=
  let '(data, c1) := _get_user_data user_id c in
  (from_option id default (data !! key), c1).

(** [DataCache.set_flag]: [data[key] = value] on the user's dictionary *)
Definition set_flag (user_id : Z) (key : string) (value : pyval)
    (c : DataCache) : DataCache :=
  let '(data, c1) := _get_user_data user_id c in
  {| user_locks := user_locks c1; locks_created := locks_created c1;
     user_data := <[user_id := <[key := value]> data]> (user_data c1);
     topic_data := topic_data c1;
     user_message_time_queues := user_message_time_queues c1 |}.

(** [DataCache.get_topic] *)
Definition get_topic (topic_id : Z) (key : string) (default : pyval)
    (c : DataCache) : pyval * DataCache :=
  let '(data, c1) := _get_topic_data topic_id c in
  (from_option id default (data !! key), c1).

(** [DataCache.set_topic] *)
Definition set_topic (topic_id : Z) (key : string) (value : pyval)
    (c : DataCache) : DataCache :=
  let '(data, c1) := _get_topic_data topic_id c in
  {| user_locks := user_locks c1; locks_created := locks_created c1;
     user_data := user_data c1;
     topic_data := <[topic_id := <[key := value]> data]> (topic_data c1);
     user_message_time_queues := user_message_time_queues c1 |}.

(** [DataCache.clear_user_all] *)
Definition clear_user_all (c : DataCache) : DataCache :=
  {| user_locks := ∅; locks_created := locks_created c;
     user_data := ∅; topic_data := topic_data c;
     user_message_time_queues := user_message_time_queues c |}.

(** [DataCache.clear_topic_all] *)
Definition clear_topic_all (c : DataCache) : DataCache :=
  {| user_locks := user_locks c; locks_created := locks_created c;
     user_data := user_data c; topic_data := ∅;
     user_message_time_queues := user_message_time_queues c |}.

(** The operations of the session cache, as a script.  [get_cache_size]
    only reads and is left out. *)
Inductive cache_op : Type :=
| OpGetUserLock (user_id : Z)
| OpGetFlag (user_id : Z) (key : string) (default : pyval)
| OpSetFlag (user_id : Z) (key : string) (value : pyval)
| OpGetTopic (topic_id : Z) (key : string) (default : pyval)
| OpSetTopic (topic_id : Z) (key : string) (value : pyval)
| OpFloodMessage (user_id : Z) (window now : Z)
| OpClearUserAll
| OpClearTopicAll.

Definition run_cache_op (op : cache_op) (c : DataCache) : DataCache :=
  match op with
  | OpGetUserLock u => snd (get_user_lock u c)
  | OpGetFlag u k d => snd (get_flag u k d c)
  | OpSetFlag u k v => set_flag u k v c
  | OpGetTopic t k d => snd (get_topic t k d c)
  | OpSetTopic t k v => set_topic t k v c
  | OpFloodMessage u w now => snd (flood_message u w now c)
  | OpClearUserAll => clear_user_all c
  | OpClearTopicAll => clear_topic_all c
  end.

Definition run_cache_ops (ops : list cache_op) (c : DataCache) : DataCache :=
  fold_left (fun c op => run_cache_op op c) ops c.

Definition is_clear_user_all (op : cache_op) : bool :=
  match op with OpClearUserAll => true | _ => false end.

(** Successive calls of [flood_message] for one user: the counts
    returned, in call order, and the cache reached. *)
Fixpoint flood_calls (user_id : Z) (window : Z) (times : list Z)
    (c : DataCache) : list Z * DataCache :=
  match times with
  | [] => ([], c)
  | now :: rest =>
      let '(n, c1) := flood_message user_id window now c in
      let '(ns, c2) := flood_calls user_id window rest c1 in
      (n :: ns, c2)
  end.

(** The timestamps among [ts] that lie within [window] of [now]. *)
Definition within_window (now window : Z) (ts : list Z) : list Z :=
  List.filter (fun t => now - t <=? window) ts.

(** Readings of a monotonic clock, in call order. *)
Fixpoint nondecreasing (ts : list Z) : Prop :=
  match ts with
  | [] => True
  | t :: rest => Forall (fun t' => t <= t') rest /\ nondecreasing rest
  end.

(** What the cache holds under a user's key, read without creating the
    user's dictionary. *)
Definition cached_flag (user_id : Z) (key : string) (c : DataCache) : option pyval :=
  user_data c !! user_id ≫= (fun data => data !! key).

(** The queue the cache holds for a user ([deque()] when absent). *)
Definition stored_queue (user_id : Z) (c : DataCache) : list Z :=
  default [] (user_message_time_queues c !! user_id).

(** The counts as the specification words them: every call records its
    timestamp for good, and returns how many of the timestamps recorded
    so far lie within the window of the current call. *)
Fixpoint flood_counts_spec (window : Z) (recorded times : list Z) : list Z :=
  match times with
  | [] => []
  | now :: rest =>
      Z.of_nat (length (within_window now window (recorded ++ [now])))
        :: flood_counts_spec window (recorded ++ [now]) rest
  end.

(** The cache with the user's queue entry dropped. *)
Definition drop_queue_entry (user_id : Z) (c : DataCache) : DataCache :=
  {| user_locks := user_locks c; locks_created := locks_created c;
     user_data := user_data c; topic_data := topic_data c;
     user_message_time_queues := delete user_id (user_message_time_queues c) |}.

(** What the cache holds under a topic's key, read without creating the
    topic's dictionary. *)
Definition cached_topic (topic_id : Z) (key : string) (c : DataCache) : option pyval :=
  topic_data c !! topic_id ≫= (fun data => data !! key).

(** The operations that assign or drop user flags, and those that
    assign or drop topic entries. *)
Definition writes_flags (op : cache_op) : bool :=
  match op with
  | OpSetFlag _ _ _ | OpClearUserAll => true
  | _ => false
  end.

Definition writes_topics (op : cache_op) : bool :=
  match op with
  | OpSetTopic _ _ _ | OpClearTopicAll => true
  | _ => false
  end.

(** ** sql/model.py and sql/repository.py *)

(** A row of [messages].  The surrogate key [id] is not modelled: a row
    is identified by its unique [topic_message_id]. *)
Record Messages : Type := {
  userid : Z;
  private_message_id : Z;
  topic_message_id : Z;
  m_spam : bool;
  m_reason : string;
  time : Z
}.

(** [UniqueConstraint("userid", "private_message_id")] and
    [topic_message_id ... unique=True]: does [r] clash with [e]? *)
Definition same_topic_key (t : Z) (r : Messages) : bool :=
  topic_message_id r =? t.
Definition same_private_key (u p : Z) (r : Messages) : bool :=
  (userid r =? u) && (private_message_id r =? p).
Definition messages_conflict (e r : Messages) : bool :=
  same_topic_key (topic_message_id e) r
  || same_private_key (userid e) (private_message_id e) r.

(** The two uniqueness constraints, as an invariant of the table. *)
Definition messages_unique (tbl : list Messages) : Prop :=
  NoDup (map topic_message_id tbl)
  /\ NoDup (map (fun r => (userid r, private_message_id r)) tbl).

(** [Result.scalar_one_or_none()] *)
Definition scalar_one_or_none {A} (rows : list A) : res (option A) :=
  match rows with
  | [] => Ok None
  | [r] => Ok (Some r)
  | _ :: _ :: _ => Raise MultipleResultsFound
  end.

(** [UFRepository._add_and_flush_nested_ignore_integrity] on [messages]:
    the flush inside the savepoint fails with [IntegrityError] exactly
    when a stored row holds one of the entity's unique keys. *)
Definition messages_add_and_flush_nested_ignore_integrity
    (tbl : list Messages) (entity : Messages) : bool * list Messages :=
  if existsb (messages_conflict entity) tbl then (false, tbl)
  else (true, tbl ++ [entity]).

(** The statements a session sends, for the order of the queries. *)
Inductive sql_stmt : Type :=
| SqlInsert (row : Messages)
| SqlSelectByTopic (topic_msg_id : Z)
| SqlSelectByPrivate (user : Z) (private_msg_id : Z).

Definition insert_message_error : string :=
  "insert_message failed but no existing row found".

(** [UFRepository.insert_message]: result, statements sent, table after
    the transaction ([session.begin()] rolls back when the body raises). *)
Definition insert_message (user private_msg_id topic_msg_id : Z)
    (is_spam : bool) (why : string) (now : Z) (tbl : list Messages)
  : res unit * list sql_stmt * list Messages :=
  let entity :=
    {| userid := user; private_message_id := private_msg_id;
       topic_message_id := topic_msg_id; m_spam := is_spam;
       m_reason := why; time := now |} in
  let '(ok, tbl1) := messages_add_and_flush_nested_ignore_integrity tbl entity in
  if ok then (Ok tt, [SqlInsert entity], tbl1)
  else
    let by_topic := SqlSelectByTopic topic_msg_id in
    match scalar_one_or_none (List.filter (same_topic_key topic_msg_id) tbl1) with
    | Raise e => (Raise e, [SqlInsert entity; by_topic], tbl)
    | Ok (Some _) => (Ok tt, [SqlInsert entity; by_topic], tbl1)
    | Ok None =>
        let by_private := SqlSelectByPrivate user private_msg_id in
        match scalar_one_or_none
                (List.filter (same_private_key user private_msg_id) tbl1) with
        | Raise e => (Raise e, [SqlInsert entity; by_topic; by_private], tbl)
        | Ok (Some _) => (Ok tt, [SqlInsert entity; by_topic; by_private], tbl1)
        | Ok None =>
            (Raise (RuntimeError insert_message_error),
             [SqlInsert entity; by_topic; by_private], tbl)
        end
    end.

(** [UFRepository.select_message] *)
Definition select_message (msg_id : Z) (topic_mode : bool) (user : option Z)
    (tbl : list Messages) : res (option Messages) :=
  if topic_mode then
    scalar_one_or_none (List.filter (same_topic_key msg_id) tbl)
  else
    match user with
    | Some u => scalar_one_or_none (List.filter (same_private_key u msg_id) tbl)
    | None => Ok None                   (* userid = NULL matches no row *)
    end.

(** [UFRepository.delete_message]: deletes the row of that identity. *)
Definition delete_message (row : Messages) (tbl : list Messages) : list Messages :=
  List.filter (fun r => negb (same_topic_key (topic_message_id row) r)) tbl.

(** A table in which other rows hold both unique keys of the triple
    (1, 7, 9): one row holds the pair (1, 7), another the topic id 9. *)
Definition messages_partial_conflict : list Messages :=
  [ {| userid := 1; private_message_id := 7; topic_message_id := 8;
       m_spam := false; m_reason := "ok"; time := 100 |};
    {| userid := 2; private_message_id := 5; topic_message_id := 9;
       m_spam := false; m_reason := "ok"; time := 101 |} ].

(** Rows that store exactly the triple, and rows that hold one of its
    unique keys. *)
Definition stores_triple (u p t : Z) (r : Messages) : bool :=
  (userid r =? u) && (private_message_id r =? p) && (topic_message_id r =? t).
Definition count_triple (u p t : Z) (tbl : list Messages) : nat :=
  length (List.filter (stores_triple u p t) tbl).
Definition count_key_holders (u p t : Z) (tbl : list Messages) : nat :=
  length (List.filter (fun r => same_topic_key t r || same_private_key u p r) tbl).

(** The other tables.  [userid] is unique in each of them, so a table
    is a finite map from [userid] to the rest of the row. *)
Record Verify : Type := {
  code : string;
  expires_at : Z;
  verified : bool
}.

Record Block : Type := { pinned_msg_id : option Z }.

Record Users : Type := {
  username : option string;
  first_name : string;
  last_name : option string;
  full_name : string;
  language_code : option string;
  is_premium : bool;
  topic : Z;
  first_active_time : Z
}.

Record Repo : Type := {
  verify_users : gmap Z Verify;
  block_users : gmap Z Block;
  messages : list Messages;
  users : gmap Z Users
}.

Definition set_verify_users (f : gmap Z Verify -> gmap Z Verify) (r : Repo) : Repo :=
  {| verify_users := f (verify_users r); block_users := block_users r;
     messages := messages r; users := users r |}.
Definition set_block_users (f : gmap Z Block -> gmap Z Block) (r : Repo) : Repo :=
  {| verify_users := verify_users r; block_users := f (block_users r);
     messages := messages r; users := users r |}.
Definition set_messages (f : list Messages -> list Messages) (r : Repo) : Repo :=
  {| verify_users := verify_users r; block_users := block_users r;
     messages := f (messages r); users := users r |}.
Definition set_users (f : gmap Z Users -> gmap Z Users) (r : Repo) : Repo :=
  {| verify_users := verify_users r; block_users := block_users r;
     messages := messages r; users := f (users r) |}.

(** [UFRepository.insert_verify]: insert, or overwrite the user's row. *)
Definition insert_verify (user : Z) (captcha : string) (ttl_seconds now : Z)
    (r : Repo) : Repo :=
  set_verify_users
    (insert user {| code := captcha; expires_at := now + ttl_seconds;
                    verified := false |}) r.

(** [UFRepository.select_valid_verify] *)
Definition select_valid_verify (user : Z) (r : Repo) : option Verify :=
  verify_users r !! user.

(** [UFRepository.update_verified] *)
Definition update_verified (user : Z) (v : bool) (r : Repo) : Repo :=
  set_verify_users
    (alter (fun e => {| code := code e; expires_at := expires_at e;
                        verified := v |}) user) r.

(** [UFRepository.select_user] with [type='userid'] (the only mode the
    handlers below use). *)
Definition select_user (user : Z) (r : Repo) : option Users := users r !! user.

(** Is the unique [topic] already taken by a stored row? *)
Definition topic_taken (t : Z) (tbl : gmap Z Users) : bool :=
  existsb (fun kv => topic (snd kv) =? t) (map_to_list tbl).

(** [UFRepository.insert_user]: nothing happens when the user has a row,
    nor when the flush hits the unique constraint on [topic]. *)
Definition insert_user (user : Z) (row : Users) (r : Repo) : Repo :=
  match users r !! user with
  | Some _ => r
  | None =>
      if topic_taken (topic row) (users r) then r
      else set_users (insert user row) r
  end.

(** Is the unique (nullable) [pinned_msg_id] already taken? *)
Definition pinned_taken (pin : option Z) (tbl : gmap Z Block) : bool :=
  match pin with
  | None => false
  | Some m =>
      existsb (fun kv => bool_decide (pinned_msg_id (snd kv) = Some m))
              (map_to_list tbl)
  end.

(** [UFRepository.insert_block] *)
Definition insert_block (user : Z) (pin : option Z) (r : Repo) : Repo :=
  match block_users r !! user with
  | Some existing =>
      match pin, pinned_msg_id existing with
      | Some m, None =>
          if pinned_taken pin (block_users r) then r
          else set_block_users (insert user {| pinned_msg_id := Some m |}) r
      | _, _ => r
      end
  | None =>
      if pinned_taken pin (block_users r) then r
      else set_block_users (insert user {| pinned_msg_id := pin |}) r
  end.

(** [UFRepository.select_block] *)
Definition select_block (user : Z) (r : Repo) : bool :=
  bool_decide (is_Some (block_users r !! user)).

(** [UFRepository.select_verified] *)
Definition select_verified (user : Z) (r : Repo) : bool :=
  match verify_users r !! user with
  | None => false
  | Some re => verified re
  end.

(** [UFRepository.update_verify_code]: a new code and a new deadline for
    the user's row, if there is one. *)
Definition update_verify_code (user : Z) (captcha : string) (ttl_seconds now : Z)
    (r : Repo) : Repo :=
  set_verify_users
    (alter (fun e => {| code := captcha; expires_at := now + ttl_seconds;
                        verified := verified e |}) user) r.

(** [UFRepository.select_user] with [type='topic']: the rows whose
    [topic] is [t], through [scalar_one_or_none].  A row is the pair of
    its [userid] and the other columns. *)
Definition select_user_by_topic (t : Z) (r : Repo) : res (option (Z * Users)) :=
  scalar_one_or_none
    (List.filter (fun kv : Z * Users => topic kv.2 =? t) (map_to_list (users r))).

(** The unique constraint on [users.topic], as an invariant. *)
Definition users_unique (tbl : gmap Z Users) : Prop :=
  forall u1 u2 r1 r2,
    tbl !! u1 = Some r1 -> tbl !! u2 = Some r2 -> topic r1 = topic r2 -> u1 = u2.

(** [UFRepository.select_block_raw] *)
Definition select_block_raw (user : Z) (r : Repo) : option Block :=
  block_users r !! user.

(** [UFRepository.delete_block]: deletes the row of that [userid]. *)
Definition delete_block (user : Z) (r : Repo) : Repo :=
  set_block_users (delete user) r.

(** The unique constraint on the nullable [block_users.pinned_msg_id]. *)
Definition pins_unique (tbl : gmap Z Block) : Prop :=
  forall u1 u2 m,
    tbl !! u1 = Some {| pinned_msg_id := Some m |} ->
    tbl !! u2 = Some {| pinned_msg_id := Some m |} -> u1 = u2.

(** [UFRepository.delete_message_on_days]: the rows older than [days]
    days at the time [now] (in seconds) go. *)
Definition delete_message_on_days (days now : Z) (tbl : list Messages) : list Messages :=
  List.filter (fun r => negb (time r <? now - days * 86400)) tbl.

(** The rows with which a sequence of calls of the repository fills the
    tables of users and of blocks. *)
Definition insert_users (rows : list (Z * Users)) (r : Repo) : Repo :=
  fold_left (fun r kv => insert_user kv.1 kv.2 r) rows r.

Inductive block_op : Type :=
| OpInsertBlock (user : Z) (pin : option Z)
| OpDeleteBlock (user : Z).

Definition run_block_op (op : block_op) (r : Repo) : Repo :=
  match op with
  | OpInsertBlock u pin => insert_block u pin r
  | OpDeleteBlock u => delete_block u r
  end.

Definition run_block_ops (ops : list block_op) (r : Repo) : Repo :=
  fold_left (fun r op => run_block_op op r) ops r.

(** The operations that write [messages], as a script: each with the
    reading of the clock at its call. *)
Inductive message_op : Type :=
| OpInsertMessage (user private_msg_id topic_msg_id : Z) (is_spam : bool)
    (why : string) (now : Z)
| OpDeleteMessage (row : Messages)
| OpDeleteMessageOnDays (days now : Z).

Definition run_message_op (op : message_op) (tbl : list Messages) : list Messages :=
  match op with
  | OpInsertMessage u p t sp why now => (insert_message u p t sp why now tbl).2
  | OpDeleteMessage row => delete_message row tbl
  | OpDeleteMessageOnDays days now => delete_message_on_days days now tbl
  end.

Definition run_message_ops (ops : list message_op) (tbl : list Messages) : list Messages :=
  fold_left (fun tbl op => run_message_op op tbl) ops tbl.

(** ** bot.py *)

(** The Telegram objects a handler reads. *)
Module tg.

Inductive ChatType : Type := PRIVATE | GROUP | SUPERGROUP | CHANNEL.

Record User : Type := {
  id : Z;
  username : option string;
  first_name : string;
  last_name : option string;
  full_name : string;
  language_code : option string;
  is_premium : option bool
}.

Record Chat : Type := {
  chat_id : Z;
  type : ChatType;
  is_forum : option bool
}.

Record Message : Type := {
  message_id : Z;
  chat : Z;                           (* message.chat.id *)
  text : option string;
  message_thread_id : option Z;
  reply_to_message : option Z         (* reply_to_message.message_id *)
}.

Record Update : Type := {
  message : option Message;
  effective_user : option User;
  effective_chat : option Chat
}.

End tg.

(** Outbound calls to the Telegram gateway. *)
Inductive gw_call : Type :=
| ReplyText (chat_id reply_to : Z) (text : string)
| SendMessage (chat_id : Z) (thread : option Z) (text : string)
| CreateForumTopic (chat_id : Z) (name : string)
| ForwardMessage (chat_id thread from_chat_id message_id : Z)
| CopyMessage (chat_id : Z) (thread : option Z) (from_chat_id message_id : Z)
| DeleteMessage (chat_id message_id : Z).

(** The world outside the bot.  [tick] counts the external events so
    far; the outcome of the next gateway call and of the next classifier
    call are functions of it.
    A gateway call returns the id of the message (or thread) it made. *)
Record Env : Type := {
  topic_chat_id : Z;
  admin_user_id : Z;
  spam_topic_id : Z;
  spamd : SpamDetector;
  prohibited_words : list string;
  parse_spam : string -> option Spam;
  gateway : nat -> gw_call -> res Z;
  classifier : nat -> string -> ai_run
}.

Record BotState : Type := {
  cache : DataCache;
  uf_repo : Repo;
  sent : list (gw_call * res Z);      (* outbound calls made, with outcome *)
  tick : nat
}.

Definition set_cache (c : DataCache) (s : BotState) : BotState :=
  {| cache := c; uf_repo := uf_repo s; sent := sent s; tick := tick s |}.
Definition set_repo (r : Repo) (s : BotState) : BotState :=
  {| cache := cache s; uf_repo := r; sent := sent s; tick := tick s |}.

(** The monad of handlers: state, and exceptions that keep the state.
    Handlers are run one after the other; [async with lock] is the
    lookup of the lock and nothing more. *)
Definition M (A : Type) : Type := BotState -> res A * BotState.

Definition ret {A} (a : A) : M A := fun s => (Ok a, s).
Definition raise {A} (e : exn) : M A := fun s => (Raise e, s).
Definition bind {A B} (m : M A) (k : A -> M B) : M B :=
  fun s =>
    match m s with
    | (Ok a, s') => k a s'
    | (Raise e, s') => (Raise e, s')
    end.

Notation "x <- m ;; k" := (bind m (fun x => k))
  (at level 62, m at next level, right associativity).
Notation "m ;;; k" := (bind m (fun _ => k))
  (at level 62, right associativity).

(** [try: m except ...: h]: [handler e] is [None] when no clause matches
    [e], which then propagates. *)
Definition try_except {A} (m : M A) (handler : exn -> option (M A)) : M A :=
  fun s =>
    match m s with
    | (Ok a, s') => (Ok a, s')
    | (Raise e, s') =>
        match handler e with
        | Some h => h s'
        | None => (Raise e, s')
        end
    end.

Definition lift_res {A} (r : res A) : M A := fun s => (r, s).

(** A call on [self.cache] that returns a value. *)
Definition cache_get {A} (f : DataCache -> A * DataCache) : M A :=
  fun s => (Ok (fst (f (cache s))), set_cache (snd (f (cache s))) s).
(** A call on [self.cache] that returns nothing. *)
Definition cache_do (f : DataCache -> DataCache) : M unit :=
  fun s => (Ok tt, set_cache (f (cache s)) s).
(** A read-only call on [self.uf_repo]. *)
Definition repo_get {A} (f : Repo -> A) : M A :=
  fun s => (Ok (f (uf_repo s)), s).
(** A writing call on [self.uf_repo] that cannot fail. *)
Definition repo_do (f : Repo -> Repo) : M unit :=
  fun s => (Ok tt, set_repo (f (uf_repo s)) s).

(** An outbound gateway call: logged with its outcome. *)
Definition call (E : Env) (c : gw_call) : M Z :=
  fun s =>
    let r := gateway E (tick s) c in
    (r, {| cache := cache s; uf_repo := uf_repo s;
           sent := sent s ++ [(c, r)]; tick := S (tick s) |}).

(** [update.message.reply_text(text)] *)
Definition reply_text (E : Env) (msg : tg.Message) (text : string) : M Z :=
  call E (ReplyText (tg.chat msg) (tg.message_id msg) text).

(** [self.uf_repo.insert_message(...)], on the state. *)
Definition repo_insert_message (user private_msg_id topic_msg_id : Z)
    (is_spam : bool) (why : string) (now : Z) : M unit :=
  fun s =>
    let done :=
      insert_message user private_msg_id topic_msg_id is_spam why now
                     (messages (uf_repo s)) in
    (fst (fst done), set_repo (set_messages (fun _ => snd done) (uf_repo s)) s).

(** [self.uf_repo.select_message(...)], on the state. *)
Definition repo_select_message (msg_id : Z) (topic_mode : bool) (user : option Z)
  : M (option Messages) :=
  fun s => (select_message msg_id topic_mode user (messages (uf_repo s)), s).

(** The texts of the replies. *)
Definition blocked_notice : string := "你已被封禁".
Definition flood_block_notice : string := "你已被封禁，原因: 刷屏".
Definition flood_warning : string := "请不要刷屏，否则将会被封禁".
Definition bot_error_notice : string := "Bot错误，已不可用，请使用其它方式联系".
Definition timeout_notice : string :=
  "Bot 超时，你的消息未传达
你可以尝试重新发送或使用其它联系方式".
Definition no_text_reason : string := "无文本消息".
Definition verified_notice : string := "验证已通过，你可以发送消息了".
Definition too_many_attempts_notice : string := "验证码错误次数过多，你已被封禁。".
Definition wrong_code_notice (remaining : Z) : string :=
  "验证码错误，你还有 " +:+ str_of_int remaining +:+ " 次机会。".
Definition reply_needed_notice : string := "请回复一个消息".
Definition invalid_target_notice : string := "无效的消息对象".
Definition not_deletable_notice : string := "回复的消息目前已不可删除".

(** [len(s)] and [s[:n]], on the bytes of the string. *)
Definition userfullname_of (usr : tg.User) : string :=
  if (32 <? String.length (tg.full_name usr))%nat
  then String.substring 0 16 (tg.first_name usr)
  else tg.full_name usr.

(** [MyBot.create_topic]; [wall] is the reading of [datetime.now()]. *)
Definition create_topic (E : Env) (upd : tg.Update) (wall : Z) : M unit :=
  match tg.effective_user upd with
  | None => raise ValueError
  | Some usr =>
      let userid := tg.id usr in
      let userfullname := userfullname_of usr in
      let premium := default false (tg.is_premium usr) in
      let topic_name := userfullname +:+ " " +:+ str_of_int userid in
      let final_msg :=
        "用户ID " +:+ str_of_int userid +:+ "
用户名字 " +:+ userfullname +:+ "
Premium 用户: " +:+ (if premium then "是" else "否") in
      existing <- repo_get (select_user userid) ;;
      match existing with
      | Some row =>
          cache_do (set_flag userid "to_topic" (VInt (topic row)))
      | None =>
          created <-
            try_except
              (thread <- call E (CreateForumTopic (topic_chat_id E) topic_name) ;;
               call E (SendMessage (topic_chat_id E) (Some thread) final_msg) ;;;
               repo_do (insert_user userid
                          {| username := tg.username usr;
                             first_name := tg.first_name usr;
                             last_name := tg.last_name usr;
                             full_name := userfullname;
                             language_code := tg.language_code usr;
                             is_premium := premium;
                             topic := thread;
                             first_active_time := wall |}) ;;;
               ret (Some thread))
              (fun e =>
                 if is_Exception e then
                   Some (call E (SendMessage (admin_user_id E) None
                                   ("为用户 " +:+ userfullname +:+ " ("
                                    +:+ str_of_int userid +:+ ") 创建话题失败: "
                                    +:+ exn_str e +:+ "
请检查是否已给予bot管理员权限")) ;;;
                         ret None)
                 else None) ;;
          match created with
          | None => ret tt
          | Some thread => cache_do (set_flag userid "to_topic" (VInt thread))
          end
      end
  end.

(** [MyBot.forward_on_spam_topic] *)
Definition forward_on_spam_topic (E : Env) (from_chat_id message_id : Z)
    (why : string) : M Z :=
  msg <- call E (ForwardMessage (topic_chat_id E) (spam_topic_id E)
                   from_chat_id message_id) ;;
  call E (ReplyText (topic_chat_id E) msg why) ;;;
  ret msg.

(** [MyBot._check_spam_with_typing].  The "typing" indicator, a task
    that runs beside the classifier call, is not modelled. *)
Definition _check_spam_with_typing (E : Env) (text : string) : M (bool * string) :=
  fun s =>
    (check_spam (spamd E) (prohibited_words E) (parse_spam E)
                (classifier E (tick s) text) text,
     {| cache := cache s; uf_repo := uf_repo s; sent := sent s;
        tick := S (tick s) |}).

(** [MyBot.msg_to_topic], lines 363-404: resolve the topic, classify,
    forward or copy, record the mapping. *)
Definition msg_to_topic_relay (E : Env) (upd : tg.Update) (msg : tg.Message)
    (usr : tg.User) (chat : tg.Chat) (to_topic : pyval) (wall : Z) : M unit :=
  let userid := tg.id usr in
  topic_id <-
    (if truthy to_topic then ret to_topic
     else
       found <- repo_get (select_user userid) ;;
       row <-
         match found with
         | Some row => ret row
         | None =>
             create_topic E upd wall ;;;
             again <- repo_get (select_user userid) ;;
             match again with
             | Some row => ret row
             | None =>
                 reply_text E msg bot_error_notice ;;;
                 raise (PyException "创建话题失败")
             end
         end ;;
       cache_do (set_flag userid "to_topic" (VInt (topic row))) ;;;
       ret (VInt (topic row))) ;;
  verdict <-
    match tg.text msg with
    | Some msg_text =>
        if str_truthy msg_text then _check_spam_with_typing E msg_text
        else ret (false, no_text_reason)
    | None => ret (false, no_text_reason)
    end ;;
  let '(is_spam, why) := verdict in
  if is_spam then
    to_topic_msg <- forward_on_spam_topic E (tg.chat_id chat) (tg.message_id msg) why ;;
    repo_insert_message userid (tg.message_id msg) to_topic_msg is_spam why wall
  else
    to_topic_msg <-
      call E (CopyMessage (topic_chat_id E)
                (match topic_id with VInt t => Some t | _ => None end)
                (tg.chat_id chat) (tg.message_id msg)) ;;
    repo_insert_message userid (tg.message_id msg) to_topic_msg is_spam why wall.

(** [MyBot.msg_to_topic], the body of the [try] (lines 354-404); [now]
    is the reading of [time.monotonic()]. *)
Definition msg_to_topic_try (E : Env) (upd : tg.Update) (msg : tg.Message)
    (usr : tg.User) (chat : tg.Chat) (to_topic : pyval) (now wall : Z) : M unit :=
  let userid := tg.id usr in
  msg_count <- cache_get (flood_message userid 4 now) ;;
  if msg_count >? 10 then
    reply_text E msg flood_block_notice ;;;
    cache_do (set_flag userid "block" (VBool true)) ;;;
    repo_do (insert_block userid None)
  else
    (if msg_count >? 7 then reply_text E msg flood_warning ;;; ret tt else ret tt) ;;;
    msg_to_topic_relay E upd msg usr chat to_topic wall.

(** [except telegram.error.TimedOut] of [msg_to_topic] *)
Definition on_timed_out (E : Env) (msg : tg.Message) (e : exn) : option (M unit) :=
  match e with
  | TimedOut => Some (reply_text E msg timeout_notice ;;; ret tt)
  | _ => None
  end.

(** [MyBot.msg_to_topic] *)
Definition msg_to_topic (E : Env) (upd : tg.Update) (now wall : Z) : M unit :=
  match tg.message upd, tg.effective_user upd, tg.effective_chat upd with
  | Some msg, Some usr, Some chat =>
      let userid := tg.id usr in
      _lock <- cache_get (get_user_lock userid) ;;
      blocked <- repo_get (select_block userid) ;;
      if blocked then
        reply_text E msg blocked_notice ;;;
        cache_do (set_flag userid "block" (VBool blocked))
      else
        to_topic <- cache_get (get_flag userid "to_topic" VNone) ;;
        try_except (msg_to_topic_try E upd msg usr chat to_topic now wall)
                   (on_timed_out E msg)
  | _, _, _ => ret tt
  end.

(** [attempts += 1] on a cached value: an [int] (a [bool] is one too). *)
Definition pyval_int (v : pyval) : res Z :=
  match v with
  | VInt z => Ok z
  | VBool b => Ok (if b then 1 else 0)
  | VNone => Raise TypeError
  end.

(** [MyBot._verify_attempts] *)
Definition _verify_attempts (E : Env) (upd : tg.Update) (text : string) (wall : Z)
  : M unit :=
  match tg.message upd, tg.effective_user upd with
  | Some msg, Some usr =>
      let user_id := tg.id usr in
      verify <- repo_get (select_valid_verify user_id) ;;
      match verify with
      | None => ret tt
      | Some v =>
          if verified v then ret tt
          else
            _lock <- cache_get (get_user_lock user_id) ;;
            cached <- cache_get (get_flag user_id "verify_attempts" (VInt 0)) ;;
            if code_matches text (code v) then
              repo_do (update_verified user_id true) ;;;
              cache_do (set_flag user_id "verify" (VBool true)) ;;;
              cache_do (set_flag user_id "verify_attempts" (VInt 0)) ;;;
              reply_text E msg verified_notice ;;;
              create_topic E upd wall
            else
              before <- lift_res (pyval_int cached) ;;
              let attempts := before + 1 in
              cache_do (set_flag user_id "verify_attempts" (VInt attempts)) ;;;
              let remaining := 3 - attempts in
              if remaining >? 0 then
                reply_text E msg (wrong_code_notice remaining) ;;; ret tt
              else
                reply_text E msg too_many_attempts_notice ;;;
                cache_do (set_flag user_id "verify" (VBool false)) ;;;
                repo_do (insert_block user_id None) ;;;
                cache_do (set_flag user_id "block" (VBool true))
      end
  | _, _ => ret tt
  end.

(** [MyBot._delete] (the /d command) *)
Definition _delete (E : Env) (upd : tg.Update) : M unit :=
  match tg.message upd, tg.effective_user upd, tg.effective_chat upd with
  | Some msg, Some usr, Some chat =>
      match tg.reply_to_message msg with
      | None => reply_text E msg reply_needed_notice ;;; ret tt
      | Some msg_id =>
          if bool_decide (Some msg_id = tg.message_thread_id msg) then
            reply_text E msg reply_needed_notice ;;; ret tt
          else
            let delete_row (found : option Messages) : M unit :=
              match found with
              | None => reply_text E msg not_deletable_notice ;;; ret tt
              | Some row =>
                  call E (DeleteMessage (userid row) (private_message_id row)) ;;;
                  call E (DeleteMessage (topic_chat_id E) (topic_message_id row)) ;;;
                  repo_do (set_messages (delete_message row))
              end in
            let userid := tg.id usr in
            match tg.type chat with
            | tg.PRIVATE =>
                found <- repo_select_message msg_id false (Some userid) ;;
                delete_row found
            | _ =>
                if default false (tg.is_forum chat) then
                  found <- repo_select_message msg_id true None ;;
                  delete_row found
                else
                  reply_text E msg invalid_target_notice ;;; ret tt
            end
      end
  | _, _, _ => ret tt
  end.





(** The update of a private message of [usr] in [chat]. *)
Definition update_of (usr : tg.User) (chat : tg.Chat) (msg : tg.Message) : tg.Update :=
  {| tg.message := Some msg; tg.effective_user := Some usr;
     tg.effective_chat := Some chat |}.

(** Successive private messages of one user, each with the readings of
    the monotonic clock and of the wall clock at its arrival, handled by
    [msg_to_topic] one after the other: the states reached. *)
Fixpoint msg_to_topic_all (E : Env) (usr : tg.User) (chat : tg.Chat)
    (events : list (tg.Message * Z * Z)) (s : BotState) : list BotState :=
  match events with
  | [] => []
  | (msg, now, wall) :: rest =>
      let s' := (msg_to_topic E (update_of usr chat msg) now wall s).2 in
      s' :: msg_to_topic_all E usr chat rest s'
  end.


(** The outbound calls a run added to the log. *)
Definition new_calls (before after : BotState) : list (gw_call * res Z) :=
  drop (length (sent before)) (sent after).




(** The outcome of a notice that ends a handler: the handler raises
    what the gateway raises. *)
Definition notice_result (r : res Z) : res unit :=
  match r with
  | Ok _ => Ok tt
  | Raise e => Raise e
  end.

(** *** The staff side: topic messages, /ban, /unban, /verify *)

(** A call on [self.uf_repo] that reads and may raise. *)
Definition repo_try {A} (f : Repo -> res A) : M A :=
  fun s => (f (uf_repo s), s).

Definition no_such_user_notice : string := "对应的用户不存在".
Definition bot_blocked_notice : string := "消息发送失败，对方把你的bot拉黑了".
Definition admin_message_reason : string := "管理员消息".
Definition no_user_given_notice : string := "未指定任何用户".
Definition invalid_user_notice : string := "此用户无效".
Definition not_banned_notice : string := "此用户未被拉黑".
Definition banned_notice : string := "此用户已被封禁".
Definition unbanned_notice : string := "用户已解封".
Definition verify_usage : string := "用法: /verify <true/false>".
Definition verify_cleared_notice : string := "管理员已清除了你的验证状态，请重新验证".
Definition verify_granted_notice : string := "管理员手动通过了你的验证，你可以直接发送消息".

(** [update.message.message_thread_id] when it is truthy. *)
Definition thread_of (msg : tg.Message) : option Z :=
  match tg.message_thread_id msg with
  | Some t => if t =? 0 then None else Some t
  | None => None
  end.

(** [MyBot._resolve_userid_by_topic]: the cached value, or the
    [userid] of the row, or [None]. *)
Definition _resolve_userid_by_topic (topic_id : Z) : M pyval :=
  to_user <- cache_get (get_topic topic_id "to_user" VNone) ;;
  if truthy to_user then ret to_user
  else
    user_data <- repo_try (select_user_by_topic topic_id) ;;
    match user_data with
    | None => ret VNone
    | Some row =>
        cache_do (set_topic topic_id "to_user" (VInt row.1)) ;;;
        ret (VInt row.1)
    end.

(** [MyBot.topic_msg_to_private] *)
Definition topic_msg_to_private (E : Env)
    (chat_id message_thread_id from_chat_id message_id : Z) : M (option Z) :=
  try_except
    (msg <- call E (CopyMessage chat_id None from_chat_id message_id) ;;
     ret (Some msg))
    (fun e =>
       match e with
       | Forbidden =>
           Some (call E (SendMessage (topic_chat_id E) (Some message_thread_id)
                           bot_blocked_notice) ;;;
                 ret None)
       | _ => None
       end).

(** [MyBot._forward_topic_message_to_user] *)
Definition _forward_topic_message_to_user (E : Env)
    (topic_id to_user topic_message_id wall : Z) : M unit :=
  _lock <- cache_get (get_user_lock to_user) ;;
  to_private_msg <-
    topic_msg_to_private E to_user topic_id (topic_chat_id E) topic_message_id ;;
  match to_private_msg with
  | None => ret tt
  | Some private_message_id =>
      repo_insert_message to_user private_message_id topic_message_id false
                          admin_message_reason wall
  end.

(** [MyBot.handle_topic_message] *)
Definition handle_topic_message (E : Env) (upd : tg.Update) (wall : Z) : M unit :=
  match tg.message upd with
  | None => ret tt
  | Some msg =>
      match thread_of msg with
      | None => ret tt
      | Some topic_id =>
          to_user <- _resolve_userid_by_topic topic_id ;;
          if negb (truthy to_user) then
            reply_text E msg no_such_user_notice ;;; ret tt
          else
            user <- lift_res (pyval_int to_user) ;;
            _forward_topic_message_to_user E topic_id user (tg.message_id msg) wall
      end
  end.

(** [MyBot._ban]; [pin m] is the outcome of [pinned_msg.pin(...)] for
    the message [m]. *)
Definition _ban (E : Env) (upd : tg.Update) (pin : Z -> res unit) : M unit :=
  match tg.message upd with
  | None => ret tt
  | Some msg =>
      match thread_of msg with
      | None => reply_text E msg no_user_given_notice ;;; ret tt
      | Some topic_id =>
          user_data <- repo_try (select_user_by_topic topic_id) ;;
          match user_data with
          | None => reply_text E msg invalid_user_notice ;;; ret tt
          | Some row =>
              pinned_msg <- reply_text E msg banned_notice ;;
              lift_res (pin pinned_msg) ;;;
              _lock <- cache_get (get_user_lock row.1) ;;
              repo_do (insert_block row.1 (Some pinned_msg)) ;;;
              cache_do (set_flag row.1 "block" (VBool true))
          end
      end
  end.

(** [MyBot._unban] *)
Definition _unban (E : Env) (upd : tg.Update) : M unit :=
  match tg.message upd with
  | None => ret tt
  | Some msg =>
      match thread_of msg with
      | None => reply_text E msg no_user_given_notice ;;; ret tt
      | Some topic_id =>
          user_data <- repo_try (select_user_by_topic topic_id) ;;
          match user_data with
          | None => reply_text E msg invalid_user_notice ;;; ret tt
          | Some row =>
              block_data <- repo_get (select_block_raw row.1) ;;
              match block_data with
              | None => reply_text E msg not_banned_notice ;;; ret tt
              | Some b =>
                  match pinned_msg_id b with
                  | Some p =>
                      if p =? 0 then ret tt
                      else call E (DeleteMessage (topic_chat_id E) p) ;;; ret tt
                  | None => ret tt
                  end ;;;
                  _lock <- cache_get (get_user_lock row.1) ;;
                  repo_do (delete_block row.1) ;;;
                  cache_do (set_flag row.1 "block" (VBool false)) ;;;
                  reply_text E msg unbanned_notice ;;; ret tt
              end
          end
      end
  end.

(** [self.str_bool_map] *)
Definition str_bool_map (s : string) : option bool :=
  if String.eqb s "true" then Some true
  else if String.eqb s "false" then Some false
  else None.

(** [MyBot._verify]; [args] is [context.args]. *)
Definition _verify (E : Env) (upd : tg.Update) (args : option (list string)) : M unit :=
  match tg.message upd with
  | None => ret tt
  | Some msg =>
      match thread_of msg with
      | None => reply_text E msg no_user_given_notice ;;; ret tt
      | Some topicid =>
          match args with
          | Some [arg] =>
              user_data <- repo_try (select_user_by_topic topicid) ;;
              match user_data with
              | None => reply_text E msg invalid_user_notice ;;; ret tt
              | Some row =>
                  match str_bool_map (lower (strip arg)) with
                  | None => reply_text E msg verify_usage ;;; ret tt
                  | Some false =>
                      cache_do (set_flag row.1 "verify" (VBool false)) ;;;
                      repo_do (update_verified row.1 false) ;;;
                      call E (SendMessage row.1 None verify_cleared_notice) ;;; ret tt
                  | Some true =>
                      cache_do (set_flag row.1 "verify" (VBool true)) ;;;
                      repo_do (update_verified row.1 true) ;;;
                      call E (SendMessage row.1 None verify_granted_notice) ;;; ret tt
                  end
              end
          | _ => reply_text E msg verify_usage ;;; ret tt
          end
      end
  end.

(** *** The user side: the challenge and the entry point *)

Definition please_wait_notice : string := "请稍候".
Definition first_challenge_caption : string :=
  "你好，在发送消息前，请输入图中验证码（不区分大小写）".
Definition challenge_caption : string :=
  "你好，在成功发送消息前，请输入图中验证码（不区分大小写）".
Definition expired_caption : string := "验证码已过期，请重新输入（不区分大小写）".

Inductive captcha_mode : Type := ModeInsert | ModeUpdate.

(** What one handler run reads from outside the bot besides the
    gateway: the configured [ttl], the monotonic clock and the wall
    clock, the text of the next captcha
    ([visual.async_generate_captcha_gif()]) and the outcome of
    [reply_animation], given the caption. *)
Record Readings : Type := {
  ttl : Z;
  monotonic : Z;
  wall_clock : Z;
  captcha_text : string;
  reply_animation : string -> res Z
}.

(** [MyBot._send_captcha_gif] *)
Definition _send_captcha_gif (E : Env) (R : Readings) (upd : tg.Update) (user_id : Z)
    (caption : string) (mode : captcha_mode) : M unit :=
  match tg.message upd with
  | None => ret tt
  | Some message =>
      msg <- reply_text E message please_wait_notice ;;
      cache_do (set_flag user_id "verify" (VBool false)) ;;;
      cache_do (set_flag user_id "verify_attempts" (VInt 0)) ;;;
      match mode with
      | ModeInsert =>
          repo_do (insert_verify user_id (captcha_text R) (ttl R) (wall_clock R))
      | ModeUpdate =>
          repo_do (update_verify_code user_id (captcha_text R) (ttl R) (wall_clock R))
      end ;;;
      call E (DeleteMessage (tg.chat message) msg) ;;;
      lift_res (reply_animation R caption) ;;;
      ret tt
  end.

(** [MyBot._gif_verify] *)
Definition _gif_verify (E : Env) (R : Readings) (upd : tg.Update) (first : bool)
  : M bool :=
  match tg.message upd, tg.effective_user upd with
  | Some _, Some usr =>
      let verify_msg := if first then first_challenge_caption else challenge_caption in
      let user_id := tg.id usr in
      _lock <- cache_get (get_user_lock user_id) ;;
      verify <- repo_get (select_valid_verify user_id) ;;
      match verify with
      | None =>
          _send_captcha_gif E R upd user_id verify_msg ModeInsert ;;; ret false
      | Some v =>
          if verified v then ret true
          else if expires_at v <? wall_clock R then
            _send_captcha_gif E R upd user_id expired_caption ModeUpdate ;;; ret false
          else ret true
      end
  | _, _ => ret false
  end.

(** [MyBot._start] *)
Definition _start (E : Env) (R : Readings) (upd : tg.Update) : M unit :=
  match tg.message upd with
  | None => ret tt
  | Some _ => _gif_verify E R upd true ;;; ret tt
  end.

(** [MyBot.handle_private_message] *)
Definition handle_private_message (E : Env) (R : Readings) (upd : tg.Update) : M unit :=
  match tg.message upd, tg.effective_user upd with
  | Some msg, Some usr =>
      let user_id := tg.id usr in
      blocked <- cache_get (get_flag user_id "block" VNone) ;;
      if truthy blocked then reply_text E msg blocked_notice ;;; ret tt
      else
        cached <- cache_get (get_flag user_id "verify" VNone) ;;
        is_verified <-
          match cached with
          | VNone =>
              v <- repo_get (select_verified user_id) ;;
              cache_do (set_flag user_id "verify" (VBool v)) ;;;
              ret (VBool v)
          | _ => ret cached
          end ;;
        if truthy is_verified then msg_to_topic E upd (monotonic R) (wall_clock R)
        else
          let text := strip (default "" (tg.text msg)) in
          passed <- _gif_verify E R upd false ;;
          if negb passed then ret tt
          else _verify_attempts E upd text (wall_clock R)
  | _, _ => ret tt
  end.

(** The cache at the points of [handle_private_message]: after the two
    reads of the flags, and once the verification has been read from
    the repository when the cache does not hold it.  [verified_flag] is
    the value the handler goes by. *)
Definition flags_read (user_id : Z) (c : DataCache) : DataCache :=
  (get_flag user_id "verify" VNone (get_flag user_id "block" VNone c).2).2.

Definition verified_flag (user_id : Z) (s : BotState) : pyval :=
  match default VNone (cached_flag user_id "verify" (cache s)) with
  | VNone => VBool (select_verified user_id (uf_repo s))
  | v => v
  end.

Definition verification_known (user_id : Z) (s : BotState) : BotState :=
  set_cache
    (match default VNone (cached_flag user_id "verify" (cache s)) with
     | VNone =>
         set_flag user_id "verify" (VBool (select_verified user_id (uf_repo s)))
           (flags_read user_id (cache s))
     | _ => flags_read user_id (cache s)
     end) s.

(** The state in which a challenge has been issued: the notice posted
    as message [m] and deleted again, the flags reset, the challenge
    stored by [store]. *)
Definition challenge_issued (R : Readings) (user_id : Z) (msg : tg.Message)
    (m d : Z) (store : Repo -> Repo) (s : BotState) : BotState :=
  {| cache := set_flag user_id "verify_attempts" (VInt 0)
                (set_flag user_id "verify" (VBool false) (cache s));
     uf_repo := store (uf_repo s);
     sent := sent s ++ [(ReplyText (tg.chat msg) (tg.message_id msg) please_wait_notice,
                         Ok m);
                        (DeleteMessage (tg.chat msg) m, Ok d)];
     tick := S (S (tick s)) |}.

(** How [_gif_verify] stores a new challenge: a new record for a user
    without one, a new code and deadline otherwise. *)
Definition store_challenge (R : Readings) (user_id : Z) (r : Repo) : Repo :=
  match select_valid_verify user_id r with
  | None => insert_verify user_id (captcha_text R) (ttl R) (wall_clock R) r
  | Some _ => update_verify_code user_id (captcha_text R) (ttl R) (wall_clock R) r
  end.

(** A challenge is due: the user has no record, or an unverified one
    whose deadline has passed. *)
Definition challenge_due (R : Readings) (user_id : Z) (r : Repo) : bool :=
  match select_valid_verify user_id r with
  | None => true
  | Some v => negb (verified v) && (expires_at v <? wall_clock R)
  end.

(** ** job.py *)

(** [TGBot._cleanup_cache_job] *)
Definition _cleanup_cache_job : M unit :=
  cache_do clear_topic_all ;;; cache_do clear_user_all.

(** [TGBot._cleanup_db_job]; [now] is the reading of [datetime.now()]. *)
Definition _cleanup_db_job (now : Z) : M unit :=
  repo_do (set_messages (delete_message_on_days 2 now)).

(** ** Invariants, frames and proof automation *)

(** The invariant that links the queue held to all timestamps recorded:
    the queue is sorted and, seen from any later reading of the clock,
    it has the same entries within the window as the full record. *)
Definition tracks (window : Z) (q recorded : list Z) : Prop :=
  nondecreasing q /\
  forall now, Forall (fun t => t <= now) recorded ->
    Forall (fun t => t <= now) q /\
    within_window now window q = within_window now window recorded.

(** Every registered lock was created earlier, and no lock object is
    registered for two users. *)
Definition locks_wf (c : DataCache) : Prop :=
  (forall u l, user_locks c !! u = Some l -> (l < locks_created c)%nat)
  /\ (forall u1 u2 l, user_locks c !! u1 = Some l -> user_locks c !! u2 = Some l -> u1 = u2).

(** One step of a handler: unfold the monad, reduce the projections. *)
Ltac mstep :=
  cbv beta iota zeta delta
      [bind ret raise try_except call reply_text cache_get cache_do repo_get
       repo_do lift_res set_cache set_repo repo_select_message repo_insert_message
       on_timed_out];
  cbn [cache uf_repo sent tick fst snd].

(** The row [create_topic] stores for a new user. *)
Definition new_user_row (usr : tg.User) (thread wall : Z) : Users :=
  {| username := tg.username usr; first_name := tg.first_name usr;
     last_name := tg.last_name usr; full_name := userfullname_of usr;
     language_code := tg.language_code usr;
     is_premium := default false (tg.is_premium usr);
     topic := thread; first_active_time := wall |}.


(** [m] never changes the part [g] of the cache and the repository. *)
Definition preserves {A X} (g : DataCache -> Repo -> X) (m : M A) : Prop :=
  forall s, g (cache (m s).2) (uf_repo (m s).2) = g (cache s) (uf_repo s).






(** ** Concrete scenarios *)

(** A private chat with user 42, a staff group, and gateways that accept
    every call or fail on chosen calls. *)
Definition alice : tg.User :=
  {| tg.id := 42; tg.username := Some "alice"; tg.first_name := "Alice";
     tg.last_name := None; tg.full_name := "Alice";
     tg.language_code := Some "en"; tg.is_premium := None |}.

Definition alice_chat : tg.Chat :=
  {| tg.chat_id := 42; tg.type := tg.PRIVATE; tg.is_forum := None |}.

Definition private_update (mid : Z) (txt : option string) (reply : option Z)
  : tg.Update :=
  update_of alice alice_chat
    {| tg.message_id := mid; tg.chat := 42; tg.text := txt;
       tg.message_thread_id := None; tg.reply_to_message := reply |}.

Definition gateway_ok : nat -> gw_call -> res Z :=
  fun n _ => Ok (1000 + Z.of_nat n).



(** The user has blocked the bot: nothing can be copied into a private
    chat. *)
Definition gateway_user_blocked_bot : nat -> gw_call -> res Z :=
  fun n c =>
    match c with
    | CopyMessage _ None _ _ => Raise Forbidden
    | _ => Ok (1000 + Z.of_nat n)
    end.

(** The owner, the staff group, and a message of the owner there. *)
Definition owner : tg.User :=
  {| tg.id := 1; tg.username := Some "owner"; tg.first_name := "Owner";
     tg.last_name := None; tg.full_name := "Owner";
     tg.language_code := Some "en"; tg.is_premium := None |}.

Definition staff_group : tg.Chat :=
  {| tg.chat_id := -100; tg.type := tg.SUPERGROUP; tg.is_forum := Some true |}.

Definition staff_update (mid : Z) (thread : option Z) (txt : option string)
    (reply : option Z) : tg.Update :=
  update_of owner staff_group
    {| tg.message_id := mid; tg.chat := -100; tg.text := txt;
       tg.message_thread_id := thread; tg.reply_to_message := reply |}.

(** The second gateway delete of a run is refused. *)
Definition gateway_thread_delete_fails : nat -> gw_call -> res Z :=
  fun n c =>
    match c with
    | DeleteMessage chat _ => if chat =? 42 then Ok 1 else Raise BadRequest
    | _ => Ok (1000 + Z.of_nat n)
    end.

(** A bot without classifier credentials (keyword fallback only). *)
Definition env_with (gw : nat -> gw_call -> res Z) : Env :=
  {| topic_chat_id := -100; admin_user_id := 1; spam_topic_id := 5;
     spamd := {| base_url := "https://api.example/v1"; model := "m"; token := "" |};
     prohibited_words := ["spam"];
     parse_spam := fun _ => None;
     gateway := gw;
     classifier := fun _ _ => {| limiter_acquire := Ok tt;
                                 chat_completions_create := Raise OpenAIError |} |}.

Definition Repo_init : Repo :=
  {| verify_users := ∅; block_users := ∅; messages := []; users := ∅ |}.

(** Alice is verified and has topic 77; one of her messages is mapped. *)
Definition alice_row : Users :=
  {| username := Some "alice"; first_name := "Alice"; last_name := None;
     full_name := "Alice"; language_code := Some "en"; is_premium := false;
     topic := 77; first_active_time := 0 |}.

Definition alice_mapping : Messages :=
  {| userid := 42; private_message_id := 7; topic_message_id := 900;
     m_spam := false; m_reason := no_text_reason; time := 50 |}.

Definition state_relaying : BotState :=
  {| cache := DataCache_init;
     uf_repo := {| verify_users := {[ 42 := {| code := "AEJMR"; expires_at := 30;
                                                verified := true |} ]};
                   block_users := ∅;
                   messages := [alice_mapping];
                   users := {[ 42 := alice_row ]} |};
     sent := []; tick := 0%nat |}.

Definition private_message (mid : Z) (txt : option string) : tg.Message :=
  {| tg.message_id := mid; tg.chat := 42; tg.text := txt;
     tg.message_thread_id := None; tg.reply_to_message := None |}.

(** Eleven messages without text, all within four seconds. *)
Definition eleven_messages : list (tg.Message * Z * Z) :=
  map (fun p : Z * Z => (private_message p.1 None, p.2, 100 + p.2))
      [(101, 0); (102, 0); (103, 1); (104, 1); (105, 1); (106, 2); (107, 2);
       (108, 3); (109, 3); (110, 4); (111, 4)].

(** Alice has been sent the challenge "AEJMR" and has not answered yet. *)
Definition state_challenged : BotState :=
  {| cache := set_flag 42 "verify_attempts" (VInt 0)
                (set_flag 42 "verify" (VBool false) DataCache_init);
     uf_repo := insert_verify 42 "AEJMR" 30 0 Repo_init;
     sent := []; tick := 0%nat |}.



(* ================================================================== *)
(** * Part II. Properties                                              *)
(* ================================================================== *)

(** ** Strings *)

Lemma prefix_iff (w text : string) :
  starts_with w text = true <-> exists post, text = w +:+ post.
Proof.
  revert text. induction w as [|c w IH]; intros text; simpl.
  - split; [intros _; exists text; reflexivity | reflexivity].
  - destruct text as [|d text].
    + split; [discriminate | intros [post H]; discriminate].
    + rewrite andb_true_iff, Ascii.eqb_eq, IH. split.
      * intros [-> [post ->]]. exists post. reflexivity.
      * intros [post H]. inversion H. split; [reflexivity | now exists post].
Qed.

Lemma str_in_iff (w text : string) : str_in w text = true <-> occurs_in w text.
Proof.
  unfold occurs_in. induction text as [|d text IH]; simpl.
  - rewrite orb_false_r, prefix_iff. split.
    + intros [post H]. exists EmptyString, post. exact H.
    + intros [[|c pre] [post H]]; [exists post; exact H | discriminate].
  - rewrite orb_true_iff, prefix_iff, IH. split.
    + intros [[post H]|[pre [post H]]].
      * exists EmptyString, post. exact H.
      * exists (String d pre), post. simpl. now rewrite H.
    + intros [[|c pre] [post H]].
      * left. exists post. exact H.
      * right. exists pre, post. simpl in H. now inversion H.
Qed.

Lemma str_in_false_iff (w text : string) :
  str_in w text = false <-> ~ occurs_in w text.
Proof. rewrite <- str_in_iff. destruct (str_in w text); split; congruence. Qed.

Lemma find_first_match {A} (p : A -> bool) (l : list A) :
  match List.find p l with
  | Some x => exists before after, l = before ++ x :: after /\ p x = true
                /\ Forall (fun y => p y = false) before
  | None => Forall (fun y => p y = false) l
  end.
Proof.
  induction l as [|a l IH]; simpl.
  - constructor.
  - destruct (p a) eqn:Ha.
    + exists [], l. repeat split; [exact Ha | constructor].
    + destruct (List.find p l) as [x|].
      * destruct IH as (before & after & -> & Hx & Hb).
        exists (a :: before), after. repeat split; [exact Hx | now constructor].
      * now constructor.
Qed.

Lemma upper_lower_char (c : ascii) : upper_char (lower_char c) = upper_char c.
Proof. destruct c as [[] [] [] [] [] [] [] []]; reflexivity. Qed.

Lemma lower_upper_char (c : ascii) : lower_char (upper_char c) = lower_char c.
Proof. destruct c as [[] [] [] [] [] [] [] []]; reflexivity. Qed.

Lemma upper_lower (s : string) : upper (lower s) = upper s.
Proof. induction s; simpl; [reflexivity | now rewrite upper_lower_char, IHs]. Qed.

Lemma lower_upper (s : string) : lower (upper s) = lower s.
Proof. induction s; simpl; [reflexivity | now rewrite lower_upper_char, IHs]. Qed.

Lemma upper_idempotent (s : string) : upper (upper s) = upper s.
Proof. now rewrite <- (upper_lower (upper s)), lower_upper, upper_lower. Qed.



(** ** C6: the keyword fallback *)

(** C6. [_detect_of_words] is a function of the word list and the text
    alone.  Either some listed word occurs in the text as a (byte-exact,
    hence case-sensitive) substring, and then the result is spam with the
    reason "触发关键词: w" (matched keyword: w) for the first such word w in
    list order; or no listed word occurs and the result is not spam. *)
Theorem detect_of_words_first_match (prohibited_words : list string) (text : string) :
  (exists before w after,
      prohibited_words = before ++ w :: after /\
      occurs_in w text /\
      Forall (fun w' => ~ occurs_in w' text) before /\
      _detect_of_words prohibited_words text
        = {| spam := true; reason := keyword_reason_prefix +:+ w |})
  \/ (Forall (fun w => ~ occurs_in w text) prohibited_words /\
      _detect_of_words prohibited_words text
        = {| spam := false; reason := no_keyword_reason |}).
Proof.
  unfold _detect_of_words.
  pose proof (find_first_match (fun w => str_in w text) prohibited_words) as H.
  destruct (List.find _ prohibited_words) as [w|].
  - left. destruct H as (before & after & -> & Hw & Hb).
    exists before, w, after. repeat split.
    + now apply str_in_iff.
    + eapply Forall_impl; [exact Hb|]. intros a Ha. now apply str_in_false_iff.
  - right. split; [|reflexivity].
    eapply Forall_impl; [exact H|]. intros a Ha. now apply str_in_false_iff.
Qed.

(** The scan is case-sensitive, and the first listed match wins. *)
Example detect_of_words_case_sensitive :
  _detect_of_words ["wire"; "free money"] "FREE MONEY now"
    = {| spam := false; reason := no_keyword_reason |}
  /\ _detect_of_words ["wire"; "free money"] "free money wire now"
    = {| spam := true; reason := keyword_reason_prefix +:+ "wire" |}.
Proof. split; reflexivity. Qed.

(** ** C10: the challenge code *)






Example captcha_text_sample :
  sync_generate_captcha_text (fun i => (3 * i)%nat) = Some "AEJMR"
  /\ code_matches "aeJmr" "AEJMR" = true
  /\ code_matches "aeJmw" "AEJMR" = false.
Proof. repeat split; vm_compute; reflexivity. Qed.

(** ** C3: which failures [check_spam] propagates *)

Lemma check_spam_cases (sd : SpamDetector) (prohibited_words : list string)
    (parse : string -> option Spam) (run : ai_run) (text : string) :
  check_spam sd prohibited_words parse run text =
    if configured sd then
      match check_spam_try parse run text with
      | Ok sp => Ok (spam sp, reason sp)
      | Raise e => if falls_back e then keyword_fallback prohibited_words text else Raise e
      end
    else keyword_fallback prohibited_words text.
Proof.
  unfold check_spam, configured, keyword_fallback.
  destruct (str_truthy (token sd)), (str_truthy (base_url sd)),
    (str_truthy (model sd)); simpl; try reflexivity.
  destruct (check_spam_try parse run text) as [sp|[]]; reflexivity.
Qed.

Lemma model_validate_json_raises (parse : string -> option Spam)
    (response : option string) (e : exn) :
  model_validate_json parse response = Raise e -> e = ValidationError.
Proof.
  unfold model_validate_json. destruct response as [js|]; [destruct (parse js)|];
    congruence.
Qed.

Lemma classify_failure_try (parse : string -> option Spam) (run : ai_run)
    (text : string) :
  match classify_failure parse run text with
  | None => exists sp, check_spam_try parse run text = Ok sp
  | Some ClassifierTimeout => check_spam_try parse run text = Raise AsyncTimeoutError
  | Some ClassifierError => check_spam_try parse run text = Raise OpenAIError
  | Some ClassifierSchemaInvalid => check_spam_try parse run text = Raise ValidationError
  | Some (ClassifierUnknownFailure e) => check_spam_try parse run text = Raise e
  end.
Proof.
  unfold classify_failure, check_spam_try.
  destruct (_detect_of_openai run text) as [response|[]]; try reflexivity.
  destruct (model_validate_json parse response) as [sp|e] eqn:Hv.
  - now exists sp.
  - now rewrite (model_validate_json_raises _ _ _ Hv).
Qed.

(** C3 as stated fails: the client raising [ValueError] during the call
    is neither a timeout, nor a declared classifier error, nor a schema
    error of the classifier's answer, yet [check_spam] does not raise:
    the third [except] clause catches it and the keyword fallback
    answers. *)
Lemma check_spam_masks_value_error :
  classify_failure (fun _ => None) run_client_value_error "hello"
    = Some (ClassifierUnknownFailure ValueError)
  /\ check_spam sd_configured ["spam"] (fun _ => None) run_client_value_error "hello"
    = Ok (false, no_keyword_reason)
  /\ ~ ((exists e, check_spam sd_configured ["spam"] (fun _ => None)
                    run_client_value_error "hello" = Raise e)
        <-> (exists e, classify_failure (fun _ => None) run_client_value_error "hello"
                    = Some (ClassifierUnknownFailure e))).
Proof.
  split; [reflexivity|]. split; [reflexivity|].
  intros [_ H]. destruct H as [e He]; [now exists ValueError | discriminate He].
Qed.

(** C3, amended. [check_spam] raises exactly when the detector is
    configured and the [try] body raised an exception that is not an
    instance of [asyncio.TimeoutError], [OpenAIError], [ValidationError],
    [TypeError] or [ValueError]; it then re-raises that same exception.
    A timeout, a declared classifier error and an invalid answer all give
    the keyword fallback, and so does an unconfigured detector, whatever
    the classifier would have done (no call is made).  Any other failure
    propagates unless its class is [TypeError] or [ValueError] (or
    [ValidationError]), which the validation clause also catches. *)
Theorem check_spam_propagates_iff (sd : SpamDetector) (prohibited_words : list string)
    (parse : string -> option Spam) (run : ai_run) (text : string) :
  ((exists e, check_spam sd prohibited_words parse run text = Raise e) <->
   (configured sd = true /\
    exists e, check_spam_try parse run text = Raise e /\ falls_back e = false))
  /\ (forall e, check_spam sd prohibited_words parse run text = Raise e ->
            check_spam_try parse run text = Raise e)
  /\ (configured sd = false ->
      forall run', check_spam sd prohibited_words parse run' text
                   = keyword_fallback prohibited_words text)
  /\ (forall f, classify_failure parse run text = Some f ->
        f = ClassifierTimeout \/ f = ClassifierError \/ f = ClassifierSchemaInvalid ->
        check_spam sd prohibited_words parse run text
          = keyword_fallback prohibited_words text)
  /\ (forall e, configured sd = true ->
        classify_failure parse run text = Some (ClassifierUnknownFailure e) ->
        check_spam sd prohibited_words parse run text
          = if falls_back e then keyword_fallback prohibited_words text else Raise e).
Proof.
  rewrite !check_spam_cases.
  pose proof (classify_failure_try parse run text) as Hcf.
  refine (conj (conj _ _) (conj _ (conj _ (conj _ _)))).
  - intros [e He]. destruct (configured sd); [|discriminate He].
    split; [reflexivity|]. destruct (check_spam_try parse run text) as [sp|e0].
    + discriminate He.
    + exists e0. split; [reflexivity|]. destruct (falls_back e0); [discriminate He | reflexivity].
  - intros [-> [e [-> ->]]]. now exists e.
  - intros e He. destruct (configured sd); [|discriminate He].
    destruct (check_spam_try parse run text) as [sp|e0]; [discriminate He|].
    destruct (falls_back e0); [discriminate He | congruence].
  - intros Hc run'. now rewrite check_spam_cases, Hc.
  - intros f Hf Hkind. rewrite Hf in Hcf.
    destruct (configured sd); [|reflexivity].
    destruct Hkind as [->| [->| ->]]; now rewrite Hcf.
  - intros e Hc Hf. rewrite Hf in Hcf. now rewrite Hc, Hcf.
Qed.

(** ** C4: the sliding-window flood counter *)

Lemma nondecreasing_app (a b : list Z) :
  nondecreasing (a ++ b) <->
  nondecreasing a /\ nondecreasing b /\ Forall (fun x => Forall (fun y => x <= y) b) a.
Proof.
  induction a as [|x a IH]; simpl.
  - split; [intros H; repeat split; [exact H | constructor] | tauto].
  - rewrite IH, Forall_app, Forall_cons. tauto.
Qed.

Lemma nondecreasing_filter (p : Z -> bool) (l : list Z) :
  nondecreasing l -> nondecreasing (List.filter p l).
Proof.
  induction l as [|x l IH]; simpl; [trivial|]. intros [Hx Hl].
  destruct (p x); simpl; [split|]; auto.
  apply Forall_forall. intros y Hy. apply list_elem_of_In, filter_In in Hy.
  rewrite Forall_forall in Hx. apply Hx, list_elem_of_In. tauto.
Qed.

Lemma filter_all (p : Z -> bool) (l : list Z) :
  Forall (fun t => p t = true) l -> List.filter p l = l.
Proof.
  induction 1 as [|x l Hx _ IH]; simpl; [reflexivity|]. now rewrite Hx, IH.
Qed.

(** On a sorted queue, popping from the front while the front is too old
    removes every entry that is too old. *)
Lemma evict_sorted (now window : Z) (q : list Z) :
  nondecreasing q -> evict now window q = within_window now window q.
Proof.
  unfold within_window. induction q as [|t q IH]; simpl; [reflexivity|].
  intros [Ht Hq]. destruct (Z.gtb_spec (now - t) window) as [Hold|Hin].
  - replace (now - t <=? window) with false by (symmetry; apply Z.leb_gt; lia).
    now apply IH.
  - replace (now - t <=? window) with true by (symmetry; apply Z.leb_le; lia).
    f_equal. symmetry. apply filter_all.
    eapply Forall_impl; [exact Ht|]. intros t' Ht'. cbv beta in Ht'. apply Z.leb_le. lia.
Qed.

(** The entries evicted are a prefix, all too old; the rest is kept. *)
Lemma evict_split (now window : Z) (q : list Z) :
  nondecreasing q ->
  exists evicted, q = evicted ++ evict now window q
    /\ Forall (fun t => now - t > window) evicted
    /\ Forall (fun t => now - t <= window) (evict now window q).
Proof.
  induction q as [|t q IH]; simpl.
  - intros _. exists []. repeat split; constructor.
  - intros [Ht Hq]. destruct (Z.gtb_spec (now - t) window) as [Hold|Hin].
    + destruct (IH Hq) as (ev & Heq & Hev & Hk). exists (t :: ev).
      repeat split; [simpl; congruence | constructor; [lia | exact Hev] | exact Hk].
    + exists []. repeat split; [constructor|]. constructor; [lia|].
      eapply Forall_impl; [exact Ht|]. intros t' Ht'. cbv beta in Ht'. lia.
Qed.

Lemma within_window_later (now now' window : Z) (l : list Z) :
  now <= now' ->
  within_window now' window (within_window now window l) = within_window now' window l.
Proof.
  intros Hle. unfold within_window. induction l as [|t l IH]; simpl; [reflexivity|].
  destruct (Z.leb_spec (now - t) window) as [Hin|Hout]; simpl.
  - now rewrite IH.
  - replace (now' - t <=? window) with false by (symmetry; apply Z.leb_gt; lia).
    exact IH.
Qed.

Lemma evict_keeps_now (now window : Z) (q : list Z) :
  0 < window -> evict now window (q ++ [now]) <> [].
Proof.
  intros HW. induction q as [|t q IH]; simpl.
  - destruct (Z.gtb_spec (now - now) window); [lia | discriminate].
  - destruct (now - t >? window); [exact IH | discriminate].
Qed.

(** One call, for a positive window: the queue held afterwards is the
    old queue with [now] appended and the front evicted; it is not empty
    and its length is returned. *)
Lemma flood_message_step (user_id window now : Z) (c : DataCache) :
  0 < window ->
  let q1 := evict now window (stored_queue user_id c ++ [now]) in
  q1 <> [] /\
  flood_message user_id window now c =
    (Z.of_nat (length q1),
     {| user_locks := user_locks c; locks_created := locks_created c;
        user_data := user_data c; topic_data := topic_data c;
        user_message_time_queues := <[user_id := q1]> (user_message_time_queues c) |}).
Proof.
  intros HW q1. assert (Hne : q1 <> []) by now apply evict_keeps_now.
  split; [exact Hne|]. unfold flood_message.
  replace (window <=? 0) with false by (symmetry; apply Z.leb_gt; lia).
  unfold _get_user_message_time_queue.
  destruct (user_message_time_queues c !! user_id) as [q|] eqn:Hq.
  - assert (Hq1 : evict now window (q ++ [now]) = q1)
      by (unfold q1, stored_queue; now rewrite Hq).
    cbv beta iota zeta. rewrite Hq1.
    destruct q1; [congruence | reflexivity].
  - assert (Hq1 : evict now window ([] ++ [now]) = q1)
      by (unfold q1, stored_queue; now rewrite Hq).
    cbv beta iota zeta. rewrite Hq1.
    cbn [user_message_time_queues user_locks locks_created user_data topic_data].
    rewrite insert_insert_eq.
    destruct q1; [congruence | reflexivity].
Qed.

Lemma stored_queue_flood_message (user_id window now : Z) (c : DataCache) :
  0 < window ->
  stored_queue user_id (snd (flood_message user_id window now c))
    = evict now window (stored_queue user_id c ++ [now]).
Proof.
  intros HW. destruct (flood_message_step user_id window now c HW) as [_ ->].
  unfold stored_queue at 1. simpl. now rewrite lookup_insert_eq.
Qed.

Lemma within_window_app (now window : Z) (a b : list Z) :
  within_window now window (a ++ b)
    = within_window now window a ++ within_window now window b.
Proof. unfold within_window. apply List.filter_app. Qed.

Lemma tracks_step (window now : Z) (q recorded : list Z) :
  tracks window q recorded ->
  Forall (fun t => t <= now) recorded ->
  evict now window (q ++ [now]) = within_window now window (recorded ++ [now])
  /\ tracks window (evict now window (q ++ [now])) (recorded ++ [now]).
Proof.
  intros [Hsorted Hview] Hrec. destruct (Hview now Hrec) as [Hq Hsame].
  assert (Hs : nondecreasing (q ++ [now])).
  { apply nondecreasing_app. split; [exact Hsorted|].
    split; [simpl; split; [constructor | exact I]|].
    eapply Forall_impl; [exact Hq|]. intros t Ht. constructor; [exact Ht | constructor]. }
  assert (Heq : evict now window (q ++ [now])
                = within_window now window (recorded ++ [now])).
  { rewrite evict_sorted by exact Hs. now rewrite !within_window_app, Hsame. }
  split; [exact Heq|]. split.
  - rewrite evict_sorted by exact Hs. now apply nondecreasing_filter.
  - intros now' Hrec'. rewrite Heq. apply Forall_app in Hrec'.
    destruct Hrec' as [Hr' Hn']. inversion Hn' as [|? ? Hle _]; subst. split.
    + apply Forall_forall. intros t Ht. unfold within_window in Ht.
      apply list_elem_of_In, filter_In in Ht. destruct Ht as [Ht _].
      apply in_app_or in Ht. destruct Ht as [Ht|[<-|[]]]; [|exact Hle].
      rewrite Forall_forall in Hr'. now apply Hr', list_elem_of_In.
    + now apply within_window_later.
Qed.

Lemma tracks_refl (window : Z) (q : list Z) : nondecreasing q -> tracks window q q.
Proof. intros H. split; [exact H|]. intros now Hn. now split. Qed.

Lemma flood_calls_counts (user_id window : Z) (times recorded : list Z) (c : DataCache) :
  0 < window ->
  tracks window (stored_queue user_id c) recorded ->
  nondecreasing (recorded ++ times) ->
  fst (flood_calls user_id window times c) = flood_counts_spec window recorded times.
Proof.
  intros HW. revert recorded c. induction times as [|now rest IH]; intros recorded c Htr Hs.
  - reflexivity.
  - simpl. destruct (flood_message user_id window now c) as [n c1] eqn:Hfm.
    destruct (flood_calls user_id window rest c1) as [ns c2] eqn:Hfc. simpl.
    assert (Hrec : Forall (fun t => t <= now) recorded).
    { apply nondecreasing_app in Hs. destruct Hs as (_ & _ & Hall).
      eapply Forall_impl; [exact Hall|]. intros t Ht. now inversion Ht. }
    destruct (tracks_step window now _ _ Htr Hrec) as [Heq Htr'].
    pose proof (stored_queue_flood_message user_id window now c HW) as Hq1.
    destruct (flood_message_step user_id window now c HW) as [_ Hstep].
    apply (f_equal fst) in Hstep. rewrite Hfm in Hq1, Hstep. simpl in Hq1, Hstep.
    rewrite Hstep, Heq. f_equal.
    specialize (IH (recorded ++ [now]) c1). rewrite Hfc in IH. simpl in IH.
    apply IH.
    + now rewrite Hq1.
    + now rewrite <- app_assoc.
Qed.

(** C4. For a positive window and a monotonic clock, the counts that
    successive calls of [flood_message] return for one user are the
    counts of the specification: the number of timestamps recorded so far
    (the queue held at the start and every call since) that lie within
    the window of the current call.  Each call appends its timestamp,
    drops from the front exactly the entries older than the window, keeps
    the others and returns how many are kept; a call whose queue came out
    empty leaves no entry for the user; and a cache without the user's
    entry answers every call as the cache holding an empty queue does. *)
Theorem flood_message_sliding_window (user_id window : Z) (times : list Z)
    (c : DataCache)
    (Hwindow : 0 < window)
    (Hclock : nondecreasing (stored_queue user_id c ++ times)) :
  fst (flood_calls user_id window times c)
    = flood_counts_spec window (stored_queue user_id c) times
  /\ (forall now, nondecreasing (stored_queue user_id c ++ [now]) ->
      exists evicted kept,
        stored_queue user_id c ++ [now] = evicted ++ kept /\
        Forall (fun t => now - t > window) evicted /\
        Forall (fun t => now - t <= window) kept /\
        fst (flood_message user_id window now c) = Z.of_nat (length kept) /\
        stored_queue user_id (snd (flood_message user_id window now c)) = kept)
  /\ (forall now, fst (flood_message user_id window now c) = 0 ->
        user_message_time_queues (snd (flood_message user_id window now c)) !! user_id
          = None)
  /\ (forall now, stored_queue user_id c = [] ->
        flood_message user_id window now (drop_queue_entry user_id c)
          = flood_message user_id window now c).
Proof.
  refine (conj _ (conj _ (conj _ _))).
  - apply flood_calls_counts; [exact Hwindow | | exact Hclock].
    apply tracks_refl. now apply nondecreasing_app in Hclock.
  - intros now Hs. destruct (evict_split now window _ Hs) as (ev & Heq & Hev & Hk).
    exists ev, (evict now window (stored_queue user_id c ++ [now])).
    repeat split; try assumption.
    + destruct (flood_message_step user_id window now c Hwindow) as [_ ->].
      reflexivity.
    + now apply stored_queue_flood_message.
  - intros now H0. destruct (flood_message_step user_id window now c Hwindow) as [Hne Hstep].
    rewrite Hstep in H0. simpl in H0.
    destruct (evict now window (stored_queue user_id c ++ [now])); [congruence|].
    simpl in H0. lia.
  - intros now Hq.
    destruct (flood_message_step user_id window now c Hwindow) as [_ ->].
    destruct (flood_message_step user_id window now (drop_queue_entry user_id c) Hwindow)
      as [_ ->].
    unfold stored_queue in *. simpl. rewrite lookup_delete_eq. simpl.
    rewrite insert_delete_eq.
    destruct (user_message_time_queues c !! user_id); simpl in Hq; now subst.
Qed.

Lemma flood_message_sliding_window_witness :
  0 < 4
  /\ nondecreasing (stored_queue 7 DataCache_init ++ [10; 11; 13; 15; 20])
  /\ fst (flood_calls 7 4 [10; 11; 13; 15; 20] DataCache_init) = [1; 2; 3; 3; 1].
Proof.
  assert (Hw : 0 < 4) by lia.
  assert (Hc : nondecreasing (stored_queue 7 DataCache_init ++ [10; 11; 13; 15; 20]))
    by (simpl; repeat split; repeat constructor; lia).
  split; [exact Hw|]. split; [exact Hc|].
  exact (proj1 (flood_message_sliding_window 7 4 [10; 11; 13; 15; 20]
                  DataCache_init Hw Hc)).
Defined.

(** ** C9: the keyed-mutex registry *)

Lemma get_user_lock_hit (u : Z) (l : nat) (c : DataCache) :
  user_locks c !! u = Some l -> get_user_lock u c = (l, c).
Proof. intros H. unfold get_user_lock. now rewrite H. Qed.

Lemma get_user_lock_miss (u : Z) (c : DataCache) :
  user_locks c !! u = None ->
  get_user_lock u c =
    (locks_created c,
     {| user_locks := <[u := locks_created c]> (user_locks c);
        locks_created := S (locks_created c);
        user_data := user_data c; topic_data := topic_data c;
        user_message_time_queues := user_message_time_queues c |}).
Proof. intros H. unfold get_user_lock, dict_setdefault. now rewrite H. Qed.

Lemma user_locks_flood_message (u w now : Z) (c : DataCache) :
  user_locks (snd (flood_message u w now c)) = user_locks c
  /\ locks_created (snd (flood_message u w now c)) = locks_created c.
Proof.
  unfold flood_message, _get_user_message_time_queue.
  destruct (w <=? 0); [now split|].
  destruct (user_message_time_queues c !! u); now split.
Qed.

(** What an operation other than the wholesale clear does to the lock
    registry: it only ever adds a freshly created lock. *)
Lemma run_cache_op_locks (op : cache_op) (c : DataCache) :
  is_clear_user_all op = false ->
  (user_locks (run_cache_op op c) = user_locks c
   /\ locks_created (run_cache_op op c) = locks_created c)
  \/ (exists u, user_locks c !! u = None
       /\ user_locks (run_cache_op op c) = <[u := locks_created c]> (user_locks c)
       /\ locks_created (run_cache_op op c) = S (locks_created c)).
Proof.
  destruct op as [u|u k d|u k v|t k d|t k v|u w now| |]; intros Hop; try discriminate Hop;
    simpl.
  - destruct (user_locks c !! u) as [l|] eqn:Hl.
    + left. now rewrite (get_user_lock_hit u l c Hl).
    + right. exists u. now rewrite (get_user_lock_miss u c Hl).
  - left. unfold get_flag, _get_user_data. now destruct (user_data c !! u).
  - left. unfold set_flag, _get_user_data. now destruct (user_data c !! u).
  - left. unfold get_topic, _get_topic_data. now destruct (topic_data c !! t).
  - left. unfold set_topic, _get_topic_data. now destruct (topic_data c !! t).
  - left. apply user_locks_flood_message.
  - left. now split.
Qed.

Lemma run_cache_op_keeps_lock (op : cache_op) (c : DataCache) (u : Z) (l : nat) :
  is_clear_user_all op = false ->
  user_locks c !! u = Some l -> user_locks (run_cache_op op c) !! u = Some l.
Proof.
  intros Hop Hl. destruct (run_cache_op_locks op c Hop) as [[-> _]|(u' & Hn & -> & _)].
  - exact Hl.
  - rewrite lookup_insert_ne; [exact Hl | congruence].
Qed.

Lemma run_cache_ops_keeps_lock (ops : list cache_op) (c : DataCache) (u : Z) (l : nat) :
  forallb (fun op => negb (is_clear_user_all op)) ops = true ->
  user_locks c !! u = Some l -> user_locks (run_cache_ops ops c) !! u = Some l.
Proof.
  revert c. induction ops as [|op ops IH]; intros c Hops Hl; [exact Hl|].
  simpl in Hops. apply andb_true_iff in Hops. destruct Hops as [Hop Hops].
  apply negb_true_iff in Hop. simpl. apply IH; [exact Hops|].
  now apply run_cache_op_keeps_lock.
Qed.

Lemma locks_wf_init : locks_wf DataCache_init.
Proof. split; intros *; simpl; rewrite lookup_empty; discriminate. Qed.

Lemma locks_wf_op (op : cache_op) (c : DataCache) :
  locks_wf c -> locks_wf (run_cache_op op c).
Proof.
  intros [Hfresh Hinj]. destruct (is_clear_user_all op) eqn:Hop.
  - destruct op; try discriminate Hop. simpl.
    split; intros *; simpl; rewrite lookup_empty; discriminate.
  - destruct (run_cache_op_locks op c Hop) as [[Hl Hn]|(u' & Hnone & Hl & Hn)];
      unfold locks_wf; rewrite Hl, Hn.
    + now split.
    + split.
      * intros u l. rewrite lookup_insert. case_decide as Hd.
        -- intros [= <-]. lia.
        -- intros Hu. apply Hfresh in Hu. lia.
      * intros u1 u2 l. rewrite !lookup_insert.
        case_decide as Hd1; case_decide as Hd2; subst.
        -- reflexivity.
        -- intros [= <-] Hu2. apply Hfresh in Hu2. lia.
        -- intros Hu1 [= <-]. apply Hfresh in Hu1. lia.
        -- apply Hinj.
Qed.

Lemma locks_wf_ops (ops : list cache_op) (c : DataCache) :
  locks_wf c -> locks_wf (run_cache_ops ops c).
Proof.
  revert c. induction ops as [|op ops IH]; intros c H; [exact H|].
  simpl. apply IH. now apply locks_wf_op.
Qed.

(** C9 as stated fails: the daily job calls [clear_user_all], which
    empties [user_locks]; the next lookup for the same user creates a
    second lock object. *)
Lemma get_user_lock_recreated_after_clear :
  fst (get_user_lock 42 DataCache_init) = 0%nat
  /\ fst (get_user_lock 42
            (run_cache_ops [OpClearUserAll] (snd (get_user_lock 42 DataCache_init))))
     = 1%nat
  /\ fst (get_user_lock 42
            (run_cache_ops [OpClearUserAll] (snd (get_user_lock 42 DataCache_init))))
     <> fst (get_user_lock 42 DataCache_init).
Proof. repeat split; vm_compute; congruence. Qed.

(** C9, amended. [get_user_lock] creates the user's lock on the first
    access (a lock object that did not exist before) and registers it;
    as long as [clear_user_all] is not run, every later lookup, after
    any other operations of the cache, returns that same lock, creates
    nothing and leaves the cache as it is; no other user is given the
    same lock.  [clear_user_all] empties the registry: the first lookup
    after it creates a new lock, different from the earlier one. *)
Theorem get_user_lock_stable_until_clear (c : DataCache) (u : Z) (ops : list cache_op)
    (Hwf : locks_wf c)
    (Hops : forallb (fun op => negb (is_clear_user_all op)) ops = true) :
  let l := fst (get_user_lock u c) in
  let c1 := snd (get_user_lock u c) in
  let c2 := run_cache_ops ops c1 in
  (user_locks c !! u = None -> l = locks_created c /\ locks_created c1 = S l)
  /\ user_locks c1 !! u = Some l
  /\ get_user_lock u c2 = (l, c2)
  /\ (forall u', user_locks c2 !! u' = Some l -> u' = u)
  /\ fst (get_user_lock u (clear_user_all c2)) = locks_created c2
  /\ fst (get_user_lock u (clear_user_all c2)) <> l.
Proof.
  intros l c1 c2.
  assert (Hwf1 : locks_wf c1) by apply (locks_wf_op (OpGetUserLock u) c Hwf).
  assert (Hwf2 : locks_wf c2) by now apply locks_wf_ops.
  assert (H1 : user_locks c1 !! u = Some l).
  { unfold l, c1. destruct (user_locks c !! u) as [l0|] eqn:Hl.
    - now rewrite (get_user_lock_hit u l0 c Hl).
    - rewrite (get_user_lock_miss u c Hl). simpl. apply lookup_insert_eq. }
  assert (H2 : user_locks c2 !! u = Some l) by now apply run_cache_ops_keeps_lock.
  assert (H3 : fst (get_user_lock u (clear_user_all c2)) = locks_created c2).
  { rewrite get_user_lock_miss; [reflexivity | apply lookup_empty]. }
  refine (conj _ (conj H1 (conj _ (conj _ (conj H3 _))))).
  - intros Hnone. unfold l, c1. now rewrite (get_user_lock_miss u c Hnone).
  - now apply get_user_lock_hit.
  - intros u' Hu'. destruct Hwf2 as [_ Hinj]. exact (Hinj u' u l Hu' H2).
  - rewrite H3. destruct Hwf2 as [Hfresh _]. apply Hfresh in H2. lia.
Qed.

Lemma get_user_lock_stable_until_clear_witness :
  locks_wf DataCache_init
  /\ forallb (fun op => negb (is_clear_user_all op))
       [OpSetFlag 42 "verify" (VBool true); OpGetUserLock 7;
        OpFloodMessage 42 4 10; OpClearTopicAll] = true
  /\ get_user_lock 42
       (run_cache_ops [OpSetFlag 42 "verify" (VBool true); OpGetUserLock 7;
                       OpFloodMessage 42 4 10; OpClearTopicAll]
          (snd (get_user_lock 42 DataCache_init)))
     = (fst (get_user_lock 42 DataCache_init),
        run_cache_ops [OpSetFlag 42 "verify" (VBool true); OpGetUserLock 7;
                       OpFloodMessage 42 4 10; OpClearTopicAll]
          (snd (get_user_lock 42 DataCache_init))).
Proof.
  assert (Hops : forallb (fun op => negb (is_clear_user_all op))
            [OpSetFlag 42 "verify" (VBool true); OpGetUserLock 7;
             OpFloodMessage 42 4 10; OpClearTopicAll] = true) by reflexivity.
  split; [exact locks_wf_init|]. split; [exact Hops|].
  exact (proj1 (proj2 (proj2
    (get_user_lock_stable_until_clear DataCache_init 42 _ locks_wf_init Hops)))).
Defined.

(** ** C1: recording a message mapping *)

Lemma filter_nil_iff {A} (p : A -> bool) (l : list A) :
  List.filter p l = [] <-> existsb p l = false.
Proof.
  induction l as [|a l IH]; simpl; [tauto|].
  destruct (p a); simpl; [split; discriminate | exact IH].
Qed.

(** A key that is unique in the table selects at most one row. *)
Lemma filter_unique_key {A K} (key : A -> K) (p : A -> bool) (k : K) (l : list A) :
  (forall r, p r = true -> key r = k) ->
  NoDup (map key l) -> (length (List.filter p l) <= 1)%nat.
Proof.
  intros Hp. induction l as [|a l IH]; simpl; intros Hnd; [lia|].
  apply NoDup_cons in Hnd. destruct Hnd as [Hnotin Hnd].
  destruct (p a) eqn:Ha; [|now apply IH].
  assert (Hnil : List.filter p l = []).
  { apply filter_nil_iff. apply not_true_is_false. intros Hex.
    apply existsb_exists in Hex. destruct Hex as (r & Hr & Hpr).
    apply Hnotin. rewrite (Hp a Ha), <- (Hp r Hpr).
    apply list_elem_of_In, in_map, Hr. }
  rewrite Hnil. simpl. lia.
Qed.

Lemma same_topic_key_eq (t : Z) (r : Messages) :
  same_topic_key t r = true -> topic_message_id r = t.
Proof. unfold same_topic_key. apply Z.eqb_eq. Qed.

Lemma same_private_key_eq (u p : Z) (r : Messages) :
  same_private_key u p r = true -> (userid r, private_message_id r) = (u, p).
Proof.
  unfold same_private_key. rewrite andb_true_iff, !Z.eqb_eq. now intros [-> ->].
Qed.

Lemma select_by_topic_unique (t : Z) (tbl : list Messages) :
  messages_unique tbl ->
  List.filter (same_topic_key t) tbl = []
  \/ exists r, List.filter (same_topic_key t) tbl = [r].
Proof.
  intros [Ht _].
  pose proof (filter_unique_key topic_message_id (same_topic_key t) t tbl
                (same_topic_key_eq t) Ht) as Hlen.
  destruct (List.filter (same_topic_key t) tbl) as [|r [|r' rest]]; simpl in Hlen;
    [now left | right; now exists r | lia].
Qed.

Lemma select_by_private_unique (u p : Z) (tbl : list Messages) :
  messages_unique tbl ->
  List.filter (same_private_key u p) tbl = []
  \/ exists r, List.filter (same_private_key u p) tbl = [r].
Proof.
  intros [_ Hp].
  pose proof (filter_unique_key (fun r => (userid r, private_message_id r))
                (same_private_key u p) (u, p) tbl (same_private_key_eq u p) Hp) as Hlen.
  destruct (List.filter (same_private_key u p) tbl) as [|r [|r' rest]]; simpl in Hlen;
    [now left | right; now exists r | lia].
Qed.

Lemma conflict_split (e : Messages) (tbl : list Messages) :
  existsb (messages_conflict e) tbl
  = existsb (same_topic_key (topic_message_id e)) tbl
    || existsb (same_private_key (userid e) (private_message_id e)) tbl.
Proof.
  induction tbl as [|r tbl IH]; simpl; [reflexivity|]. rewrite IH.
  unfold messages_conflict.
  destruct (same_topic_key _ r), (same_private_key _ _ r),
    (existsb (same_topic_key _) tbl); reflexivity.
Qed.

(** Adding a row whose keys are free keeps both constraints. *)
Lemma messages_unique_add (e : Messages) (tbl : list Messages) :
  messages_unique tbl -> existsb (messages_conflict e) tbl = false ->
  messages_unique (tbl ++ [e]).
Proof.
  intros [Ht Hp] Hfree. rewrite conflict_split in Hfree.
  apply orb_false_iff in Hfree. destruct Hfree as [Hft Hfp].
  split; rewrite map_app; simpl; apply NoDup_app; (split; [assumption|]);
    (split; [|apply NoDup_singleton]); intros k Hk Hin;
    apply list_elem_of_In in Hk; apply in_map_iff in Hk; destruct Hk as (r & <- & Hr);
    apply list_elem_of_singleton in Hin.
  - assert (Hex : existsb (same_topic_key (topic_message_id e)) tbl = true).
    { apply existsb_exists. exists r. split; [exact Hr|]. now apply Z.eqb_eq. }
    congruence.
  - assert (Hex : existsb (same_private_key (userid e) (private_message_id e)) tbl = true).
    { apply existsb_exists. exists r. split; [exact Hr|]. inversion Hin.
      unfold same_private_key. now rewrite !Z.eqb_refl. }
    congruence.
Qed.

(** The three ways [insert_message] ends on a table that satisfies the
    constraints; all three report success. *)
Lemma insert_message_cases (u p t : Z) (sp : bool) (why : string) (now : Z)
    (tbl : list Messages) :
  messages_unique tbl ->
  let e := {| userid := u; private_message_id := p; topic_message_id := t;
              m_spam := sp; m_reason := why; time := now |} in
  (existsb (messages_conflict e) tbl = false /\
   insert_message u p t sp why now tbl = (Ok tt, [SqlInsert e], tbl ++ [e]))
  \/ (existsb (messages_conflict e) tbl = true /\
      (exists r, List.filter (same_topic_key t) tbl = [r]) /\
      insert_message u p t sp why now tbl
        = (Ok tt, [SqlInsert e; SqlSelectByTopic t], tbl))
  \/ (existsb (messages_conflict e) tbl = true /\
      List.filter (same_topic_key t) tbl = [] /\
      (exists r, List.filter (same_private_key u p) tbl = [r]) /\
      insert_message u p t sp why now tbl
        = (Ok tt, [SqlInsert e; SqlSelectByTopic t; SqlSelectByPrivate u p], tbl)).
Proof.
  intros Huniq e. unfold insert_message, messages_add_and_flush_nested_ignore_integrity.
  fold e. destruct (existsb (messages_conflict e) tbl) eqn:Hc.
  - right. destruct (select_by_topic_unique t tbl Huniq) as [Hnil|[r Hr]].
    + right. rewrite Hnil. simpl.
      destruct (select_by_private_unique u p tbl Huniq) as [Hnil'|[r Hr]].
      * exfalso. rewrite conflict_split in Hc. apply filter_nil_iff in Hnil, Hnil'.
        simpl in Hc. rewrite Hnil, Hnil' in Hc. discriminate Hc.
      * rewrite Hr. simpl. repeat split; trivial. now exists r.
    + left. rewrite Hr. simpl. repeat split; trivial. now exists r.
  - left. now split.
Qed.

Lemma count_triple_le_topic (u p t : Z) (tbl : list Messages) :
  (count_triple u p t tbl <= length (List.filter (same_topic_key t) tbl))%nat.
Proof.
  unfold count_triple. induction tbl as [|r tbl IH]; simpl; [lia|].
  unfold stores_triple at 1, same_topic_key at 1.
  destruct (topic_message_id r =? t); rewrite ?andb_false_r, ?andb_true_r; simpl.
  - destruct (_ && _); simpl; lia.
  - exact IH.
Qed.

Lemma count_triple_app (u p t : Z) (a b : list Messages) :
  count_triple u p t (a ++ b) = (count_triple u p t a + count_triple u p t b)%nat.
Proof. unfold count_triple. now rewrite List.filter_app, length_app. Qed.

Lemma count_key_holders_zero (u p t : Z) (sp : bool) (why : string) (now : Z)
    (tbl : list Messages) :
  count_key_holders u p t tbl = 0%nat <->
  existsb (messages_conflict
             {| userid := u; private_message_id := p; topic_message_id := t;
                m_spam := sp; m_reason := why; time := now |}) tbl = false.
Proof.
  unfold count_key_holders. rewrite length_zero_iff_nil, filter_nil_iff. reflexivity.
Qed.

(** C1 as stated fails: insert the triple (1, 7, 9) twice into a table
    whose rows (1, 7, 8) and (2, 5, 9) already hold its two unique keys.
    Both insertions hit a conflict, the re-query by topic id finds the
    row of user 2, both report success -- and no row stores the triple,
    while two rows hold one of its keys. *)
Lemma insert_message_twice_not_one_row :
  messages_unique messages_partial_conflict
  /\ (insert_message 1 7 9 false "a" 200 messages_partial_conflict).1.1 = Ok tt
  /\ (insert_message 1 7 9 false "a" 201
        (insert_message 1 7 9 false "a" 200 messages_partial_conflict).2).1.1 = Ok tt
  /\ count_triple 1 7 9
        (insert_message 1 7 9 false "a" 201
           (insert_message 1 7 9 false "a" 200 messages_partial_conflict).2).2 = 0%nat
  /\ count_key_holders 1 7 9
        (insert_message 1 7 9 false "a" 201
           (insert_message 1 7 9 false "a" 200 messages_partial_conflict).2).2 = 2%nat
  /\ count_triple 1 7 9
        (insert_message 1 7 9 false "a" 201
           (insert_message 1 7 9 false "a" 200 messages_partial_conflict).2).2 <> 1%nat.
Proof.
  split.
  { split; [apply (bool_decide_unpack (NoDup (map topic_message_id messages_partial_conflict)))
           |apply (bool_decide_unpack
                     (NoDup (map (fun r => (userid r, private_message_id r))
                                 messages_partial_conflict)))];
      vm_compute; exact I. }
  repeat split; vm_compute; congruence.
Qed.

(** C1, amended. On a table that satisfies both uniqueness constraints,
    [insert_message] stores the row when its keys are free; on a
    conflict it re-queries by topic id, then (only if that finds nothing)
    by (userid, private id), and reports success as soon as one query
    finds a row.  It raises its consistency error only when the insert
    conflicted and neither query found a row, which does not happen:
    both insertions of the same triple report success, the second one
    leaves the table as the first left it, and at most one row stores
    the triple -- exactly one when no earlier row held either of the
    triple's keys. *)
Theorem insert_message_idempotent (u p t : Z) (sp1 sp2 : bool) (why1 why2 : string)
    (now1 now2 : Z) (tbl : list Messages)
    (Huniq : messages_unique tbl) :
  let e := {| userid := u; private_message_id := p; topic_message_id := t;
              m_spam := sp1; m_reason := why1; time := now1 |} in
  let first := insert_message u p t sp1 why1 now1 tbl in
  let second := insert_message u p t sp2 why2 now2 first.2 in
  first.1.1 = Ok tt /\ second.1.1 = Ok tt
  /\ second.2 = first.2 /\ messages_unique first.2
  /\ ((existsb (messages_conflict e) tbl = false /\
       first = (Ok tt, [SqlInsert e], tbl ++ [e]))
      \/ (existsb (messages_conflict e) tbl = true /\
          (exists r, List.filter (same_topic_key t) tbl = [r]) /\
          first = (Ok tt, [SqlInsert e; SqlSelectByTopic t], tbl))
      \/ (existsb (messages_conflict e) tbl = true /\
          List.filter (same_topic_key t) tbl = [] /\
          (exists r, List.filter (same_private_key u p) tbl = [r]) /\
          first = (Ok tt, [SqlInsert e; SqlSelectByTopic t; SqlSelectByPrivate u p], tbl)))
  /\ (count_triple u p t second.2 <= 1)%nat
  /\ (count_key_holders u p t tbl = 0%nat ->
      first.2 = tbl ++ [e] /\ count_triple u p t second.2 = 1%nat)
  /\ (forall tbl' msg,
        (insert_message u p t sp1 why1 now1 tbl').1.1 = Raise (RuntimeError msg) ->
        existsb (messages_conflict e) tbl' = true /\
        List.filter (same_topic_key t) tbl' = [] /\
        List.filter (same_private_key u p) tbl' = []).
Proof.
  intros e first second.
  pose proof (insert_message_cases u p t sp1 why1 now1 tbl Huniq) as Hfirst.
  fold e first in Hfirst.
  assert (Huniq1 : messages_unique first.2).
  { destruct Hfirst as [[Hfree ->]|[(_ & _ & ->)|(_ & _ & _ & ->)]]; simpl;
      [now apply messages_unique_add | exact Huniq | exact Huniq]. }
  assert (Hconf1 : existsb (messages_conflict
                     {| userid := u; private_message_id := p; topic_message_id := t;
                        m_spam := sp2; m_reason := why2; time := now2 |}) first.2 = true).
  { destruct Hfirst as [[Hfree ->]|[(Hc & _ & ->)|(Hc & _ & _ & ->)]]; simpl.
    - rewrite existsb_app. simpl. unfold messages_conflict at 2, same_topic_key. simpl.
      rewrite Z.eqb_refl. simpl. now rewrite orb_true_r.
    - exact Hc.
    - exact Hc. }
  pose proof (insert_message_cases u p t sp2 why2 now2 first.2 Huniq1) as Hsecond.
  fold second in Hsecond. simpl in Hsecond.
  assert (Hsame : second.2 = first.2 /\ second.1.1 = Ok tt).
  { destruct Hsecond as [[Hfree _]|[(_ & _ & ->)|(_ & _ & _ & ->)]];
      [congruence | now split | now split]. }
  destruct Hsame as [Hsame Hok2].
  assert (Hle : (count_triple u p t first.2 <= 1)%nat).
  { etransitivity; [apply count_triple_le_topic|].
    destruct (select_by_topic_unique t first.2 Huniq1) as [->|[r ->]]; simpl; lia. }
  refine (conj _ (conj Hok2 (conj Hsame (conj Huniq1 (conj Hfirst (conj _ (conj _ _))))))).
  - destruct Hfirst as [[_ ->]|[(_ & _ & ->)|(_ & _ & _ & ->)]]; reflexivity.
  - now rewrite Hsame.
  - intros Hzero. apply (count_key_holders_zero u p t sp1 why1 now1) in Hzero. fold e in Hzero.
    destruct Hfirst as [[_ Hf]|[(Hc & _)|(Hc & _)]]; [|congruence|congruence].
    rewrite Hsame. rewrite Hf in Hle |- *. simpl in *. split; [reflexivity|].
    rewrite count_triple_app in Hle |- *.
    assert (He : count_triple u p t [e] = 1%nat).
    { unfold count_triple, stores_triple. simpl. now rewrite !Z.eqb_refl. }
    lia.
  - intros tbl' msg. unfold insert_message, messages_add_and_flush_nested_ignore_integrity.
    fold e. destruct (existsb (messages_conflict e) tbl') eqn:Hc; simpl; [|discriminate].
    destruct (List.filter (same_topic_key t) tbl') as [|r1 [|r2 l]]; simpl; try discriminate.
    destruct (List.filter (same_private_key u p) tbl') as [|r1 [|r2 l]]; simpl;
      try discriminate.
    now intros _.
Qed.

Lemma insert_message_idempotent_witness :
  messages_unique []
  /\ (insert_message 1 7 9 true "x" 201
        (insert_message 1 7 9 false "a" 200 []).2).1.1 = Ok tt
  /\ count_triple 1 7 9
       (insert_message 1 7 9 true "x" 201 (insert_message 1 7 9 false "a" 200 []).2).2
     = 1%nat.
Proof.
  assert (Hu : messages_unique []) by (split; constructor).
  pose proof (insert_message_idempotent 1 7 9 false true "a" "x" 200 201 [] Hu) as H.
  split; [exact Hu|]. split; [exact (proj1 (proj2 H))|].
  exact (proj2 (proj1 (proj2 (proj2 (proj2 (proj2 (proj2 (proj2 H)))))) eq_refl)).
Defined.

(** ** Running handlers *)

(** ** C7: the /d command removes the mapping row last *)



(** The thread copy cannot be deleted: the row stays. *)
Example delete_keeps_row_when_thread_delete_fails :
  (_delete (env_with gateway_thread_delete_fails)
     (private_update 8 (Some "/d") (Some 7)) state_relaying).1 = Raise BadRequest
  /\ messages (uf_repo (_delete (env_with gateway_thread_delete_fails)
                          (private_update 8 (Some "/d") (Some 7)) state_relaying).2)
     = [alice_mapping].
Proof. split; reflexivity. Qed.

(** ** Reading and writing cache flags *)

Lemma get_flag_value (u : Z) (k : string) (d : pyval) (c : DataCache) :
  (get_flag u k d c).1 = default d (cached_flag u k c).
Proof.
  unfold get_flag, _get_user_data, cached_flag.
  destruct (user_data c !! u) as [data|]; simpl; [|now rewrite lookup_empty].
  now destruct (data !! k).
Qed.

Lemma cached_flag_get_flag (u u' : Z) (k k' : string) (d : pyval) (c : DataCache) :
  cached_flag u' k' (get_flag u k d c).2 = cached_flag u' k' c.
Proof.
  unfold get_flag, _get_user_data, cached_flag.
  destruct (user_data c !! u) as [data|] eqn:Hu; simpl; [reflexivity|].
  rewrite lookup_insert. case_decide as Hd; [|reflexivity].
  subst. rewrite Hu. simpl. apply lookup_empty.
Qed.

Lemma cached_flag_set_flag (u u' : Z) (k k' : string) (v : pyval) (c : DataCache) :
  cached_flag u' k' (set_flag u k v c)
    = if decide (u = u' /\ k = k') then Some v else cached_flag u' k' c.
Proof.
  unfold set_flag, _get_user_data, cached_flag.
  destruct (user_data c !! u) as [data|] eqn:Hu; simpl.
  - rewrite lookup_insert. case_decide as Hd1; simpl.
    + subst. rewrite Hu. simpl. rewrite lookup_insert.
      case_decide as Hd2; case_decide as Hd3; subst; try reflexivity; tauto.
    + case_decide as Hd3; [tauto | reflexivity].
  - rewrite insert_insert_eq, lookup_insert. case_decide as Hd1; simpl.
    + subst. rewrite Hu. simpl. rewrite lookup_insert, lookup_empty.
      case_decide as Hd2; case_decide as Hd3; subst; try reflexivity; tauto.
    + case_decide as Hd3; [tauto | reflexivity].
Qed.

Lemma cached_flag_set_flag_eq (u : Z) (k : string) (v : pyval) (c : DataCache) :
  cached_flag u k (set_flag u k v c) = Some v.
Proof. rewrite cached_flag_set_flag. case_decide; [reflexivity | tauto]. Qed.

Lemma cached_flag_set_flag_key (u u' : Z) (k k' : string) (v : pyval) (c : DataCache) :
  k <> k' -> cached_flag u' k' (set_flag u k v c) = cached_flag u' k' c.
Proof. intros H. rewrite cached_flag_set_flag. case_decide; [tauto | reflexivity]. Qed.

Lemma user_data_get_user_lock (u : Z) (c : DataCache) :
  user_data (get_user_lock u c).2 = user_data c
  /\ user_message_time_queues (get_user_lock u c).2 = user_message_time_queues c.
Proof.
  unfold get_user_lock, dict_setdefault. now destruct (user_locks c !! u).
Qed.

Lemma cached_flag_get_user_lock (u u' : Z) (k' : string) (c : DataCache) :
  cached_flag u' k' (get_user_lock u c).2 = cached_flag u' k' c.
Proof. unfold cached_flag. now rewrite (proj1 (user_data_get_user_lock u c)). Qed.

Lemma user_data_flood_message (u w now : Z) (c : DataCache) :
  user_data (flood_message u w now c).2 = user_data c.
Proof.
  unfold flood_message, _get_user_message_time_queue.
  destruct (w <=? 0); [reflexivity|].
  now destruct (user_message_time_queues c !! u).
Qed.

Lemma cached_flag_flood_message (u u' w now : Z) (k' : string) (c : DataCache) :
  cached_flag u' k' (flood_message u w now c).2 = cached_flag u' k' c.
Proof. unfold cached_flag. now rewrite user_data_flood_message. Qed.

Lemma queues_get_flag (u : Z) (k : string) (d : pyval) (c : DataCache) :
  user_message_time_queues (get_flag u k d c).2 = user_message_time_queues c.
Proof. unfold get_flag, _get_user_data. now destruct (user_data c !! u). Qed.

Lemma queues_set_flag (u : Z) (k : string) (v : pyval) (c : DataCache) :
  user_message_time_queues (set_flag u k v c) = user_message_time_queues c.
Proof. unfold set_flag, _get_user_data. now destruct (user_data c !! u). Qed.

(** ** create_topic *)



(** ** C2: the verification attempts *)

Lemma gateway_accepts (E : Env) (n : nat) (c : gw_call) :
  (forall n c, is_Ok (gateway E n c) = true) -> exists m, gateway E n c = Ok m.
Proof.
  intros H. specialize (H n c). destruct (gateway E n c) as [m|e]; [now exists m|].
  discriminate H.
Qed.










(** ** What a handler leaves as it is *)

Section Frames.
Context {X : Type} (g : DataCache -> Repo -> X).



Lemma preserves_lift_res {A} (r : res A) : preserves g (lift_res r).
Proof. intros s. reflexivity. Qed.










Lemma preserves_repo_select_message (msg_id : Z) (mode : bool) (u : option Z) :
  preserves g (repo_select_message msg_id mode u).
Proof. intros s. reflexivity. Qed.




End Frames.














(** ** The flood reaction of msg_to_topic *)





Lemma evict_ends_with_now (now window : Z) (q : list Z) :
  0 < window -> exists kept, evict now window (q ++ [now]) = kept ++ [now].
Proof.
  intros HW. induction q as [|t q IH]; simpl.
  - destruct (Z.gtb_spec (now - now) window); [lia | now exists []].
  - destruct (now - t >? window); [exact IH|]. now exists (t :: q).
Qed.

















(** ** C5: flood control in the private-to-group relay *)



(** The eighth of the eleven messages is warned about and still copied
    into the user's thread and mapped; the eleventh is only answered. *)
Example eighth_message_warned_and_relayed :
  let E := env_with gateway_ok in
  let states := state_relaying
                :: msg_to_topic_all E alice alice_chat eleven_messages state_relaying in
  map fst (new_calls (nth 7 states state_relaying) (nth 8 states state_relaying))
    = [ReplyText 42 108 flood_warning; CopyMessage (-100) (Some 77) 42 108]
  /\ length (messages (uf_repo (nth 8 states state_relaying)))
     = S (length (messages (uf_repo (nth 7 states state_relaying))))
  /\ map fst (new_calls (nth 10 states state_relaying) (nth 11 states state_relaying))
    = [ReplyText 42 111 flood_block_notice]
  /\ map fst (new_calls state_relaying (nth 1 states state_relaying))
    = [CopyMessage (-100) (Some 77) 42 101].
Proof. repeat split; vm_compute; reflexivity. Qed.

(** ** C8: a gateway timeout in the private-to-group relay *)









(* ================================================================== *)
(** * Part III. Further properties of the code                         *)
(* ================================================================== *)

(** ** cache.py: flags and topic entries *)

Lemma get_topic_value (t : Z) (k : string) (d : pyval) (c : DataCache) :
  (get_topic t k d c).1 = default d (cached_topic t k c).
Proof.
  unfold get_topic, _get_topic_data, cached_topic.
  destruct (topic_data c !! t) as [data|]; simpl; [|now rewrite lookup_empty].
  now destruct (data !! k).
Qed.

Lemma cached_topic_get_topic (t t' : Z) (k k' : string) (d : pyval) (c : DataCache) :
  cached_topic t' k' (get_topic t k d c).2 = cached_topic t' k' c.
Proof.
  unfold get_topic, _get_topic_data, cached_topic.
  destruct (topic_data c !! t) as [data|] eqn:Ht; simpl; [reflexivity|].
  rewrite lookup_insert. case_decide as Hd; [|reflexivity].
  subst. rewrite Ht. simpl. apply lookup_empty.
Qed.

Lemma cached_topic_set_topic (t t' : Z) (k k' : string) (v : pyval) (c : DataCache) :
  cached_topic t' k' (set_topic t k v c)
    = if decide (t = t' /\ k = k') then Some v else cached_topic t' k' c.
Proof.
  unfold set_topic, _get_topic_data, cached_topic.
  destruct (topic_data c !! t) as [data|] eqn:Ht; simpl.
  - rewrite lookup_insert. case_decide as Hd1; simpl.
    + subst. rewrite Ht. simpl. rewrite lookup_insert.
      case_decide as Hd2; case_decide as Hd3; subst; try reflexivity; tauto.
    + case_decide as Hd3; [tauto | reflexivity].
  - rewrite insert_insert_eq, lookup_insert. case_decide as Hd1; simpl.
    + subst. rewrite Ht. simpl. rewrite lookup_insert, lookup_empty.
      case_decide as Hd2; case_decide as Hd3; subst; try reflexivity; tauto.
    + case_decide as Hd3; [tauto | reflexivity].
Qed.

(** The parts of the cache an operation on flags leaves alone. *)
Lemma set_flag_frame (u : Z) (k : string) (v : pyval) (c : DataCache) :
  topic_data (set_flag u k v c) = topic_data c
  /\ user_locks (set_flag u k v c) = user_locks c
  /\ user_message_time_queues (set_flag u k v c) = user_message_time_queues c.
Proof. unfold set_flag, _get_user_data. now destruct (user_data c !! u). Qed.

Lemma get_flag_frame (u : Z) (k : string) (d : pyval) (c : DataCache) :
  topic_data (get_flag u k d c).2 = topic_data c
  /\ user_locks (get_flag u k d c).2 = user_locks c
  /\ user_message_time_queues (get_flag u k d c).2 = user_message_time_queues c.
Proof. unfold get_flag, _get_user_data. now destruct (user_data c !! u). Qed.

Lemma set_topic_frame (t : Z) (k : string) (v : pyval) (c : DataCache) :
  user_data (set_topic t k v c) = user_data c
  /\ user_locks (set_topic t k v c) = user_locks c
  /\ user_message_time_queues (set_topic t k v c) = user_message_time_queues c.
Proof. unfold set_topic, _get_topic_data. now destruct (topic_data c !! t). Qed.

Lemma get_topic_frame (t : Z) (k : string) (d : pyval) (c : DataCache) :
  user_data (get_topic t k d c).2 = user_data c
  /\ user_locks (get_topic t k d c).2 = user_locks c
  /\ user_message_time_queues (get_topic t k d c).2 = user_message_time_queues c.
Proof. unfold get_topic, _get_topic_data. now destruct (topic_data c !! t). Qed.

Lemma topic_data_get_user_lock (u : Z) (c : DataCache) :
  topic_data (get_user_lock u c).2 = topic_data c.
Proof. unfold get_user_lock, dict_setdefault. now destruct (user_locks c !! u). Qed.

Lemma topic_data_flood_message (u w now : Z) (c : DataCache) :
  topic_data (flood_message u w now c).2 = topic_data c.
Proof.
  unfold flood_message, _get_user_message_time_queue.
  destruct (w <=? 0); [reflexivity|].
  now destruct (user_message_time_queues c !! u).
Qed.

(** X1. A flag written with [set_flag] is what [get_flag] returns for
    that user and key, whatever the default and whatever was stored
    before; reads of any other user or key return what they returned
    before the write; and the write touches neither the topic entries,
    nor the locks, nor the flood windows. *)
Theorem set_flag_get_flag_round_trip (u u' : Z) (k k' : string) (v d : pyval)
    (c : DataCache) :
  (get_flag u k d (set_flag u k v c)).1 = v
  /\ ((u', k') <> (u, k) ->
      (get_flag u' k' d (set_flag u k v c)).1 = (get_flag u' k' d c).1)
  /\ topic_data (set_flag u k v c) = topic_data c
  /\ user_locks (set_flag u k v c) = user_locks c
  /\ user_message_time_queues (set_flag u k v c) = user_message_time_queues c.
Proof.
  split; [|split; [|apply set_flag_frame]].
  - now rewrite get_flag_value, cached_flag_set_flag_eq.
  - intros Hne. rewrite !get_flag_value, cached_flag_set_flag.
    case_decide as Hd; [|reflexivity]. destruct Hd as [-> ->]. now destruct Hne.
Qed.

(** X2. A topic entry written with [set_topic] is what [get_topic]
    returns for that topic and key; reads of any other topic or key are
    unchanged; and no flag read of any user changes, as no topic read
    changes when a flag is written. *)
Theorem set_topic_get_topic_round_trip (t t' u : Z) (k k' : string) (v d : pyval)
    (c : DataCache) :
  (get_topic t k d (set_topic t k v c)).1 = v
  /\ ((t', k') <> (t, k) ->
      (get_topic t' k' d (set_topic t k v c)).1 = (get_topic t' k' d c).1)
  /\ (get_flag u k' d (set_topic t k v c)).1 = (get_flag u k' d c).1
  /\ (get_topic t' k' d (set_flag u k v c)).1 = (get_topic t' k' d c).1.
Proof.
  refine (conj _ (conj _ (conj _ _))).
  - rewrite get_topic_value, cached_topic_set_topic.
    case_decide as Hd; [reflexivity | tauto].
  - intros Hne. rewrite !get_topic_value, cached_topic_set_topic.
    case_decide as Hd; [|reflexivity]. destruct Hd as [-> ->]. now destruct Hne.
  - rewrite !get_flag_value. unfold cached_flag.
    now rewrite (proj1 (set_topic_frame t k v c)).
  - rewrite !get_topic_value. unfold cached_topic.
    now rewrite (proj1 (set_flag_frame u k v c)).
Qed.

(** Operations that do not write flags leave every stored flag as it is. *)
Lemma cached_flag_run_cache_op (op : cache_op) (c : DataCache) (u : Z) (k : string) :
  writes_flags op = false ->
  cached_flag u k (run_cache_op op c) = cached_flag u k c.
Proof.
  destruct op as [u0|u0 k0 d0|u0 k0 v0|t0 k0 d0|t0 k0 v0|u0 w0 n0| |];
    cbn [writes_flags run_cache_op snd]; intros Hw; try discriminate Hw.
  - change (get_user_lock u0 c).2 with (snd (get_user_lock u0 c)).
    apply cached_flag_get_user_lock.
  - apply cached_flag_get_flag.
  - unfold cached_flag. now rewrite (proj1 (get_topic_frame t0 k0 d0 c)).
  - unfold cached_flag. now rewrite (proj1 (set_topic_frame t0 k0 v0 c)).
  - apply cached_flag_flood_message.
  - reflexivity.
Qed.

Lemma cached_topic_run_cache_op (op : cache_op) (c : DataCache) (t : Z) (k : string) :
  writes_topics op = false ->
  cached_topic t k (run_cache_op op c) = cached_topic t k c.
Proof.
  destruct op as [u0|u0 k0 d0|u0 k0 v0|t0 k0 d0|t0 k0 v0|u0 w0 n0| |];
    cbn [writes_topics run_cache_op snd]; intros Hw; try discriminate Hw;
    unfold cached_topic.
  - now rewrite topic_data_get_user_lock.
  - now rewrite (proj1 (get_flag_frame u0 k0 d0 c)).
  - now rewrite (proj1 (set_flag_frame u0 k0 v0 c)).
  - apply cached_topic_get_topic.
  - now rewrite topic_data_flood_message.
  - reflexivity.
Qed.

(** X3. Reads do not write.  [get_flag], [get_topic] and
    [get_user_lock] create dictionaries and locks on a miss, and
    [flood_message] records a timestamp, but after any sequence of cache
    operations that holds neither [set_flag] nor [clear_user_all], every
    [get_flag] returns what it would have returned before the sequence;
    and likewise for [get_topic] after a sequence without [set_topic]
    and [clear_topic_all]. *)
Theorem cache_reads_do_not_write (ops : list cache_op) (c : DataCache) :
  (forallb (fun op => negb (writes_flags op)) ops = true ->
   forall u k d,
     (get_flag u k d (run_cache_ops ops c)).1 = (get_flag u k d c).1)
  /\ (forallb (fun op => negb (writes_topics op)) ops = true ->
      forall t k d,
        (get_topic t k d (run_cache_ops ops c)).1 = (get_topic t k d c).1).
Proof.
  split; revert c; induction ops as [|op ops IH]; intros c Hall; try reflexivity;
    cbn [forallb] in Hall; apply andb_true_iff in Hall; destruct Hall as [Hop Hall];
    apply negb_true_iff in Hop; intros x k d; unfold run_cache_ops; cbn [fold_left];
    fold (run_cache_ops ops (run_cache_op op c)); rewrite (IH _ Hall).
  - rewrite !get_flag_value. now rewrite cached_flag_run_cache_op.
  - rewrite !get_topic_value. now rewrite cached_topic_run_cache_op.
Qed.

(** ** cache.py and job.py: the daily cleanup *)

(** X4. After the daily [_cleanup_cache_job], every [get_flag] and every
    [get_topic] returns its default and the lock registry is empty; the
    flood windows are not part of the cleanup, so the next
    [flood_message] of any user counts as if no cleanup had run.  The
    job touches neither the repository nor the gateway. *)
Theorem cleanup_cache_job_resets_cache (s : BotState) :
  let s' := (_cleanup_cache_job s).2 in
  (_cleanup_cache_job s).1 = Ok tt
  /\ (forall u k d, (get_flag u k d (cache s')).1 = d)
  /\ (forall t k d, (get_topic t k d (cache s')).1 = d)
  /\ user_locks (cache s') = ∅
  /\ (forall u w now,
        (flood_message u w now (cache s')).1 = (flood_message u w now (cache s)).1)
  /\ uf_repo s' = uf_repo s
  /\ sent s' = sent s.
Proof.
  intros s'. subst s'. unfold _cleanup_cache_job. mstep.
  refine (conj eq_refl (conj _ (conj _ (conj eq_refl (conj _ (conj eq_refl eq_refl)))))).
  - intros u k d. rewrite get_flag_value. unfold cached_flag, clear_user_all.
    cbn [user_data]. now rewrite lookup_empty.
  - intros t k d. rewrite get_topic_value. unfold cached_topic, clear_user_all,
      clear_topic_all. cbn [topic_data]. now rewrite lookup_empty.
  - intros u w now. destruct (Z.leb_spec w 0) as [Hw|Hw].
    + unfold flood_message. now replace (w <=? 0) with true by (symmetry; now apply Z.leb_le).
    + destruct (flood_message_step u w now (clear_user_all (clear_topic_all (cache s))) Hw)
        as [_ ->].
      destruct (flood_message_step u w now (cache s) Hw) as [_ ->].
      reflexivity.
Qed.

(** ** cache.py: one call of the flood counter *)

Lemma evict_length (now window : Z) (q : list Z) :
  (length (evict now window q) <= length q)%nat.
Proof.
  induction q as [|t q IH]; simpl; [lia|].
  destruct (now - t >? window); simpl; lia.
Qed.

(** X5. One call of [flood_message].  With a window that is not
    positive it returns 0 and leaves the cache as it is.  With a positive
    window the count is at least 1 (the message just recorded) and at
    most one more than the length of the queue held before; the user's
    queue is stored, ends with the new timestamp and has the returned
    length, so the branch that drops an empty queue is never taken; the
    queues of other users, the flags, the topic entries and the locks
    are untouched. *)
Theorem flood_message_bounds (u u' window now : Z) (c : DataCache) :
  let r := flood_message u window now c in
  if window <=? 0 then r = (0, c)
  else
    1 <= r.1 <= Z.of_nat (length (stored_queue u c)) + 1
    /\ (exists kept,
          user_message_time_queues r.2 !! u = Some (kept ++ [now])
          /\ r.1 = Z.of_nat (length kept) + 1)
    /\ (u' <> u ->
        user_message_time_queues r.2 !! u' = user_message_time_queues c !! u')
    /\ user_data r.2 = user_data c
    /\ topic_data r.2 = topic_data c
    /\ user_locks r.2 = user_locks c.
Proof.
  intros r. subst r. destruct (Z.leb_spec window 0) as [Hw|Hw].
  - unfold flood_message. now replace (window <=? 0) with true by (symmetry; now apply Z.leb_le).
  - destruct (flood_message_step u window now c Hw) as [_ ->]. cbn [fst snd
      user_message_time_queues user_data topic_data user_locks].
    destruct (evict_ends_with_now now window (stored_queue u c) Hw) as [kept Hk].
    pose proof (evict_length now window (stored_queue u c ++ [now])) as Hlen.
    rewrite Hk in *. rewrite !length_app in Hlen. cbn [length] in Hlen.
    refine (conj _ (conj _ (conj _ (conj eq_refl (conj eq_refl eq_refl))))).
    + rewrite length_app. cbn [length]. lia.
    + exists kept. rewrite lookup_insert_eq, length_app. cbn [length]. split; [reflexivity | lia].
    + intros Hne. now rewrite lookup_insert_ne by congruence.
Qed.

(** ** cache.py: one lock per user *)

Lemma get_user_lock_registered (u : Z) (c : DataCache) :
  user_locks (get_user_lock u c).2 !! u = Some (get_user_lock u c).1.
Proof.
  destruct (user_locks c !! u) as [l|] eqn:Hl.
  - now rewrite (get_user_lock_hit u l c Hl).
  - rewrite (get_user_lock_miss u c Hl). cbn [fst snd user_locks].
    apply lookup_insert_eq.
Qed.

(** X6. Two users never share a lock.  In the cache reached from the
    empty one by any sequence of operations (the daily clear included),
    no lock object is registered for two users, and the locks that
    [get_user_lock] hands to two different users, one lookup after the
    other, are different objects. *)
Theorem get_user_lock_distinct_users (ops : list cache_op) (u1 u2 : Z)
    (Hne : u1 <> u2) :
  let c := run_cache_ops ops DataCache_init in
  let r1 := get_user_lock u1 c in
  let r2 := get_user_lock u2 r1.2 in
  (forall l, user_locks c !! u1 = Some l -> user_locks c !! u2 <> Some l)
  /\ r1.1 <> r2.1.
Proof.
  intros c r1 r2.
  assert (Hwf : locks_wf c) by (apply locks_wf_ops, locks_wf_init).
  split.
  - intros l H1 H2. apply Hne. exact (proj2 Hwf u1 u2 l H1 H2).
  - assert (Hwf1 : locks_wf r1.2) by exact (locks_wf_op (OpGetUserLock u1) c Hwf).
    assert (Hwf2 : locks_wf r2.2) by exact (locks_wf_op (OpGetUserLock u2) r1.2 Hwf1).
    pose proof (get_user_lock_registered u1 c) as Hr1. fold r1 in Hr1.
    pose proof (get_user_lock_registered u2 r1.2) as Hr2. fold r2 in Hr2.
    pose proof (run_cache_op_keeps_lock (OpGetUserLock u2) r1.2 u1 r1.1 eq_refl Hr1) as Hk.
    cbn [run_cache_op] in Hk. fold r2 in Hk.
    intros Heq. apply Hne. apply (proj2 Hwf2 u1 u2 r1.1); [exact Hk|].
    now rewrite Heq.
Qed.

Lemma get_user_lock_distinct_users_witness :
  42 <> 43
  /\ (get_user_lock 42 (run_cache_ops [OpGetUserLock 7; OpClearUserAll] DataCache_init)).1
     <> (get_user_lock 43
           (get_user_lock 42
              (run_cache_ops [OpGetUserLock 7; OpClearUserAll] DataCache_init)).2).1.
Proof.
  assert (Hne : 42 <> 43) by lia.
  split; [exact Hne|].
  exact (proj2 (get_user_lock_distinct_users [OpGetUserLock 7; OpClearUserAll] 42 43 Hne)).
Defined.

(** ** sql/repository.py: the verification record *)

Lemma set_verify_users_id (f : gmap Z Verify -> gmap Z Verify) (r : Repo) :
  f (verify_users r) = verify_users r -> set_verify_users f r = r.
Proof. intros H. destruct r. unfold set_verify_users. cbn in *. now rewrite H. Qed.

(** X7. The life of a verification record.  [insert_verify] stores the
    code with the deadline [now + ttl] and [verified = False], also over
    an older record (it is an upsert, and so withdraws an earlier
    verification); [update_verified] changes the flag only;
    [update_verify_code] changes the code and the deadline and keeps the
    flag; records of other users are never touched.  For a user with no
    record, [update_verified] and [update_verify_code] change nothing
    (they never create a record) and [select_verified] is [False]. *)
Theorem verify_record_lifecycle (user other : Z) (c1 c2 c3 : string)
    (ttl1 ttl2 ttl3 t1 t2 t3 : Z) (b : bool) (r : Repo) :
  let r1 := insert_verify user c1 ttl1 t1 r in
  let r2 := update_verified user true r1 in
  let r3 := update_verify_code user c2 ttl2 t2 r2 in
  let r4 := insert_verify user c3 ttl3 t3 r3 in
  (select_valid_verify user r1
     = Some {| code := c1; expires_at := t1 + ttl1; verified := false |}
   /\ select_verified user r1 = false)
  /\ (select_valid_verify user r2
        = Some {| code := c1; expires_at := t1 + ttl1; verified := true |}
      /\ select_verified user r2 = true)
  /\ (select_valid_verify user r3
        = Some {| code := c2; expires_at := t2 + ttl2; verified := true |}
      /\ select_verified user r3 = true)
  /\ (select_valid_verify user r4
        = Some {| code := c3; expires_at := t3 + ttl3; verified := false |}
      /\ select_verified user r4 = false)
  /\ (other <> user ->
      select_valid_verify other r4 = select_valid_verify other r)
  /\ (select_valid_verify user r = None ->
      update_verified user b r = r
      /\ update_verify_code user c2 ttl2 t2 r = r
      /\ select_verified user r = false).
Proof.
  intros r1 r2 r3 r4. subst r1 r2 r3 r4.
  unfold select_valid_verify, select_verified, insert_verify, update_verified,
    update_verify_code.
  cbn [verify_users set_verify_users].
  refine (conj _ (conj _ (conj _ (conj _ (conj _ _))))).
  - now rewrite lookup_insert_eq.
  - rewrite lookup_alter_eq, lookup_insert_eq. now split.
  - rewrite !lookup_alter_eq, lookup_insert_eq. now split.
  - now rewrite lookup_insert_eq.
  - intros Hne. rewrite lookup_insert_ne by congruence.
    rewrite !lookup_alter_ne by congruence. now rewrite lookup_insert_ne by congruence.
  - intros Hnone. rewrite Hnone.
    split; [|split; [|reflexivity]]; apply set_verify_users_id, alter_id;
      intros x Hx; congruence.
Qed.

(** ** sql/repository.py: the table of users *)

Lemma filter_at_most_one {A} (p : A -> bool) (l : list A) :
  NoDup l ->
  (forall x y, In x l -> In y l -> p x = true -> p y = true -> x = y) ->
  (length (List.filter p l) <= 1)%nat.
Proof.
  induction l as [|a l IH]; intros Hnd Hone; simpl; [lia|].
  apply NoDup_cons in Hnd. destruct Hnd as [Hnotin Hnd].
  assert (IH' : (length (List.filter p l) <= 1)%nat).
  { apply IH; [exact Hnd|]. intros x y Hx Hy. apply Hone; now right. }
  destruct (p a) eqn:Ha; [|exact IH'].
  destruct (List.filter p l) as [|x rest] eqn:Hf; simpl; [lia|].
  exfalso. assert (Hx : In x (List.filter p l)) by (rewrite Hf; now left).
  apply filter_In in Hx. destruct Hx as [Hx Hpx].
  apply Hnotin, list_elem_of_In.
  now rewrite (Hone a x (or_introl eq_refl) (or_intror Hx) Ha Hpx).
Qed.

Lemma filter_found {A} (p : A -> bool) (l : list A) (x : A) :
  (length (List.filter p l) <= 1)%nat -> In x l -> p x = true ->
  List.filter p l = [x].
Proof.
  intros Hlen Hx Hpx.
  assert (Hin : In x (List.filter p l)) by (apply filter_In; now split).
  destruct (List.filter p l) as [|y [|z rest]]; simpl in *; [tauto | | lia].
  destruct Hin as [->|[]]. reflexivity.
Qed.

Lemma users_rows_by_topic (t : Z) (tbl : gmap Z Users) :
  users_unique tbl ->
  (length (List.filter (fun kv : Z * Users => Z.eqb (topic kv.2) t) (map_to_list tbl))
   <= 1)%nat.
Proof.
  intros Huniq. apply filter_at_most_one; [apply NoDup_map_to_list|].
  intros [u1 r1] [u2 r2] H1 H2 Hp1 Hp2. cbn in Hp1, Hp2.
  apply list_elem_of_In, elem_of_map_to_list in H1.
  apply list_elem_of_In, elem_of_map_to_list in H2.
  apply Z.eqb_eq in Hp1, Hp2.
  assert (u1 = u2) by (apply (Huniq u1 u2 r1 r2 H1 H2); congruence).
  subst. congruence.
Qed.

Lemma select_user_by_topic_found (t u : Z) (row : Users) (r : Repo) :
  users_unique (users r) -> users r !! u = Some row -> topic row = t ->
  select_user_by_topic t r = Ok (Some (u, row)).
Proof.
  intros Huniq Hrow Ht. unfold select_user_by_topic.
  rewrite (filter_found _ _ (u, row) (users_rows_by_topic t (users r) Huniq)).
  - reflexivity.
  - now apply list_elem_of_In, elem_of_map_to_list.
  - cbn. now apply Z.eqb_eq.
Qed.

Lemma select_user_by_topic_inv (t u : Z) (row : Users) (r : Repo) :
  select_user_by_topic t r = Ok (Some (u, row)) ->
  users r !! u = Some row /\ topic row = t.
Proof.
  unfold select_user_by_topic. intros Hsel.
  destruct (List.filter _ (map_to_list (users r))) as [|x [|y rest]] eqn:Hf;
    try discriminate Hsel.
  injection Hsel as ->.
  assert (Hin : In (u, row) (List.filter (fun kv : Z * Users => topic kv.2 =? t)
                               (map_to_list (users r)))) by (rewrite Hf; now left).
  apply filter_In in Hin. destruct Hin as [Hin Hp]. cbn in Hp.
  split; [now apply elem_of_map_to_list, list_elem_of_In | now apply Z.eqb_eq].
Qed.

Lemma select_user_by_topic_none (t : Z) (r : Repo) :
  (forall u row, users r !! u = Some row -> topic row <> t) ->
  select_user_by_topic t r = Ok None.
Proof.
  intros Hfree. unfold select_user_by_topic.
  replace (List.filter _ (map_to_list (users r))) with (@nil (Z * Users)); [reflexivity|].
  symmetry. apply filter_nil_iff. apply not_true_is_false. intros Hex.
  apply existsb_exists in Hex. destruct Hex as ([u row] & Hin & Hp). cbn in Hp.
  apply list_elem_of_In, elem_of_map_to_list in Hin.
  apply (Hfree u row Hin). now apply Z.eqb_eq.
Qed.

Lemma topic_taken_iff (t : Z) (tbl : gmap Z Users) :
  topic_taken t tbl = true <-> exists u row, tbl !! u = Some row /\ topic row = t.
Proof.
  unfold topic_taken. rewrite existsb_exists. split.
  - intros ([u row] & Hin & Hp). cbn in Hp. exists u, row.
    split; [now apply elem_of_map_to_list, list_elem_of_In | now apply Z.eqb_eq].
  - intros (u & row & Hrow & Ht). exists (u, row).
    split; [now apply list_elem_of_In, elem_of_map_to_list | cbn; now apply Z.eqb_eq].
Qed.

Lemma insert_user_cases (u : Z) (row : Users) (r : Repo) :
  (users r !! u = None /\ topic_taken (topic row) (users r) = false
   /\ insert_user u row r = set_users (insert u row) r)
  \/ ((is_Some (users r !! u) \/ topic_taken (topic row) (users r) = true)
      /\ insert_user u row r = r).
Proof.
  unfold insert_user. destruct (users r !! u) as [old|] eqn:Hu.
  - right. split; [left; now exists old | reflexivity].
  - destruct (topic_taken (topic row) (users r)) eqn:Ht.
    + right. split; [now right | reflexivity].
    + left. now repeat split.
Qed.

Lemma insert_user_unique (u : Z) (row : Users) (r : Repo) :
  users_unique (users r) -> users_unique (users (insert_user u row r)).
Proof.
  intros Huniq.
  destruct (insert_user_cases u row r) as [(Hu & Hfree & ->)|[_ ->]]; [|exact Huniq].
  cbn [users set_users]. intros u1 u2 r1 r2. rewrite !lookup_insert.
  assert (Hnot : forall u' r', users r !! u' = Some r' -> topic r' <> topic row).
  { intros u' r' Hr' Heq. apply not_true_iff_false in Hfree. apply Hfree.
    apply topic_taken_iff. now exists u', r'. }
  case_decide as Hd1; case_decide as Hd2; subst.
  - reflexivity.
  - intros [= <-] H2 Heq. symmetry in Heq. now destruct (Hnot u2 r2 H2).
  - intros H1 [= <-] Heq. now destruct (Hnot u1 r1 H1).
  - apply Huniq.
Qed.

Lemma insert_user_keeps_row (u u' : Z) (row old : Users) (r : Repo) :
  users r !! u' = Some old -> users (insert_user u row r) !! u' = Some old.
Proof.
  intros Hold.
  destruct (insert_user_cases u row r) as [(Hu & _ & ->)|[_ ->]]; [|exact Hold].
  cbn [users set_users]. rewrite lookup_insert_ne; [exact Hold | congruence].
Qed.

Lemma select_user_by_topic_total (t : Z) (r : Repo) :
  users_unique (users r) ->
  match select_user_by_topic t r with
  | Ok (Some (u, row)) => users r !! u = Some row /\ topic row = t
  | Ok None => forall u row, users r !! u = Some row -> topic row <> t
  | Raise _ => False
  end.
Proof.
  intros Huniq. destruct (topic_taken t (users r)) eqn:Htaken.
  - apply topic_taken_iff in Htaken. destruct Htaken as (u & row & Hrow & Ht).
    rewrite (select_user_by_topic_found t u row r Huniq Hrow Ht). now split.
  - rewrite select_user_by_topic_none.
    + intros u row Hrow Ht. apply not_true_iff_false in Htaken. apply Htaken.
      apply topic_taken_iff. now exists u, row.
    + intros u row Hrow Ht. apply not_true_iff_false in Htaken. apply Htaken.
      apply topic_taken_iff. now exists u, row.
Qed.

(** X8. The table of users under any sequence of [insert_user] calls:
    the unique constraint on [topic] keeps holding, so a lookup by topic
    never fails with [MultipleResultsFound]; a row that is stored is
    never replaced or removed (the first row of a user stays, whatever
    is inserted for that user later). *)
Theorem insert_user_first_row_stays (rows : list (Z * Users)) (r : Repo)
    (Huniq : users_unique (users r)) :
  users_unique (users (insert_users rows r))
  /\ (forall t, is_Ok (select_user_by_topic t (insert_users rows r)) = true)
  /\ (forall u row, select_user u r = Some row ->
        select_user u (insert_users rows r) = Some row).
Proof.
  revert r Huniq. induction rows as [|[u0 row0] rows IH]; intros r Huniq.
  - refine (conj Huniq (conj _ (fun _ _ H => H))). intros t.
    pose proof (select_user_by_topic_total t r Huniq) as H.
    unfold insert_users. cbn [fold_left].
    destruct (select_user_by_topic t r); [reflexivity | contradiction].
  - unfold insert_users. cbn [fold_left fst snd].
    fold (insert_users rows (insert_user u0 row0 r)).
    destruct (IH _ (insert_user_unique u0 row0 r Huniq)) as (H1 & H2 & H3).
    refine (conj H1 (conj H2 _)). intros u row Hrow. apply H3.
    now apply insert_user_keeps_row.
Qed.

Lemma insert_user_first_row_stays_witness :
  users_unique (users (uf_repo state_relaying))
  /\ select_user 42
       (insert_users [(42, new_user_row alice 78 9); (43, alice_row)]
          (uf_repo state_relaying))
     = Some alice_row.
Proof.
  assert (Huniq : users_unique (users (uf_repo state_relaying))).
  { intros u1 u2 r1 r2. cbn. rewrite !lookup_singleton.
    repeat case_decide; congruence. }
  split; [exact Huniq|].
  exact (proj2 (proj2 (insert_user_first_row_stays
                         [(42, new_user_row alice 78 9); (43, alice_row)]
                         (uf_repo state_relaying) Huniq)) 42 alice_row eq_refl).
Defined.

(** X9. The two lookups of [select_user] agree, and [insert_user] feeds
    both.  On a table that satisfies the constraint, the lookup by topic
    returns a row exactly when the lookup by [userid] returns that row
    and the row has that topic.  When the user has no row and the topic
    is free, the inserted row is then found under its [userid] and under
    its topic; when the user has a row, or another user holds the topic,
    [insert_user] changes nothing and reports nothing. *)
Theorem select_user_insert_user_round_trip (u : Z) (row : Users) (r : Repo)
    (Huniq : users_unique (users r)) :
  (forall t u' row',
     select_user_by_topic t r = Ok (Some (u', row'))
     <-> (select_user u' r = Some row' /\ topic row' = t))
  /\ (select_user u r = None ->
      select_user_by_topic (topic row) r = Ok None ->
      select_user u (insert_user u row r) = Some row
      /\ select_user_by_topic (topic row) (insert_user u row r) = Ok (Some (u, row)))
  /\ ((is_Some (select_user u r)
       \/ exists u' row', select_user_by_topic (topic row) r = Ok (Some (u', row'))) ->
      insert_user u row r = r).
Proof.
  refine (conj _ (conj _ _)).
  - intros t u' row'. split.
    + apply select_user_by_topic_inv.
    + intros [Hrow Ht]. now apply select_user_by_topic_found.
  - intros Hnone Hfree.
    assert (Htaken : topic_taken (topic row) (users r) = false).
    { apply not_true_iff_false. intros Ht. apply topic_taken_iff in Ht.
      destruct Ht as (u' & row' & Hrow' & Ht).
      rewrite (select_user_by_topic_found _ u' row' r Huniq Hrow' Ht) in Hfree.
      discriminate Hfree. }
    destruct (insert_user_cases u row r) as [(_ & _ & Hins)|[[[x Hx]|Ht] _]].
    + assert (Hrow : users (insert_user u row r) !! u = Some row).
      { rewrite Hins. cbn [users set_users]. apply lookup_insert_eq. }
      split; [exact Hrow|].
      apply select_user_by_topic_found; [|exact Hrow|reflexivity].
      now apply insert_user_unique.
    + unfold select_user in Hnone. congruence.
    + congruence.
  - intros Hbusy.
    destruct (insert_user_cases u row r) as [(Hu & Hfree & _)|[_ Hins]]; [|exact Hins].
    exfalso. destruct Hbusy as [[x Hx]|(u' & row' & Hsel)].
    + unfold select_user in Hx. congruence.
    + apply select_user_by_topic_inv in Hsel. apply not_true_iff_false in Hfree.
      apply Hfree, topic_taken_iff. now exists u', row'.
Qed.

Lemma select_user_insert_user_round_trip_witness :
  users_unique (users Repo_init)
  /\ select_user_by_topic 77 (insert_user 42 alice_row Repo_init)
     = Ok (Some (42, alice_row)).
Proof.
  assert (Huniq : users_unique (users Repo_init)).
  { intros u1 u2 r1 r2. cbn. rewrite lookup_empty. discriminate. }
  split; [exact Huniq|].
  refine (proj2 (proj1 (proj2 (select_user_insert_user_round_trip
                                 42 alice_row Repo_init Huniq)) eq_refl _)).
  apply select_user_by_topic_none. intros u row. cbn. rewrite lookup_empty. discriminate.
Defined.

(** ** sql/repository.py: the table of blocked users *)

Lemma pinned_taken_iff (m : Z) (tbl : gmap Z Block) :
  pinned_taken (Some m) tbl = true
  <-> exists u, tbl !! u = Some {| pinned_msg_id := Some m |}.
Proof.
  unfold pinned_taken. rewrite existsb_exists. split.
  - intros ([u [p]] & Hin & Hp). cbn in Hp. apply bool_decide_eq_true in Hp. subst p.
    exists u. now apply elem_of_map_to_list, list_elem_of_In.
  - intros (u & Hu). exists (u, {| pinned_msg_id := Some m |}).
    split; [now apply list_elem_of_In, elem_of_map_to_list|].
    cbn. now apply bool_decide_eq_true.
Qed.

Lemma select_block_iff (u : Z) (r : Repo) :
  select_block u r = true <-> exists b, select_block_raw u r = Some b.
Proof. unfold select_block, select_block_raw. now rewrite bool_decide_eq_true. Qed.

Lemma insert_block_cases (u : Z) (pin : option Z) (r : Repo) :
  insert_block u pin r = r
  \/ (exists m, pin = Some m /\ pinned_taken pin (block_users r) = false
        /\ block_users r !! u = Some {| pinned_msg_id := None |}
        /\ insert_block u pin r
             = set_block_users (insert u {| pinned_msg_id := Some m |}) r)
  \/ (block_users r !! u = None /\ pinned_taken pin (block_users r) = false
      /\ insert_block u pin r = set_block_users (insert u {| pinned_msg_id := pin |}) r).
Proof.
  unfold insert_block. destruct (block_users r !! u) as [[old]|] eqn:Hu.
  - destruct pin as [m|]; [|now left]. destruct old as [p|]; [now left|].
    cbn [pinned_msg_id].
    destruct (pinned_taken (Some m) (block_users r)) eqn:Ht; [now left|].
    right. left. exists m. now repeat split.
  - destruct (pinned_taken pin (block_users r)) eqn:Ht; [now left|].
    right. right. now repeat split.
Qed.

Lemma pins_unique_insert (u : Z) (m : Z) (tbl : gmap Z Block) :
  pins_unique tbl -> pinned_taken (Some m) tbl = false ->
  pins_unique (<[u := {| pinned_msg_id := Some m |}]> tbl).
Proof.
  intros Huniq Hfree u1 u2 m'. rewrite !lookup_insert.
  assert (Hnot : forall u', tbl !! u' <> Some {| pinned_msg_id := Some m |}).
  { intros u' Hu'. apply not_true_iff_false in Hfree. apply Hfree.
    apply pinned_taken_iff. now exists u'. }
  case_decide as Hd1; case_decide as Hd2; subst.
  - reflexivity.
  - intros [= <-] H2. now destruct (Hnot u2).
  - intros H1 [= <-]. now destruct (Hnot u1).
  - apply Huniq.
Qed.

Lemma pins_unique_op (op : block_op) (r : Repo) :
  pins_unique (block_users r) -> pins_unique (block_users (run_block_op op r)).
Proof.
  intros Huniq. destruct op as [u pin|u]; cbn [run_block_op].
  - destruct (insert_block_cases u pin r)
      as [->|[(m & -> & Hfree & _ & ->)|(Hu & Hfree & ->)]]; [exact Huniq| |].
    + cbn [block_users set_block_users]. now apply pins_unique_insert.
    + cbn [block_users set_block_users]. destruct pin as [m|].
      * now apply pins_unique_insert.
      * intros u1 u2 m'. rewrite !lookup_insert.
        case_decide; case_decide; subst; try discriminate; try reflexivity.
        apply Huniq.
  - unfold delete_block. cbn [block_users set_block_users].
    intros u1 u2 m'. rewrite !lookup_delete.
    case_decide; case_decide; subst; try discriminate. apply Huniq.
Qed.

(** X10. Block records.  A block without a pinned message (the
    automatic bans) always takes effect: [select_block] is true after
    [insert_block(userid)].  A pin that is already stored is never
    replaced by a later [insert_block]; a record without a pin takes the
    pin of a later manual ban, when no other record has that pin.
    [delete_block] lifts the block.  Neither operation touches the
    record of another user, and under any sequence of the two the unique
    constraint on [pinned_msg_id] keeps holding. *)
Theorem block_record_round_trip (u u' m p : Z) (pin : option Z)
    (ops : list block_op) (r : Repo) :
  select_block u (insert_block u None r) = true
  /\ (select_block_raw u r = Some {| pinned_msg_id := Some p |} ->
      insert_block u pin r = r)
  /\ (select_block_raw u r = Some {| pinned_msg_id := None |} ->
      pinned_taken (Some m) (block_users r) = false ->
      select_block_raw u (insert_block u (Some m) r)
        = Some {| pinned_msg_id := Some m |})
  /\ select_block u (delete_block u (insert_block u pin r)) = false
  /\ (u' <> u ->
      select_block_raw u' (insert_block u pin r) = select_block_raw u' r
      /\ select_block_raw u' (delete_block u r) = select_block_raw u' r)
  /\ (pins_unique (block_users r) -> pins_unique (block_users (run_block_ops ops r))).
Proof.
  refine (conj _ (conj _ (conj _ (conj _ (conj _ _))))).
  - apply select_block_iff. unfold select_block_raw.
    destruct (insert_block_cases u None r)
      as [Hsame|[(m0 & Hm0 & _)|(Hu & _ & ->)]]; [|discriminate Hm0|].
    + unfold insert_block in *. destruct (block_users r !! u) as [b|] eqn:Hu.
      * exists b. exact Hu.
      * cbn [pinned_taken] in *. rewrite <- Hsame in Hu at 1.
        cbn [block_users set_block_users] in Hu. now rewrite lookup_insert_eq in Hu.
    + eexists. cbn [block_users set_block_users]. apply lookup_insert_eq.
  - unfold select_block_raw, insert_block. intros ->. now destruct pin.
  - unfold select_block_raw, insert_block. intros -> ->.
    cbn [block_users set_block_users pinned_msg_id]. apply lookup_insert_eq.
  - unfold select_block, delete_block. cbn [block_users set_block_users].
    rewrite lookup_delete_eq. apply bool_decide_eq_false. now intros [x Hx].
  - intros Hne. unfold select_block_raw, delete_block.
    cbn [block_users set_block_users]. split; [|now rewrite lookup_delete_ne by congruence].
    destruct (insert_block_cases u pin r)
      as [->|[(m0 & _ & _ & _ & ->)|(_ & _ & ->)]]; [reflexivity| |];
      cbn [block_users set_block_users]; now rewrite lookup_insert_ne by congruence.
  - revert r. induction ops as [|op ops IH]; intros r Huniq; [exact Huniq|].
    unfold run_block_ops. cbn [fold_left]. fold (run_block_ops ops (run_block_op op r)).
    now apply IH, pins_unique_op.
Qed.

(** ** sql/repository.py: the table of message mappings *)

Lemma NoDup_map_filter {A K} (key : A -> K) (p : A -> bool) (l : list A) :
  NoDup (map key l) -> NoDup (map key (List.filter p l)).
Proof.
  induction l as [|a l IH]; simpl; intros Hnd; [exact Hnd|].
  apply NoDup_cons in Hnd. destruct Hnd as [Hnotin Hnd].
  destruct (p a); simpl; [|now apply IH].
  apply NoDup_cons. split; [|now apply IH].
  intros Hin. apply Hnotin. apply list_elem_of_In in Hin. apply list_elem_of_In.
  apply in_map_iff in Hin. destruct Hin as (x & Hx & Hin). apply filter_In in Hin.
  apply in_map_iff. exists x. tauto.
Qed.

Lemma NoDup_map_key_inj {A K} (key : A -> K) (l : list A) (a b : A) :
  NoDup (map key l) -> In a l -> In b l -> key a = key b -> a = b.
Proof.
  induction l as [|x l IH]; simpl; intros Hnd Ha Hb Hk; [contradiction|].
  apply NoDup_cons in Hnd. destruct Hnd as [Hnotin Hnd].
  destruct Ha as [->|Ha], Hb as [->|Hb]; [reflexivity | | |now apply IH].
  - exfalso. apply Hnotin. rewrite Hk. now apply list_elem_of_In, in_map.
  - exfalso. apply Hnotin. rewrite <- Hk. now apply list_elem_of_In, in_map.
Qed.

Lemma filter_comm {A} (p q : A -> bool) (l : list A) :
  List.filter p (List.filter q l) = List.filter q (List.filter p l).
Proof.
  induction l as [|a l IH]; simpl; [reflexivity|].
  destruct (q a) eqn:Hq, (p a) eqn:Hp; simpl; rewrite ?Hq, ?Hp, IH; reflexivity.
Qed.

Lemma messages_unique_filter (keep : Messages -> bool) (tbl : list Messages) :
  messages_unique tbl -> messages_unique (List.filter keep tbl).
Proof. intros [Ht Hp]. split; now apply NoDup_map_filter. Qed.

(** On a table that satisfies the constraints, a stored row is the one
    row under each of its keys. *)
Lemma select_stored_row (tbl : list Messages) (row : Messages) :
  messages_unique tbl -> In row tbl ->
  List.filter (same_topic_key (topic_message_id row)) tbl = [row]
  /\ List.filter (same_private_key (userid row) (private_message_id row)) tbl = [row].
Proof.
  intros [Ht Hp] Hin. split; apply filter_found; try exact Hin.
  - exact (filter_unique_key topic_message_id _ _ tbl
             (same_topic_key_eq (topic_message_id row)) Ht).
  - unfold same_topic_key. apply Z.eqb_refl.
  - exact (filter_unique_key (fun r => (userid r, private_message_id r)) _ _ tbl
             (same_private_key_eq (userid row) (private_message_id row)) Hp).
  - unfold same_private_key. now rewrite !Z.eqb_refl.
Qed.

(** The lookups of a stored row once the table has been filtered. *)
Lemma select_in_filtered (keep : Messages -> bool) (tbl : list Messages)
    (row : Messages) :
  messages_unique tbl -> In row tbl ->
  select_message (topic_message_id row) true None (List.filter keep tbl)
    = Ok (if keep row then Some row else None)
  /\ select_message (private_message_id row) false (Some (userid row))
       (List.filter keep tbl)
     = Ok (if keep row then Some row else None).
Proof.
  intros Huniq Hin. destruct (select_stored_row tbl row Huniq Hin) as [H1 H2].
  unfold select_message. rewrite !(filter_comm _ keep), H1, H2. simpl.
  now destruct (keep row).
Qed.

Lemma insert_message_unique (u p t : Z) (sp : bool) (why : string) (now : Z)
    (tbl : list Messages) :
  messages_unique tbl -> messages_unique (insert_message u p t sp why now tbl).2.
Proof.
  intros Huniq.
  destruct (insert_message_cases u p t sp why now tbl Huniq)
    as [[Hfree ->]|[(_ & _ & ->)|(_ & _ & _ & ->)]]; cbn [snd]; try exact Huniq.
  now apply messages_unique_add.
Qed.

Lemma select_message_total (msg_id : Z) (topic_mode : bool) (u : option Z)
    (tbl : list Messages) :
  messages_unique tbl -> is_Ok (select_message msg_id topic_mode u tbl) = true.
Proof.
  intros Huniq. unfold select_message. destruct topic_mode.
  - now destruct (select_by_topic_unique msg_id tbl Huniq) as [->|[r ->]].
  - destruct u as [u|]; [|reflexivity].
    now destruct (select_by_private_unique u msg_id tbl Huniq) as [->|[r ->]].
Qed.

Lemma messages_unique_ops (ops : list message_op) (tbl : list Messages) :
  messages_unique tbl -> messages_unique (run_message_ops ops tbl).
Proof.
  revert tbl. induction ops as [|op ops IH]; intros tbl Huniq; [exact Huniq|].
  unfold run_message_ops. cbn [fold_left]. fold (run_message_ops ops (run_message_op op tbl)).
  apply IH. destruct op as [u p t sp why now|row|days now]; cbn [run_message_op].
  - now apply insert_message_unique.
  - now apply messages_unique_filter.
  - now apply messages_unique_filter.
Qed.

(** X11. The table of mappings never leaves its constraints.  On every
    table reached from the empty one by calls of [insert_message],
    [delete_message] and [delete_message_on_days], in any order and with
    any arguments, no two rows share a [topic_message_id] or a pair
    ([userid], [private_message_id]); so [select_message], in either
    mode, never fails with [MultipleResultsFound] there, and
    [insert_message] never ends in its [RuntimeError]. *)
Theorem messages_table_keeps_constraints (ops : list message_op) :
  let tbl := run_message_ops ops [] in
  messages_unique tbl
  /\ (forall msg_id topic_mode u,
        is_Ok (select_message msg_id topic_mode u tbl) = true)
  /\ (forall u p t sp why now, (insert_message u p t sp why now tbl).1.1 = Ok tt).
Proof.
  intros tbl.
  assert (Huniq : messages_unique tbl).
  { apply messages_unique_ops. split; apply NoDup_nil_2. }
  refine (conj Huniq (conj _ _)).
  - intros msg_id topic_mode u. now apply select_message_total.
  - intros u p t sp why now.
    now destruct (insert_message_cases u p t sp why now tbl Huniq)
      as [[_ ->]|[(_ & _ & ->)|(_ & _ & _ & ->)]].
Qed.

(** X12. Insert, then look up.  On a table that satisfies the
    constraints and holds neither key of the new mapping,
    [insert_message] succeeds and the new row is what [select_message]
    returns under its topic message id and under its user and private
    message id; a lookup under any other key returns what it returned
    before. *)
Theorem select_message_insert_message_round_trip (u p t : Z) (sp : bool)
    (why : string) (now : Z) (tbl : list Messages)
    (Huniq : messages_unique tbl)
    (Hfree_topic : select_message t true None tbl = Ok None)
    (Hfree_private : select_message p false (Some u) tbl = Ok None) :
  let e := {| userid := u; private_message_id := p; topic_message_id := t;
              m_spam := sp; m_reason := why; time := now |} in
  let out := insert_message u p t sp why now tbl in
  out = (Ok tt, [SqlInsert e], tbl ++ [e])
  /\ select_message t true None out.2 = Ok (Some e)
  /\ select_message p false (Some u) out.2 = Ok (Some e)
  /\ (forall t', t' <> t ->
        select_message t' true None out.2 = select_message t' true None tbl)
  /\ (forall u' p', (u', p') <> (u, p) ->
        select_message p' false (Some u') out.2 = select_message p' false (Some u') tbl).
Proof.
  intros e out.
  assert (Hnil_t : List.filter (same_topic_key t) tbl = []).
  { unfold select_message in Hfree_topic.
    now destruct (List.filter (same_topic_key t) tbl) as [|r [|r' rest]]. }
  assert (Hnil_p : List.filter (same_private_key u p) tbl = []).
  { unfold select_message in Hfree_private.
    now destruct (List.filter (same_private_key u p) tbl) as [|r [|r' rest]]. }
  assert (Hfree : existsb (messages_conflict e) tbl = false).
  { rewrite conflict_split. apply filter_nil_iff in Hnil_t, Hnil_p. cbn [e userid
      private_message_id topic_message_id]. now rewrite Hnil_t, Hnil_p. }
  assert (Hout : out = (Ok tt, [SqlInsert e], tbl ++ [e])).
  { unfold out, insert_message, messages_add_and_flush_nested_ignore_integrity.
    fold e. now rewrite Hfree. }
  rewrite Hout. cbn [snd]. unfold select_message.
  rewrite !List.filter_app, Hnil_t, Hnil_p. cbn [List.filter app].
  unfold same_topic_key at 1, same_private_key at 1.
  cbn [e userid private_message_id topic_message_id]. rewrite !Z.eqb_refl.
  cbn [andb scalar_one_or_none].
  refine (conj eq_refl (conj eq_refl (conj eq_refl (conj _ _)))).
  - intros t' Hne. rewrite List.filter_app. cbn [List.filter].
    unfold same_topic_key at 2. cbn [e topic_message_id].
    replace (t =? t') with false by (symmetry; apply Z.eqb_neq; congruence).
    now rewrite app_nil_r.
  - intros u' p' Hne. rewrite List.filter_app. cbn [List.filter].
    unfold same_private_key at 2. cbn [e userid private_message_id].
    destruct (Z.eqb_spec u u') as [->|Hu], (Z.eqb_spec p p') as [->|Hp];
      cbn [andb]; rewrite ?app_nil_r; try reflexivity.
    now destruct Hne.
Qed.

Lemma select_message_insert_message_round_trip_witness :
  messages_unique [alice_mapping]
  /\ select_message 8 false (Some 42)
       (insert_message 42 8 901 false no_text_reason 60 [alice_mapping]).2
     = Ok (Some {| userid := 42; private_message_id := 8; topic_message_id := 901;
                   m_spam := false; m_reason := no_text_reason; time := 60 |}).
Proof.
  assert (Huniq : messages_unique [alice_mapping]).
  { split; apply NoDup_singleton. }
  split; [exact Huniq|].
  exact (proj1 (proj2 (proj2 (select_message_insert_message_round_trip
                                42 8 901 false no_text_reason 60 [alice_mapping]
                                Huniq eq_refl eq_refl)))).
Defined.

(** X13. Delete, then look up.  On a table that satisfies the
    constraints, [delete_message] of a stored row removes that row and
    no other: both lookups of the row return [None] afterwards, and
    every other stored row is still returned under both of its keys. *)
Theorem delete_message_select_message (row : Messages) (tbl : list Messages)
    (Huniq : messages_unique tbl) (Hin : In row tbl) :
  let tbl' := delete_message row tbl in
  select_message (topic_message_id row) true None tbl' = Ok None
  /\ select_message (private_message_id row) false (Some (userid row)) tbl' = Ok None
  /\ (forall r, In r tbl -> r <> row ->
        In r tbl'
        /\ select_message (topic_message_id r) true None tbl' = Ok (Some r)
        /\ select_message (private_message_id r) false (Some (userid r)) tbl'
           = Ok (Some r))
  /\ S (length tbl') = length tbl.
Proof.
  intros tbl'. subst tbl'. unfold delete_message.
  set (keep := fun r => negb (same_topic_key (topic_message_id row) r)).
  assert (Hrow : keep row = false).
  { unfold keep, same_topic_key. now rewrite Z.eqb_refl. }
  assert (Hother : forall r, In r tbl -> r <> row -> keep r = true).
  { intros r Hr Hne. unfold keep, same_topic_key. apply negb_true_iff, Z.eqb_neq.
    intros Heq. apply Hne.
    exact (NoDup_map_key_inj topic_message_id tbl r row (proj1 Huniq) Hr Hin Heq). }
  destruct (select_in_filtered keep tbl row Huniq Hin) as [H1 H2].
  rewrite Hrow in H1, H2. refine (conj H1 (conj H2 (conj _ _))).
  - intros r Hr Hne.
    destruct (select_in_filtered keep tbl r Huniq Hr) as [H3 H4].
    rewrite (Hother r Hr Hne) in H3, H4. refine (conj _ (conj H3 H4)).
    apply filter_In. split; [exact Hr | now apply Hother].
  - destruct (select_stored_row tbl row Huniq Hin) as [Hsel _].
    assert (Hlen : forall l : list Messages,
              (length (List.filter keep l)
               + length (List.filter (same_topic_key (topic_message_id row)) l))%nat
              = length l).
    { induction l as [|a l IH]; simpl; [reflexivity|]. unfold keep at 1.
      destruct (same_topic_key (topic_message_id row) a); simpl; lia. }
    specialize (Hlen tbl). rewrite Hsel in Hlen. simpl in Hlen. lia.
Qed.

Lemma delete_message_select_message_witness :
  messages_unique [alice_mapping]
  /\ select_message 7 false (Some 42) (delete_message alice_mapping [alice_mapping])
     = Ok None.
Proof.
  assert (Huniq : messages_unique [alice_mapping]).
  { split; apply NoDup_singleton. }
  split; [exact Huniq|].
  exact (proj1 (proj2 (delete_message_select_message alice_mapping [alice_mapping]
                         Huniq (or_introl eq_refl)))).
Defined.

(** ** job.py: the daily cleanup of the mappings *)

Lemma filter_idem {A} (p : A -> bool) (l : list A) :
  List.filter p (List.filter p l) = List.filter p l.
Proof.
  induction l as [|a l IH]; simpl; [reflexivity|].
  destruct (p a) eqn:Hp; simpl; rewrite ?Hp, IH; reflexivity.
Qed.

(** X14. The daily [_cleanup_db_job] removes the mappings recorded more
    than two days (172800 seconds) before it runs and keeps the others:
    on a table that satisfies the constraints, a stored row is returned
    by both lookups afterwards exactly when it is not older than that.
    The job writes nothing else, keeps the constraints, and running it
    again at the same time changes nothing. *)
Theorem cleanup_db_job_drops_old_mappings (now : Z) (s : BotState) (row : Messages)
    (Huniq : messages_unique (messages (uf_repo s)))
    (Hin : In row (messages (uf_repo s))) :
  let s' := (_cleanup_db_job now s).2 in
  let kept := if time row <? now - 172800 then None else Some row in
  (_cleanup_db_job now s).1 = Ok tt
  /\ select_message (topic_message_id row) true None (messages (uf_repo s')) = Ok kept
  /\ select_message (private_message_id row) false (Some (userid row))
       (messages (uf_repo s')) = Ok kept
  /\ messages_unique (messages (uf_repo s'))
  /\ (cache s' = cache s /\ sent s' = sent s
      /\ users (uf_repo s') = users (uf_repo s)
      /\ verify_users (uf_repo s') = verify_users (uf_repo s)
      /\ block_users (uf_repo s') = block_users (uf_repo s))
  /\ (_cleanup_db_job now s').2 = s'.
Proof.
  intros s' kept. subst s' kept. unfold _cleanup_db_job. mstep.
  cbn [messages set_messages users verify_users block_users].
  unfold delete_message_on_days. change (2 * 86400) with 172800.
  set (keep := fun r : Messages => negb (time r <? now - 172800)).
  destruct (select_in_filtered keep (messages (uf_repo s)) row Huniq Hin) as [H1 H2].
  assert (Hk : (if keep row then Some row else None)
               = (if time row <? now - 172800 then None else Some row)).
  { unfold keep. now destruct (time row <? now - 172800). }
  rewrite Hk in H1, H2.
  refine (conj eq_refl (conj H1 (conj H2 (conj _ (conj _ _))))).
  - now apply messages_unique_filter.
  - now repeat split.
  - unfold set_messages. cbn [messages verify_users block_users users].
    now rewrite filter_idem.
Qed.

Lemma cleanup_db_job_drops_old_mappings_witness :
  messages_unique (messages (uf_repo state_relaying))
  /\ select_message 900 true None
       (messages (uf_repo (_cleanup_db_job 172851 state_relaying).2)) = Ok None
  /\ select_message 900 true None
       (messages (uf_repo (_cleanup_db_job 172850 state_relaying).2))
     = Ok (Some alice_mapping).
Proof.
  assert (Huniq : messages_unique (messages (uf_repo state_relaying))).
  { split; apply NoDup_singleton. }
  split; [exact Huniq|]. split.
  - exact (proj1 (proj2 (cleanup_db_job_drops_old_mappings 172851 state_relaying
                           alice_mapping Huniq (or_introl eq_refl)))).
  - exact (proj1 (proj2 (cleanup_db_job_drops_old_mappings 172850 state_relaying
                           alice_mapping Huniq (or_introl eq_refl)))).
Defined.

(** ** spam_detect.py: the base URL of the classifier *)

Lemma append_cons (a : ascii) (s x : string) : String a s +:+ x = String a (s +:+ x).
Proof. reflexivity. Qed.

Lemma append_empty_r (s : string) : s +:+ "" = s.
Proof. induction s as [|a s IH]; [reflexivity|]. now rewrite append_cons, IH. Qed.

Lemma rstrip_char_spec (c : ascii) (s : string) :
  ends_with_char c (rstrip_char c s) = false
  /\ exists n, s = rstrip_char c s +:+ repeat_char c n.
Proof.
  induction s as [|a s [IH1 [n IH2]]]; cbn [rstrip_char].
  - split; [reflexivity | now exists 0%nat].
  - destruct (rstrip_char c s) as [|b r'] eqn:Hr.
    + change ("" +:+ repeat_char c n) with (repeat_char c n) in IH2.
      destruct (Ascii.eqb_spec a c) as [->|Hne].
      * split; [reflexivity|]. exists (S n). now rewrite IH2 at 1.
      * split; [cbn [ends_with_char]; now apply Ascii.eqb_neq|].
        exists n. rewrite append_cons. now rewrite IH2 at 1.
    + split; [exact IH1|]. exists n. rewrite append_cons. now rewrite IH2 at 1.
Qed.

Lemma rstrip_char_all (c : ascii) (n : nat) :
  rstrip_char c (repeat_char c n) = "".
Proof.
  induction n as [|n IH]; simpl; [reflexivity|]. rewrite IH. now rewrite Ascii.eqb_refl.
Qed.

Lemma ends_with_char_repeat (c : ascii) (n : nat) :
  ends_with_char c (repeat_char c (S n)) = true.
Proof.
  induction n as [|n IH]; [simpl; apply Ascii.eqb_refl|].
  change (repeat_char c (S (S n))) with (String c (repeat_char c (S n))).
  cbn [ends_with_char]. exact IH.
Qed.

(** X15. [_replace_base_url] removes the whole trailing run of slashes
    and nothing else: its result does not end with a slash, the URL is
    the result followed by slashes only, and a URL without a trailing
    slash is returned as it is.  A configured base URL that consists of
    slashes only therefore becomes the empty string, and then
    [check_spam] answers from the keyword list without calling the
    classifier, whatever token and model are configured. *)
Theorem replace_base_url_strips_slashes (url model_name api_token : string)
    (words : list string) (parse : string -> option Spam) (run : ai_run)
    (text : string) (n : nat) :
  ends_with_char "/" (_replace_base_url url) = false
  /\ (exists k, url = _replace_base_url url +:+ repeat_char "/" k)
  /\ (ends_with_char "/" url = false -> _replace_base_url url = url)
  /\ _replace_base_url (_replace_base_url url) = _replace_base_url url
  /\ _replace_base_url (repeat_char "/" n) = ""
  /\ check_spam (SpamDetector_init (repeat_char "/" n) model_name api_token)
                words parse run text
     = keyword_fallback words text.
Proof.
  assert (Hno : ends_with_char "/" (_replace_base_url url) = false).
  { unfold _replace_base_url. destruct (ends_with_char "/" url) eqn:He; [|exact He].
    apply rstrip_char_spec. }
  assert (Hall : _replace_base_url (repeat_char "/" n) = "").
  { unfold _replace_base_url. destruct n as [|n]; [reflexivity|].
    now rewrite ends_with_char_repeat, rstrip_char_all. }
  refine (conj Hno (conj _ (conj _ (conj _ (conj Hall _))))).
  - unfold _replace_base_url. destruct (ends_with_char "/" url).
    + apply rstrip_char_spec.
    + exists 0%nat. cbn [repeat_char]. now rewrite append_empty_r.
  - unfold _replace_base_url. now intros ->.
  - unfold _replace_base_url at 1. now rewrite Hno.
  - rewrite check_spam_cases. unfold configured, SpamDetector_init. cbn [base_url token model].
    rewrite Hall. cbn [str_truthy]. now rewrite andb_false_r.
Qed.

(** ** bot.py: a topic that cannot be created *)



(** ** bot.py: a blocked user writes *)

(** X17. A user with a block record reaches nobody.  [msg_to_topic]
    answers with the ban notice and makes no other gateway call; the
    message is not recorded in the flood window, no topic is looked up
    or created, and the repository is not written.  When the notice is
    accepted the block is cached and the handler returns; when the
    gateway refuses the notice, also by a timeout, the handler raises
    (the call is outside the [try]) and the cached flag is not set. *)
Theorem msg_to_topic_blocked_user (E : Env) (upd : tg.Update) (now wall : Z)
    (s : BotState) (msg : tg.Message) (usr : tg.User) (chat : tg.Chat) (b : Block)
    (Hmsg : tg.message upd = Some msg)
    (Husr : tg.effective_user upd = Some usr)
    (Hchat : tg.effective_chat upd = Some chat)
    (Hblocked : select_block_raw (tg.id usr) (uf_repo s) = Some b) :
  let out := msg_to_topic E upd now wall s in
  let notice := ReplyText (tg.chat msg) (tg.message_id msg) blocked_notice in
  sent out.2 = sent s ++ [(notice, gateway E (tick s) notice)]
  /\ out.1 = notice_result (gateway E (tick s) notice)
  /\ uf_repo out.2 = uf_repo s
  /\ user_message_time_queues (cache out.2) = user_message_time_queues (cache s)
  /\ cached_flag (tg.id usr) "block" (cache out.2)
     = (if is_Ok (gateway E (tick s) notice) then Some (VBool true)
        else cached_flag (tg.id usr) "block" (cache s))
  /\ (forall k, k <> "block" ->
        cached_flag (tg.id usr) k (cache out.2) = cached_flag (tg.id usr) k (cache s)).
Proof.
  intros out notice. subst out. unfold msg_to_topic. rewrite Hmsg, Husr, Hchat.
  unfold select_block_raw in Hblocked. mstep. unfold select_block. rewrite Hblocked.
  rewrite bool_decide_eq_true_2 by (now exists b). mstep. fold notice.
  destruct (gateway E (tick s) notice) as [m|e]; mstep; cbn [is_Ok notice_result].
  - refine (conj eq_refl (conj eq_refl (conj eq_refl (conj _ (conj _ _))))).
    + rewrite queues_set_flag. apply user_data_get_user_lock.
    + apply cached_flag_set_flag_eq.
    + intros k Hk. rewrite cached_flag_set_flag_key by congruence.
      apply cached_flag_get_user_lock.
  - refine (conj eq_refl (conj eq_refl (conj eq_refl (conj _ (conj _ _))))).
    + apply user_data_get_user_lock.
    + apply cached_flag_get_user_lock.
    + intros k Hk. apply cached_flag_get_user_lock.
Qed.

Lemma msg_to_topic_blocked_user_witness :
  sent (msg_to_topic (env_with gateway_ok) (private_update 9 (Some "hi") None) 0 0
          (set_repo (insert_block 42 None (uf_repo state_relaying)) state_relaying)).2
  = [(ReplyText 42 9 blocked_notice, Ok 1000)].
Proof.
  exact (proj1 (msg_to_topic_blocked_user (env_with gateway_ok)
                  (private_update 9 (Some "hi") None) 0 0
                  (set_repo (insert_block 42 None (uf_repo state_relaying)) state_relaying)
                  _ alice alice_chat {| pinned_msg_id := None |}
                  eq_refl eq_refl eq_refl eq_refl)).
Defined.

(** ** bot.py: the relay of a private message *)








(** ** bot.py: a relayed message is withdrawn *)







(** ** bot.py: what /d refuses *)

(** X20. The refusals of /d.  When the command is not a reply, or
    replies to the message that opens the topic, the user is asked to
    reply to a message; in a chat that is neither private nor a forum
    the target is called invalid; when the reply target has no mapping
    (it was never relayed, or its mapping was cleaned up or already
    withdrawn) the user is told that it can no longer be deleted.  In
    each case that one notice is the only gateway call: nothing is
    deleted, and neither the repository nor the cache changes. *)
Theorem delete_refusals_change_nothing (E : Env) (upd : tg.Update) (s : BotState)
    (msg : tg.Message) (usr : tg.User) (chat : tg.Chat)
    (Hmsg : tg.message upd = Some msg)
    (Husr : tg.effective_user upd = Some usr)
    (Hchat : tg.effective_chat upd = Some chat) :
  let out := _delete E upd s in
  let refused := fun text =>
    let notice := ReplyText (tg.chat msg) (tg.message_id msg) text in
    sent out.2 = sent s ++ [(notice, gateway E (tick s) notice)]
    /\ out.1 = notice_result (gateway E (tick s) notice)
    /\ uf_repo out.2 = uf_repo s
    /\ cache out.2 = cache s in
  (tg.reply_to_message msg = None
   \/ tg.reply_to_message msg = tg.message_thread_id msg ->
   refused reply_needed_notice)
  /\ (forall msg_id,
        tg.reply_to_message msg = Some msg_id ->
        tg.message_thread_id msg <> Some msg_id ->
        tg.type chat <> tg.PRIVATE -> tg.is_forum chat <> Some true ->
        refused invalid_target_notice)
  /\ (forall msg_id,
        tg.reply_to_message msg = Some msg_id ->
        tg.message_thread_id msg <> Some msg_id ->
        (tg.type chat = tg.PRIVATE
         /\ select_message msg_id false (Some (tg.id usr)) (messages (uf_repo s)) = Ok None)
        \/ (tg.type chat <> tg.PRIVATE /\ tg.is_forum chat = Some true
            /\ select_message msg_id true None (messages (uf_repo s)) = Ok None) ->
        refused not_deletable_notice).
Proof.
  intros out refused. subst refused. cbv beta zeta.
  assert (Hnotice : forall text,
    out = (reply_text E msg text ;;; ret tt) s ->
    let notice := ReplyText (tg.chat msg) (tg.message_id msg) text in
    sent out.2 = sent s ++ [(notice, gateway E (tick s) notice)]
    /\ out.1 = notice_result (gateway E (tick s) notice)
    /\ uf_repo out.2 = uf_repo s
    /\ cache out.2 = cache s).
  { intros text -> notice. mstep. fold notice. now destruct (gateway E (tick s) notice). }
  assert (Hout : out = _delete E upd s) by reflexivity. clearbody out.
  unfold _delete in Hout. rewrite Hmsg, Husr, Hchat in Hout.
  refine (conj _ (conj _ _)).
  - intros Hcase. apply Hnotice. rewrite Hout. destruct Hcase as [Hnone|Hsame].
    + now rewrite Hnone.
    + destruct (tg.reply_to_message msg) as [msg_id|]; [|reflexivity].
      now rewrite bool_decide_eq_true_2 by exact Hsame.
  - intros msg_id Hreply Hthread Hty Hforum. apply Hnotice. rewrite Hout, Hreply.
    rewrite bool_decide_eq_false_2 by congruence.
    destruct (tg.type chat); [contradiction| | |];
      (destruct (tg.is_forum chat) as [[|]|]; [contradiction| |]); reflexivity.
  - intros msg_id Hreply Hthread Hfound. apply Hnotice. rewrite Hout, Hreply.
    rewrite bool_decide_eq_false_2 by congruence.
    destruct Hfound as [[Hty Hsel]|(Hty & Hforum & Hsel)].
    + rewrite Hty. unfold bind at 1, repo_select_message. now rewrite Hsel.
    + rewrite Hforum. destruct (tg.type chat); [contradiction| | |];
        cbn [default from_option id]; unfold bind at 1, repo_select_message;
        now rewrite Hsel.
Qed.

Lemma delete_refusals_change_nothing_witness :
  sent (_delete (env_with gateway_ok) (private_update 8 (Some "/d") (Some 6))
          state_relaying).2
  = [(ReplyText 42 8 not_deletable_notice, Ok 1000)]
  /\ uf_repo (_delete (env_with gateway_ok) (private_update 8 (Some "/d") (Some 6))
                state_relaying).2
     = uf_repo state_relaying.
Proof.
  destruct (proj2 (proj2 (delete_refusals_change_nothing (env_with gateway_ok)
                            (private_update 8 (Some "/d") (Some 6)) state_relaying
                            _ alice alice_chat eq_refl eq_refl eq_refl))
              6 eq_refl ltac:(discriminate) (or_introl (conj eq_refl eq_refl)))
    as (Hsent & _ & Hrepo & _).
  split; [exact Hsent | exact Hrepo].
Defined.

(** ** bot.py: from a topic to its user *)

Lemma resolve_userid_cached (t : Z) (s : BotState) :
  truthy (default VNone (cached_topic t "to_user" (cache s))) = true ->
  _resolve_userid_by_topic t s
  = (Ok (default VNone (cached_topic t "to_user" (cache s))),
     set_cache (get_topic t "to_user" VNone (cache s)).2 s).
Proof.
  intros Ht. unfold _resolve_userid_by_topic. mstep.
  rewrite get_topic_value, Ht. reflexivity.
Qed.

Lemma resolve_userid_lookup (t : Z) (s : BotState) :
  truthy (default VNone (cached_topic t "to_user" (cache s))) = false ->
  let s1 := set_cache (get_topic t "to_user" VNone (cache s)).2 s in
  _resolve_userid_by_topic t s
  = match select_user_by_topic t (uf_repo s) with
    | Raise e => (Raise e, s1)
    | Ok None => (Ok VNone, s1)
    | Ok (Some row) =>
        (Ok (VInt row.1), set_cache (set_topic t "to_user" (VInt row.1) (cache s1)) s1)
    end.
Proof.
  intros Ht s1. unfold _resolve_userid_by_topic. mstep.
  rewrite get_topic_value, Ht. unfold repo_try. cbn [uf_repo].
  destruct (select_user_by_topic t (uf_repo s)) as [[row|]|e]; reflexivity.
Qed.

Lemma cached_topic_resolved (t u : Z) (c : DataCache) :
  cached_topic t "to_user" (set_topic t "to_user" (VInt u) c) = Some (VInt u).
Proof. rewrite cached_topic_set_topic. case_decide as Hd; [reflexivity | tauto]. Qed.

(** X21. [_resolve_userid_by_topic] caches what it finds and nothing
    else.  With nothing cached for the topic, it returns the [userid]
    of the stored row that has this topic and from then on answers from
    the cache, whatever the table of users holds, until the daily
    cleanup empties the cache; when no row has the topic it returns
    [None] and caches nothing, so the topic is looked up again next
    time.  It never writes the repository and makes no gateway call. *)
Theorem resolve_userid_by_topic_caches_hits (t u : Z) (row : Users) (s : BotState)
    (r' : Repo)
    (Hcold : cached_topic t "to_user" (cache s) = None)
    (Huniq : users_unique (users (uf_repo s)))
    (Hu : u <> 0) :
  let out := _resolve_userid_by_topic t s in
  (uf_repo out.2 = uf_repo s /\ sent out.2 = sent s)
  /\ (select_user u (uf_repo s) = Some row -> topic row = t ->
      out.1 = Ok (VInt u)
      /\ (_resolve_userid_by_topic t (set_repo r' out.2)).1 = Ok (VInt u)
      /\ (_resolve_userid_by_topic t (set_repo r' (_cleanup_cache_job out.2).2)).1
         = (_resolve_userid_by_topic t (set_repo r' s)).1)
  /\ ((forall u' row', select_user u' (uf_repo s) = Some row' -> topic row' <> t) ->
      out.1 = Ok VNone /\ cached_topic t "to_user" (cache out.2) = None).
Proof.
  intros out.
  assert (Hfalsy : truthy (default VNone (cached_topic t "to_user" (cache s))) = false)
    by now rewrite Hcold.
  pose proof (resolve_userid_lookup t s Hfalsy) as Hrun. cbv zeta in Hrun. fold out in Hrun.
  refine (conj _ (conj _ _)).
  - rewrite Hrun. now destruct (select_user_by_topic t (uf_repo s)) as [[x|]|e].
  - intros Hrow Ht.
    rewrite (select_user_by_topic_found t u row (uf_repo s) Huniq Hrow Ht) in Hrun.
    cbn [fst] in Hrun. rewrite Hrun. cbn [fst snd].
    refine (conj eq_refl (conj _ _)).
    + rewrite resolve_userid_cached; cbn [cache set_cache set_repo];
        rewrite cached_topic_resolved; cbn [default from_option id truthy fst];
        [reflexivity | now apply negb_true_iff, Z.eqb_neq].
    + assert (Hc : forall c : DataCache,
                cached_topic t "to_user" (clear_user_all (clear_topic_all c)) = None).
      { intros c. unfold cached_topic. cbn [topic_data clear_user_all clear_topic_all].
        now rewrite lookup_empty. }
      rewrite !resolve_userid_lookup;
        cbn [cache set_cache set_repo uf_repo _cleanup_cache_job];
        unfold _cleanup_cache_job; mstep; rewrite ?Hc, ?Hcold; try reflexivity.
      now destruct (select_user_by_topic t r') as [[x|]|e].
  - intros Hfree. rewrite (select_user_by_topic_none t (uf_repo s) Hfree) in Hrun.
    rewrite Hrun. cbn [fst snd cache set_cache]. split; [reflexivity|].
    now rewrite cached_topic_get_topic.
Qed.

Lemma resolve_userid_by_topic_caches_hits_witness :
  (_resolve_userid_by_topic 77
     (set_repo Repo_init (_resolve_userid_by_topic 77 state_relaying).2)).1
  = Ok (VInt 42).
Proof.
  assert (Huniq : users_unique (users (uf_repo state_relaying))).
  { intros u1 u2 r1 r2. cbn. rewrite !lookup_singleton.
    repeat case_decide; congruence. }
  exact (proj1 (proj2 (proj1 (proj2 (resolve_userid_by_topic_caches_hits
                                       77 42 alice_row state_relaying Repo_init
                                       eq_refl Huniq ltac:(discriminate)))
                         eq_refl eq_refl))).
Defined.

(** ** bot.py: a staff message in a user's topic *)

Lemma topic_data_get_user_lock_cached (u t : Z) (k : string) (c : DataCache) :
  cached_topic t k (get_user_lock u c).2 = cached_topic t k c.
Proof. unfold cached_topic. now rewrite topic_data_get_user_lock. Qed.

Lemma resolve_userid_known (t u : Z) (row : Users) (s : BotState) :
  users_unique (users (uf_repo s)) ->
  select_user u (uf_repo s) = Some row -> topic row = t -> u <> 0 ->
  cached_topic t "to_user" (cache s) = None
  \/ cached_topic t "to_user" (cache s) = Some (VInt u) ->
  exists c,
    _resolve_userid_by_topic t s = (Ok (VInt u), set_cache c s)
    /\ cached_topic t "to_user" c = Some (VInt u).
Proof.
  intros Huniq Hrow Ht Hu [Hcold|Hwarm].
  - eexists. rewrite resolve_userid_lookup by now rewrite Hcold.
    rewrite (select_user_by_topic_found t u row (uf_repo s) Huniq Hrow Ht).
    cbn [fst cache set_cache]. split; [reflexivity | apply cached_topic_resolved].
  - eexists. rewrite resolve_userid_cached;
      rewrite Hwarm; cbn [default from_option id truthy].
    + split; [reflexivity|]. now rewrite cached_topic_get_topic.
    + now apply negb_true_iff, Z.eqb_neq.
Qed.

(** X22. A staff message in the topic of a user goes to that user.
    [handle_topic_message] resolves the topic to the user of the stored
    row (or to the cached user) and copies the message into the private
    chat.  When the copy is made, the mapping of the copy to the topic
    message is handed to [insert_message], not marked as spam, with the
    reason of staff messages.  When the user has blocked the bot
    ([Forbidden]), the staff is told so in the same topic and no mapping
    is written; any other failure of the copy is raised, and again
    nothing is written.  In all cases the user is cached for the topic. *)
Theorem handle_topic_message_relays_to_user (E : Env) (upd : tg.Update) (wall : Z)
    (s : BotState) (msg : tg.Message) (t u : Z) (row : Users)
    (Hmsg : tg.message upd = Some msg)
    (Hthread : thread_of msg = Some t)
    (Huniq : users_unique (users (uf_repo s)))
    (Hrow : select_user u (uf_repo s) = Some row)
    (Htopic : topic row = t)
    (Hu : u <> 0)
    (Hcache : cached_topic t "to_user" (cache s) = None
              \/ cached_topic t "to_user" (cache s) = Some (VInt u)) :
  let out := handle_topic_message E upd wall s in
  let copy := CopyMessage u None (topic_chat_id E) (tg.message_id msg) in
  let notice := SendMessage (topic_chat_id E) (Some t) bot_blocked_notice in
  cached_topic t "to_user" (cache out.2) = Some (VInt u)
  /\ match gateway E (tick s) copy with
     | Ok pm =>
         let stored := insert_message u pm (tg.message_id msg) false
                         admin_message_reason wall (messages (uf_repo s)) in
         sent out.2 = sent s ++ [(copy, Ok pm)]
         /\ out.1 = stored.1.1
         /\ uf_repo out.2 = set_messages (fun _ => stored.2) (uf_repo s)
     | Raise e =>
         uf_repo out.2 = uf_repo s
         /\ match e with
            | Forbidden =>
                sent out.2
                = sent s ++ [(copy, Raise e); (notice, gateway E (S (tick s)) notice)]
                /\ out.1 = notice_result (gateway E (S (tick s)) notice)
            | _ => sent out.2 = sent s ++ [(copy, Raise e)] /\ out.1 = Raise e
            end
     end.
Proof.
  intros out copy notice.
  destruct (resolve_userid_known t u row s Huniq Hrow Htopic Hu Hcache) as (c & Hres & Hc).
  assert (Hout : out =
    (_forward_topic_message_to_user E t u (tg.message_id msg) wall) (set_cache c s)).
  { subst out. unfold handle_topic_message. rewrite Hmsg, Hthread.
    unfold bind at 1. rewrite Hres. cbn [truthy negb].
    replace (u =? 0) with false by (symmetry; now apply Z.eqb_neq).
    cbn [negb]. unfold bind at 1, lift_res at 1. reflexivity. }
  clearbody out. subst out. unfold _forward_topic_message_to_user, topic_msg_to_private.
  mstep. fold copy.
  destruct (gateway E (tick s) copy) as [pm|e]; mstep.
  - cbn [messages]. split; [now rewrite topic_data_get_user_lock_cached|].
    now repeat split.
  - destruct e; mstep;
      try (split; [now rewrite topic_data_get_user_lock_cached|];
           split; [reflexivity|]; now split).
    fold notice.
    destruct (gateway E (S (tick s)) notice) as [n|e'];
      cbn [fst snd cache uf_repo sent notice_result];
      (split; [now rewrite topic_data_get_user_lock_cached|]);
      (split; [reflexivity|]); now rewrite <- app_assoc.
Qed.

Lemma users_unique_singleton (u : Z) (row : Users) : users_unique {[ u := row ]}.
Proof.
  intros u1 u2 r1 r2. rewrite !lookup_singleton.
  repeat case_decide; congruence.
Qed.

Lemma handle_topic_message_relays_to_user_witness :
  uf_repo (handle_topic_message (env_with gateway_user_blocked_bot)
             (staff_update 500 (Some 77) (Some "hello") None) 60 state_relaying).2
  = uf_repo state_relaying
  /\ sent (handle_topic_message (env_with gateway_user_blocked_bot)
             (staff_update 500 (Some 77) (Some "hello") None) 60 state_relaying).2
     = [(CopyMessage 42 None (-100) 500, Raise Forbidden);
        (SendMessage (-100) (Some 77) bot_blocked_notice, Ok 1001)]
  /\ (handle_topic_message (env_with gateway_user_blocked_bot)
        (staff_update 500 (Some 77) (Some "hello") None) 60 state_relaying).1
     = Ok tt.
Proof.
  exact (proj2 (handle_topic_message_relays_to_user (env_with gateway_user_blocked_bot)
                  (staff_update 500 (Some 77) (Some "hello") None) 60 state_relaying
                  _ 77 42 alice_row eq_refl eq_refl (users_unique_singleton 42 alice_row)
                  eq_refl eq_refl ltac:(discriminate) (or_introl eq_refl))).
Defined.

(** X23. A staff message outside a user's topic goes to nobody.  In
    the General topic (no thread id) [handle_topic_message] does
    nothing at all.  In a thread that is the topic of no stored user
    (the spam topic, for one) the staff is told that the user does not
    exist; this notice is the only gateway call, nothing is copied or
    stored, and the miss is not cached. *)
Theorem handle_topic_message_without_user (E : Env) (upd : tg.Update) (wall : Z)
    (s : BotState) (msg : tg.Message)
    (Hmsg : tg.message upd = Some msg) :
  let out := handle_topic_message E upd wall s in
  (thread_of msg = None -> out = (Ok tt, s))
  /\ (forall t,
        thread_of msg = Some t ->
        cached_topic t "to_user" (cache s) = None ->
        (forall u row, select_user u (uf_repo s) = Some row -> topic row <> t) ->
        let notice := ReplyText (tg.chat msg) (tg.message_id msg) no_such_user_notice in
        sent out.2 = sent s ++ [(notice, gateway E (tick s) notice)]
        /\ out.1 = notice_result (gateway E (tick s) notice)
        /\ uf_repo out.2 = uf_repo s
        /\ cached_topic t "to_user" (cache out.2) = None
        /\ user_data (cache out.2) = user_data (cache s)
        /\ user_locks (cache out.2) = user_locks (cache s)).
Proof.
  intros out. assert (Hout : out = handle_topic_message E upd wall s) by reflexivity.
  clearbody out. unfold handle_topic_message in Hout. rewrite Hmsg in Hout. split.
  - intros Hnone. now rewrite Hnone in Hout.
  - intros t Ht Hcold Hfree notice. rewrite Ht in Hout. unfold bind at 1 in Hout.
    rewrite resolve_userid_lookup in Hout by now rewrite Hcold.
    rewrite (select_user_by_topic_none t (uf_repo s) Hfree) in Hout.
    cbn [truthy negb] in Hout. subst out. mstep. fold notice.
    destruct (get_topic_frame t "to_user" VNone (cache s)) as (Hd & Hl & _).
    destruct (gateway E (tick s) notice) as [m|e]; cbn [fst snd sent uf_repo cache
      notice_result]; rewrite cached_topic_get_topic, Hd, Hl; now repeat split.
Qed.

Lemma handle_topic_message_without_user_witness :
  handle_topic_message (env_with gateway_ok) (staff_update 500 None (Some "hello") None)
    60 state_relaying
  = (Ok tt, state_relaying).
Proof.
  exact (proj1 (handle_topic_message_without_user (env_with gateway_ok)
                  (staff_update 500 None (Some "hello") None) 60 state_relaying
                  _ eq_refl) eq_refl).
Defined.

(** ** bot.py: /ban and /unban *)

Lemma insert_block_users (u : Z) (pin : option Z) (r : Repo) :
  users (insert_block u pin r) = users r
  /\ verify_users (insert_block u pin r) = verify_users r
  /\ messages (insert_block u pin r) = messages r.
Proof.
  destruct (insert_block_cases u pin r) as [->|[(m & _ & _ & _ & ->)|(_ & _ & ->)]];
    now repeat split.
Qed.

(** /ban in the topic of a stored user, up to the outcome of the pin. *)
Lemma ban_run (E : Env) (upd : tg.Update) (pin : Z -> res unit) (s : BotState)
    (msg : tg.Message) (t u : Z) (row : Users) :
  tg.message upd = Some msg ->
  thread_of msg = Some t ->
  users_unique (users (uf_repo s)) ->
  select_user u (uf_repo s) = Some row -> topic row = t ->
  let notice := ReplyText (tg.chat msg) (tg.message_id msg) banned_notice in
  let s1 := {| cache := cache s; uf_repo := uf_repo s;
               sent := sent s ++ [(notice, gateway E (tick s) notice)];
               tick := S (tick s) |} in
  _ban E upd pin s
  = match gateway E (tick s) notice with
    | Raise e => (Raise e, s1)
    | Ok pinned_msg =>
        match pin pinned_msg with
        | Raise e => (Raise e, s1)
        | Ok _ =>
            (Ok tt,
             {| cache := set_flag u "block" (VBool true) (get_user_lock u (cache s)).2;
                uf_repo := insert_block u (Some pinned_msg) (uf_repo s);
                sent := sent s1; tick := tick s1 |})
        end
    end.
Proof.
  intros Hmsg Hthread Huniq Hrow Htopic notice s1. subst s1.
  unfold _ban. rewrite Hmsg, Hthread. unfold bind at 1, repo_try at 1.
  rewrite (select_user_by_topic_found t u row (uf_repo s) Huniq Hrow Htopic).
  cbn [fst]. mstep. fold notice.
  destruct (gateway E (tick s) notice) as [pm|e]; [|reflexivity].
  mstep. destruct (pin pm) as [[]|e]; reflexivity.
Qed.

(** /unban in the topic of a stored user who is blocked. *)
Lemma unban_run (E : Env) (upd : tg.Update) (s : BotState) (msg : tg.Message)
    (t u : Z) (row : Users) (b : Block) :
  tg.message upd = Some msg ->
  thread_of msg = Some t ->
  users_unique (users (uf_repo s)) ->
  select_user u (uf_repo s) = Some row -> topic row = t ->
  select_block_raw u (uf_repo s) = Some b ->
  _unban E upd s
  = (match pinned_msg_id b with
     | Some p =>
         if p =? 0 then ret tt
         else call E (DeleteMessage (topic_chat_id E) p) ;;; ret tt
     | None => ret tt
     end ;;;
     _lock <- cache_get (get_user_lock u) ;;
     repo_do (delete_block u) ;;;
     cache_do (set_flag u "block" (VBool false)) ;;;
     reply_text E msg unbanned_notice ;;; ret tt) s.
Proof.
  intros Hmsg Hthread Huniq Hrow Htopic Hb.
  unfold _unban. rewrite Hmsg, Hthread. unfold bind at 1, repo_try at 1.
  rewrite (select_user_by_topic_found t u row (uf_repo s) Huniq Hrow Htopic).
  cbn [fst]. unfold bind at 1, repo_get at 1. now rewrite Hb.
Qed.

(** X24. /ban, then /unban.  In the topic of a stored user who is not
    blocked, the gateway accepting the calls: [_ban] announces the ban
    in the topic, pins the announcement, stores a block record with the
    id of the pinned message and caches the block.  [_unban] in the
    same topic then deletes exactly that pinned message, removes the
    record, so that the table of blocks is what it was before the ban,
    caches that the user is not blocked, and confirms.  The table of
    users is not touched. *)
Theorem ban_then_unban_round_trip (E : Env) (upd_ban upd_unban : tg.Update)
    (pin : Z -> res unit) (s : BotState) (msg_ban msg_unban : tg.Message)
    (t u : Z) (row : Users)
    (Hmsg_ban : tg.message upd_ban = Some msg_ban)
    (Hthread_ban : thread_of msg_ban = Some t)
    (Hmsg_unban : tg.message upd_unban = Some msg_unban)
    (Hthread_unban : thread_of msg_unban = Some t)
    (Huniq : users_unique (users (uf_repo s)))
    (Hrow : select_user u (uf_repo s) = Some row)
    (Htopic : topic row = t)
    (Hfree : select_block_raw u (uf_repo s) = None)
    (Hgw : forall n c, is_Ok (gateway E n c) = true)
    (Hpin : forall m, pin m = Ok tt)
    (Hids : forall n c m, gateway E n c = Ok m ->
              m <> 0 /\ pinned_taken (Some m) (block_users (uf_repo s)) = false) :
  let s1 := (_ban E upd_ban pin s).2 in
  let s2 := (_unban E upd_unban s1).2 in
  exists pm d ok : Z,
    ((_ban E upd_ban pin s).1 = Ok tt
     /\ sent s1
        = sent s ++ [(ReplyText (tg.chat msg_ban) (tg.message_id msg_ban) banned_notice,
                      Ok pm)]
     /\ select_block_raw u (uf_repo s1) = Some {| pinned_msg_id := Some pm |}
     /\ select_block u (uf_repo s1) = true
     /\ cached_flag u "block" (cache s1) = Some (VBool true))
    /\ ((_unban E upd_unban s1).1 = Ok tt
        /\ sent s2
           = sent s1 ++ [(DeleteMessage (topic_chat_id E) pm, Ok d);
                         (ReplyText (tg.chat msg_unban) (tg.message_id msg_unban)
                            unbanned_notice, Ok ok)]
        /\ block_users (uf_repo s2) = block_users (uf_repo s)
        /\ select_block u (uf_repo s2) = false
        /\ cached_flag u "block" (cache s2) = Some (VBool false))
    /\ users (uf_repo s2) = users (uf_repo s).
Proof.
  intros s1 s2.
  pose proof (ban_run E upd_ban pin s msg_ban t u row Hmsg_ban Hthread_ban Huniq Hrow
                Htopic) as Hban.
  cbv zeta in Hban.
  destruct (gateway_accepts E (tick s)
              (ReplyText (tg.chat msg_ban) (tg.message_id msg_ban) banned_notice) Hgw)
    as [pm Hpm].
  destruct (Hids _ _ pm Hpm) as [Hpm0 Hpmfree].
  rewrite Hpm, Hpin in Hban.
  assert (Hblock : insert_block u (Some pm) (uf_repo s)
                   = set_block_users (insert u {| pinned_msg_id := Some pm |}) (uf_repo s)).
  { unfold select_block_raw in Hfree. unfold insert_block. now rewrite Hfree, Hpmfree. }
  rewrite Hblock in Hban.
  assert (Hs1 : s1 = (_ban E upd_ban pin s).2) by reflexivity.
  rewrite Hban in Hs1. cbn [snd sent tick] in Hs1.
  assert (Hraw : select_block_raw u (uf_repo s1) = Some {| pinned_msg_id := Some pm |}).
  { rewrite Hs1. unfold select_block_raw. cbn [uf_repo block_users set_block_users].
    apply lookup_insert_eq. }
  assert (Husers : users (uf_repo s1) = users (uf_repo s)) by (rewrite Hs1; reflexivity).
  pose proof (unban_run E upd_unban s1 msg_unban t u row _ Hmsg_unban Hthread_unban
                ltac:(now rewrite Husers)
                ltac:(unfold select_user in *; now rewrite Husers) Htopic Hraw) as Hunban.
  cbn [pinned_msg_id] in Hunban.
  replace (pm =? 0) with false in Hunban by (symmetry; now apply Z.eqb_neq).
  destruct (gateway_accepts E (tick s1) (DeleteMessage (topic_chat_id E) pm) Hgw)
    as [d Hd].
  destruct (gateway_accepts E (S (tick s1))
              (ReplyText (tg.chat msg_unban) (tg.message_id msg_unban) unbanned_notice)
              Hgw) as [ok Hok].
  exists pm, d, ok. subst s2. rewrite Hunban, Hban. clear Hunban Hban.
  cbn [fst snd]. mstep. rewrite Hd. mstep. rewrite Hok. mstep.
  refine (conj (conj eq_refl (conj _ (conj Hraw (conj _ _))))
            (conj (conj eq_refl (conj _ (conj _ (conj _ _)))) _)).
  - now rewrite Hs1.
  - apply select_block_iff. eauto.
  - rewrite Hs1. cbn [cache]. apply cached_flag_set_flag_eq.
  - now rewrite <- app_assoc.
  - rewrite Hs1. unfold delete_block. cbn [uf_repo block_users set_block_users].
    apply delete_insert_id. exact Hfree.
  - unfold select_block, delete_block. cbn [block_users set_block_users].
    rewrite lookup_delete_eq. apply bool_decide_eq_false. now intros [x Hx].
  - apply cached_flag_set_flag_eq.
  - rewrite Hs1. reflexivity.
Qed.

Lemma ban_then_unban_round_trip_witness :
  block_users
    (uf_repo (_unban (env_with gateway_ok) (staff_update 501 (Some 77) (Some "/unban") None)
                (_ban (env_with gateway_ok)
                   (staff_update 500 (Some 77) (Some "/ban") None)
                   (fun _ => Ok tt) state_relaying).2).2)
  = block_users (uf_repo state_relaying).
Proof.
  destruct (ban_then_unban_round_trip (env_with gateway_ok)
              (staff_update 500 (Some 77) (Some "/ban") None)
              (staff_update 501 (Some 77) (Some "/unban") None)
              (fun _ => Ok tt) state_relaying _ _ 77 42 alice_row
              eq_refl eq_refl eq_refl eq_refl (users_unique_singleton 42 alice_row)
              eq_refl eq_refl eq_refl (fun _ _ => eq_refl) (fun _ => eq_refl))
    as (pm & d & ok & _ & (_ & _ & Hblocks & _) & _).
  - intros n c m Hm. injection Hm as <-. split; [lia | reflexivity].
  - exact Hblocks.
Defined.

Lemma only_notice_run (E : Env) (msg : tg.Message) (text : string) (s : BotState)
    (out : res unit * BotState) :
  out = (reply_text E msg text ;;; ret tt) s ->
  let notice := ReplyText (tg.chat msg) (tg.message_id msg) text in
  sent out.2 = sent s ++ [(notice, gateway E (tick s) notice)]
  /\ out.1 = notice_result (gateway E (tick s) notice)
  /\ uf_repo out.2 = uf_repo s
  /\ cache out.2 = cache s.
Proof. intros -> notice. mstep. fold notice. now destruct (gateway E (tick s) notice). Qed.

(** X25. What /ban and /unban refuse, and where they stop half-way.
    Outside a topic both commands answer that no user is given, and in
    a thread that is the topic of no stored user that the user is
    invalid; /unban of a user without block record answers that the
    user is not blocked.  In these cases the notice is the only effect.
    When the announcement of a ban cannot be pinned, [_ban] raises
    after the announcement has been posted: no block record is written
    and nothing is cached, although the topic says that the user is
    banned.  When the pinned announcement cannot be deleted, [_unban]
    raises and the user stays blocked. *)
Theorem ban_unban_refusals_and_failures (E : Env) (upd : tg.Update)
    (pin : Z -> res unit) (s : BotState) (msg : tg.Message)
    (Hmsg : tg.message upd = Some msg) :
  let only_notice := fun (out : res unit * BotState) text =>
    let notice := ReplyText (tg.chat msg) (tg.message_id msg) text in
    sent out.2 = sent s ++ [(notice, gateway E (tick s) notice)]
    /\ out.1 = notice_result (gateway E (tick s) notice)
    /\ uf_repo out.2 = uf_repo s
    /\ cache out.2 = cache s in
  (thread_of msg = None ->
   only_notice (_ban E upd pin s) no_user_given_notice
   /\ only_notice (_unban E upd s) no_user_given_notice)
  /\ (forall t, thread_of msg = Some t ->
        (forall u row, select_user u (uf_repo s) = Some row -> topic row <> t) ->
        only_notice (_ban E upd pin s) invalid_user_notice
        /\ only_notice (_unban E upd s) invalid_user_notice)
  /\ (forall t u row, thread_of msg = Some t ->
        users_unique (users (uf_repo s)) ->
        select_user u (uf_repo s) = Some row -> topic row = t ->
        (select_block_raw u (uf_repo s) = None ->
         only_notice (_unban E upd s) not_banned_notice)
        /\ (forall pm e,
              gateway E (tick s)
                (ReplyText (tg.chat msg) (tg.message_id msg) banned_notice) = Ok pm ->
              pin pm = Raise e ->
              (_ban E upd pin s).1 = Raise e
              /\ sent (_ban E upd pin s).2
                 = sent s ++ [(ReplyText (tg.chat msg) (tg.message_id msg) banned_notice,
                               Ok pm)]
              /\ uf_repo (_ban E upd pin s).2 = uf_repo s
              /\ cache (_ban E upd pin s).2 = cache s)
        /\ (forall p e,
              select_block_raw u (uf_repo s) = Some {| pinned_msg_id := Some p |} ->
              p <> 0 ->
              gateway E (tick s) (DeleteMessage (topic_chat_id E) p) = Raise e ->
              (_unban E upd s).1 = Raise e
              /\ sent (_unban E upd s).2
                 = sent s ++ [(DeleteMessage (topic_chat_id E) p, Raise e)]
              /\ uf_repo (_unban E upd s).2 = uf_repo s
              /\ select_block u (uf_repo (_unban E upd s).2) = true
              /\ cache (_unban E upd s).2 = cache s)).
Proof.
  intros only_notice. subst only_notice. cbv beta.
  refine (conj _ (conj _ _)).
  - intros Hnone. split; apply only_notice_run.
    + unfold _ban. now rewrite Hmsg, Hnone.
    + unfold _unban. now rewrite Hmsg, Hnone.
  - intros t Ht Hfree. split; apply only_notice_run.
    + unfold _ban. rewrite Hmsg, Ht. unfold bind at 1, repo_try at 1.
      now rewrite (select_user_by_topic_none t (uf_repo s) Hfree).
    + unfold _unban. rewrite Hmsg, Ht. unfold bind at 1, repo_try at 1.
      now rewrite (select_user_by_topic_none t (uf_repo s) Hfree).
  - intros t u row Ht Huniq Hrow Htopic. refine (conj _ (conj _ _)).
    + intros Hnb. apply only_notice_run.
      unfold _unban. rewrite Hmsg, Ht. unfold bind at 1, repo_try at 1.
      rewrite (select_user_by_topic_found t u row (uf_repo s) Huniq Hrow Htopic).
      cbn [fst]. unfold bind at 1, repo_get at 1. now rewrite Hnb.
    + intros pm e Hpm Hpin.
      pose proof (ban_run E upd pin s msg t u row Hmsg Ht Huniq Hrow Htopic) as Hban.
      cbv zeta in Hban. rewrite Hpm, Hpin in Hban. rewrite Hban. now repeat split.
    + intros p e Hb Hp Hdel.
      rewrite (unban_run E upd s msg t u row _ Hmsg Ht Huniq Hrow Htopic Hb).
      cbn [pinned_msg_id]. replace (p =? 0) with false by (symmetry; now apply Z.eqb_neq).
      mstep. rewrite Hdel. mstep.
      refine (conj eq_refl (conj eq_refl (conj eq_refl (conj _ eq_refl)))).
      apply select_block_iff. eauto.
Qed.

Lemma ban_unban_refusals_and_failures_witness :
  (_ban (env_with gateway_ok) (staff_update 500 (Some 77) (Some "/ban") None)
     (fun _ => Raise BadRequest) state_relaying).1 = Raise BadRequest
  /\ uf_repo (_ban (env_with gateway_ok) (staff_update 500 (Some 77) (Some "/ban") None)
                (fun _ => Raise BadRequest) state_relaying).2
     = uf_repo state_relaying.
Proof.
  destruct (proj1 (proj2 (proj2 (proj2 (ban_unban_refusals_and_failures
                                          (env_with gateway_ok)
                                          (staff_update 500 (Some 77) (Some "/ban") None)
                                          (fun _ => Raise BadRequest) state_relaying
                                          _ eq_refl))
                            77 42 alice_row eq_refl (users_unique_singleton 42 alice_row)
                            eq_refl eq_refl))
              1000 BadRequest eq_refl eq_refl)
    as (Hres & _ & Hrepo & _).
  split; [exact Hres | exact Hrepo].
Defined.

(** ** bot.py: /verify *)

(** X26. The /verify command of the owner, in the topic of a stored
    user.  With exactly one argument that reads true or false, in any
    letter case and with surrounding whitespace, the cached verification
    flag of the user is set to that value, [update_verified] is applied
    (so the stored record, when there is one, agrees with the cache;
    no record is created for a user without one) and the user is
    notified; the cache and the record are written before the
    notification, so they stay written when the notification fails.
    With no argument, more than one, or another word, the usage line is
    the only effect. *)
Theorem verify_command_sets_cache_and_record (E : Env) (upd : tg.Update)
    (args : option (list string)) (s : BotState) (msg : tg.Message) (t u : Z)
    (row : Users)
    (Hmsg : tg.message upd = Some msg)
    (Hthread : thread_of msg = Some t)
    (Huniq : users_unique (users (uf_repo s)))
    (Hrow : select_user u (uf_repo s) = Some row)
    (Htopic : topic row = t) :
  let out := _verify E upd args s in
  (forall arg b,
     args = Some [arg] -> str_bool_map (lower (strip arg)) = Some b ->
     let notice :=
       SendMessage u None (if b then verify_granted_notice else verify_cleared_notice) in
     sent out.2 = sent s ++ [(notice, gateway E (tick s) notice)]
     /\ out.1 = notice_result (gateway E (tick s) notice)
     /\ cached_flag u "verify" (cache out.2) = Some (VBool b)
     /\ uf_repo out.2 = update_verified u b (uf_repo s)
     /\ select_verified u (uf_repo out.2)
        = match select_valid_verify u (uf_repo s) with
          | Some _ => b
          | None => false
          end)
  /\ ((args = None \/ (exists l, args = Some l /\ length l <> 1%nat)
       \/ exists arg, args = Some [arg] /\ str_bool_map (lower (strip arg)) = None) ->
      let notice := ReplyText (tg.chat msg) (tg.message_id msg) verify_usage in
      sent out.2 = sent s ++ [(notice, gateway E (tick s) notice)]
      /\ out.1 = notice_result (gateway E (tick s) notice)
      /\ uf_repo out.2 = uf_repo s
      /\ cache out.2 = cache s).
Proof.
  intros out.
  assert (Hout : out = _verify E upd args s) by reflexivity. clearbody out.
  unfold _verify in Hout. rewrite Hmsg, Hthread in Hout. split.
  - intros arg b -> Hb notice. unfold bind at 1, repo_try at 1 in Hout.
    rewrite (select_user_by_topic_found t u row (uf_repo s) Huniq Hrow Htopic) in Hout.
    cbn [fst] in Hout. rewrite Hb in Hout.
    assert (Hsel : forall r, select_verified u (update_verified u b r)
                             = match select_valid_verify u r with
                               | Some _ => b
                               | None => false
                               end).
    { intros r. unfold select_verified, select_valid_verify, update_verified.
      cbn [verify_users set_verify_users]. rewrite lookup_alter_eq.
      now destruct (verify_users r !! u). }
    subst out. destruct b; mstep; fold notice;
      (destruct (gateway E (tick s) notice) as [m|e];
       cbn [fst snd sent uf_repo cache notice_result];
       (refine (conj eq_refl (conj eq_refl (conj _ (conj eq_refl _))));
        [apply cached_flag_set_flag_eq | apply Hsel])).
  - intros Hbad. apply only_notice_run. rewrite Hout.
    destruct Hbad as [->|[(l & -> & Hlen)|(arg & -> & Hnone)]].
    + reflexivity.
    + destruct l as [|a [|b l]]; [reflexivity| now destruct Hlen | reflexivity].
    + unfold bind at 1, repo_try at 1.
      rewrite (select_user_by_topic_found t u row (uf_repo s) Huniq Hrow Htopic).
      cbn [fst]. now rewrite Hnone.
Qed.

Lemma verify_command_sets_cache_and_record_witness :
  cached_flag 42 "verify"
    (cache (_verify (env_with gateway_ok)
              (staff_update 500 (Some 77) (Some "/verify FALSE") None)
              (Some [" FALSE"]) state_relaying).2)
  = Some (VBool false)
  /\ select_verified 42
       (uf_repo (_verify (env_with gateway_ok)
                   (staff_update 500 (Some 77) (Some "/verify FALSE") None)
                   (Some [" FALSE"]) state_relaying).2)
     = false.
Proof.
  destruct (proj1 (verify_command_sets_cache_and_record (env_with gateway_ok)
                     (staff_update 500 (Some 77) (Some "/verify FALSE") None)
                     (Some [" FALSE"]) state_relaying _ 77 42 alice_row
                     eq_refl eq_refl (users_unique_singleton 42 alice_row)
                     eq_refl eq_refl)
              " FALSE" false eq_refl eq_refl)
    as (_ & _ & Hflag & _ & Hsel).
  split; [exact Hflag | exact Hsel].
Defined.

(** ** bot.py: the entry point of private messages *)

Lemma handle_private_message_unfold (E : Env) (R : Readings) (upd : tg.Update)
    (s : BotState) (msg : tg.Message) (usr : tg.User) :
  tg.message upd = Some msg ->
  tg.effective_user upd = Some usr ->
  let uid := tg.id usr in
  handle_private_message E R upd s
  = if truthy (default VNone (cached_flag uid "block" (cache s))) then
      (reply_text E msg blocked_notice ;;; ret tt)
        (set_cache (get_flag uid "block" VNone (cache s)).2 s)
    else if truthy (verified_flag uid s) then
      msg_to_topic E upd (monotonic R) (wall_clock R) (verification_known uid s)
    else
      (passed <- _gif_verify E R upd false ;;
       if negb passed then ret tt
       else _verify_attempts E upd (strip (default "" (tg.text msg))) (wall_clock R))
        (verification_known uid s).
Proof.
  intros Hmsg Husr uid. unfold handle_private_message. rewrite Hmsg, Husr. fold uid.
  unfold bind at 1, cache_get at 1. cbn [fst snd]. rewrite get_flag_value.
  destruct (truthy (default VNone (cached_flag uid "block" (cache s)))); [reflexivity|].
  unfold bind at 1, cache_get at 1. cbn [fst snd cache set_cache].
  rewrite get_flag_value, cached_flag_get_flag.
  unfold verified_flag, verification_known, flags_read.
  destruct (default VNone (cached_flag uid "verify" (cache s))) as [|b|z].
  - unfold bind at 1. unfold bind at 1, repo_get at 1. cbn [uf_repo set_cache].
    unfold bind at 1, cache_do at 1, ret at 1. cbn [cache set_cache uf_repo sent tick].
    now destruct (select_verified uid (uf_repo s)).
  - unfold bind at 1, ret at 1. cbn [cache set_cache uf_repo sent tick].
    now destruct b.
  - unfold bind at 1, ret at 1. cbn [cache set_cache uf_repo sent tick truthy].
    now destruct (z =? 0).
Qed.

Lemma flags_read_frame (uid u : Z) (k : string) (c : DataCache) :
  cached_flag u k (flags_read uid c) = cached_flag u k c
  /\ user_message_time_queues (flags_read uid c) = user_message_time_queues c
  /\ topic_data (flags_read uid c) = topic_data c
  /\ user_locks (flags_read uid c) = user_locks c.
Proof.
  unfold flags_read. rewrite !cached_flag_get_flag.
  destruct (get_flag_frame uid "verify" VNone (get_flag uid "block" VNone c).2)
    as (-> & -> & ->).
  destruct (get_flag_frame uid "block" VNone c) as (-> & -> & ->). now repeat split.
Qed.

Lemma verification_known_frame (uid u : Z) (k : string) (s : BotState) :
  ((u, k) <> (uid, "verify") ->
   cached_flag u k (cache (verification_known uid s)) = cached_flag u k (cache s))
  /\ default VNone (cached_flag uid "verify" (cache (verification_known uid s)))
     = verified_flag uid s
  /\ user_message_time_queues (cache (verification_known uid s))
     = user_message_time_queues (cache s)
  /\ topic_data (cache (verification_known uid s)) = topic_data (cache s)
  /\ user_locks (cache (verification_known uid s)) = user_locks (cache s)
  /\ uf_repo (verification_known uid s) = uf_repo s
  /\ sent (verification_known uid s) = sent s
  /\ tick (verification_known uid s) = tick s.
Proof.
  unfold verification_known, verified_flag. cbn [cache set_cache uf_repo sent tick].
  destruct (flags_read_frame uid u k (cache s)) as (Hf & Hq & Ht & Hl).
  destruct (flags_read_frame uid uid "verify" (cache s)) as (Hv & _).
  destruct (default VNone (cached_flag uid "verify" (cache s))) as [|b|z] eqn:Hd.
  - destruct (set_flag_frame uid "verify"
                (VBool (select_verified uid (uf_repo s))) (flags_read uid (cache s)))
      as (-> & -> & ->).
    rewrite cached_flag_set_flag_eq, Hq, Ht, Hl. cbn [default from_option id].
    refine (conj _ (conj eq_refl (conj eq_refl (conj eq_refl (conj eq_refl
              (conj eq_refl (conj eq_refl eq_refl))))))).
    intros Hne. rewrite cached_flag_set_flag. case_decide as Hdec; [|exact Hf].
    destruct Hdec as [Hu Hk]. subst u k. now destruct Hne.
  - rewrite Hv, Hd. now repeat split.
  - rewrite Hv, Hd. now repeat split.
Qed.

(** A pending challenge that has not expired lets [_gif_verify] pass. *)
Lemma gif_verify_pending (E : Env) (R : Readings) (upd : tg.Update) (first : bool)
    (s : BotState) (msg : tg.Message) (usr : tg.User) (v : Verify) :
  tg.message upd = Some msg ->
  tg.effective_user upd = Some usr ->
  select_valid_verify (tg.id usr) (uf_repo s) = Some v ->
  verified v = true \/ (expires_at v <? wall_clock R) = false ->
  _gif_verify E R upd first s
  = (Ok true, set_cache (get_user_lock (tg.id usr) (cache s)).2 s).
Proof.
  intros Hmsg Husr Hv Hok. unfold _gif_verify. rewrite Hmsg, Husr. mstep.
  rewrite Hv. destruct (verified v); [reflexivity|].
  destruct Hok as [Hok|Hok]; [discriminate Hok|]. now rewrite Hok.
Qed.

(** X27. Where [handle_private_message] sends a private message.  It
    goes by the cache first.  A user whose cached block flag is set gets
    the ban notice and nothing else happens; the repository is not even
    read.  Otherwise the verification is taken from the cache, or read
    from the repository and cached when the cache does not hold it.  The
    message of a verified user is handled by [msg_to_topic]; the message
    of a user with a pending challenge that has not expired is handed to
    [_verify_attempts] as a submission, its text stripped of surrounding
    whitespace.  On the way only the cached verification of this user
    can change. *)
Theorem handle_private_message_routes (E : Env) (R : Readings) (upd : tg.Update)
    (s : BotState) (msg : tg.Message) (usr : tg.User)
    (Hmsg : tg.message upd = Some msg)
    (Husr : tg.effective_user upd = Some usr) :
  let out := handle_private_message E R upd s in
  let uid := tg.id usr in
  let s' := verification_known uid s in
  (truthy (default VNone (cached_flag uid "block" (cache s))) = true ->
   let notice := ReplyText (tg.chat msg) (tg.message_id msg) blocked_notice in
   sent out.2 = sent s ++ [(notice, gateway E (tick s) notice)]
   /\ out.1 = notice_result (gateway E (tick s) notice)
   /\ uf_repo out.2 = uf_repo s
   /\ (forall u k, cached_flag u k (cache out.2) = cached_flag u k (cache s))
   /\ user_message_time_queues (cache out.2) = user_message_time_queues (cache s))
  /\ (truthy (default VNone (cached_flag uid "block" (cache s))) = false ->
      (truthy (verified_flag uid s) = true ->
       out = msg_to_topic E upd (monotonic R) (wall_clock R) s')
      /\ (truthy (verified_flag uid s) = false ->
          forall v,
            select_valid_verify uid (uf_repo s) = Some v ->
            verified v = false ->
            (expires_at v <? wall_clock R) = false ->
            out = _verify_attempts E upd (strip (default "" (tg.text msg)))
                    (wall_clock R) (set_cache (get_user_lock uid (cache s')).2 s')))
  /\ ((forall u k, (u, k) <> (uid, "verify") ->
         cached_flag u k (cache s') = cached_flag u k (cache s))
      /\ default VNone (cached_flag uid "verify" (cache s')) = verified_flag uid s
      /\ user_message_time_queues (cache s') = user_message_time_queues (cache s)
      /\ uf_repo s' = uf_repo s /\ sent s' = sent s /\ tick s' = tick s).
Proof.
  intros out uid s'.
  pose proof (handle_private_message_unfold E R upd s msg usr Hmsg Husr) as Hrun.
  cbv zeta in Hrun. fold uid out s' in Hrun.
  refine (conj _ (conj _ _)).
  - intros Hb notice. rewrite Hb in Hrun.
    destruct (only_notice_run E msg blocked_notice _ out Hrun) as (H1 & H2 & H3 & H4).
    cbn [tick sent uf_repo cache set_cache] in H1, H2, H3, H4. fold notice in H1, H2.
    refine (conj H1 (conj H2 (conj H3 (conj _ _)))).
    + intros u k. rewrite H4. apply cached_flag_get_flag.
    + rewrite H4. apply queues_get_flag.
  - intros Hb. rewrite Hb in Hrun. split.
    + intros Hv. now rewrite Hv in Hrun.
    + intros Hv v Hrec Hunv Hlive. rewrite Hv in Hrun. rewrite Hrun.
      unfold bind at 1.
      rewrite (gif_verify_pending E R upd false s' msg usr v Hmsg Husr).
      * reflexivity.
      * unfold s'. now rewrite (proj1 (proj2 (proj2 (proj2 (proj2 (proj2
                  (verification_known_frame uid uid "verify" s))))))).
      * now right.
  - destruct (verification_known_frame uid uid "verify" s)
      as (_ & H2 & H3 & _ & _ & H6 & H7 & H8).
    refine (conj _ (conj H2 (conj H3 (conj H6 (conj H7 H8))))).
    intros u k. apply verification_known_frame.
Qed.

Lemma handle_private_message_routes_witness :
  handle_private_message (env_with gateway_ok)
    {| ttl := 30; monotonic := 0; wall_clock := 60; captcha_text := "ABCEF";
       reply_animation := fun _ => Ok 1 |}
    (private_update 9 (Some "hello") None) state_relaying
  = msg_to_topic (env_with gateway_ok) (private_update 9 (Some "hello") None) 0 60
      (verification_known 42 state_relaying).
Proof.
  exact (proj1 (proj1 (proj2 (handle_private_message_routes (env_with gateway_ok)
                                {| ttl := 30; monotonic := 0; wall_clock := 60;
                                   captcha_text := "ABCEF";
                                   reply_animation := fun _ => Ok 1 |}
                                (private_update 9 (Some "hello") None) state_relaying
                                _ alice eq_refl eq_refl)) eq_refl) eq_refl).
Defined.

(** ** bot.py: issuing a challenge *)

Lemma gif_verify_issues (E : Env) (R : Readings) (upd : tg.Update) (first : bool)
    (s : BotState) (msg : tg.Message) (usr : tg.User) :
  tg.message upd = Some msg ->
  tg.effective_user upd = Some usr ->
  challenge_due R (tg.id usr) (uf_repo s) = true ->
  (forall n c, is_Ok (gateway E n c) = true) ->
  (forall caption, is_Ok (reply_animation R caption) = true) ->
  exists m d : Z,
    _gif_verify E R upd first s
    = (Ok false,
       challenge_issued R (tg.id usr) msg m d (store_challenge R (tg.id usr))
         (set_cache (get_user_lock (tg.id usr) (cache s)).2 s)).
Proof.
  intros Hmsg Husr Hdue Hgw Hanim.
  destruct (gateway_accepts E (tick s)
              (ReplyText (tg.chat msg) (tg.message_id msg) please_wait_notice) Hgw)
    as [m Hm].
  destruct (gateway_accepts E (S (tick s)) (DeleteMessage (tg.chat msg) m) Hgw)
    as [d Hd].
  exists m, d. unfold _gif_verify, challenge_due, store_challenge in *.
  rewrite Hmsg, Husr. mstep.
  destruct (select_valid_verify (tg.id usr) (uf_repo s)) as [v|] eqn:Hv.
  - apply andb_true_iff in Hdue. destruct Hdue as [Hunv Hexp].
    apply negb_true_iff in Hunv. rewrite Hunv, Hexp.
    unfold _send_captcha_gif. rewrite Hmsg. mstep. rewrite Hm. mstep. rewrite Hd. mstep.
    pose proof (Hanim expired_caption) as Ha.
    destruct (reply_animation R expired_caption); [|discriminate Ha].
    unfold challenge_issued. cbn [cache uf_repo sent tick set_cache].
    now rewrite Hv, <- app_assoc.
  - unfold _send_captcha_gif. rewrite Hmsg. mstep. rewrite Hm. mstep. rewrite Hd. mstep.
    pose proof (Hanim (if first then first_challenge_caption else challenge_caption)) as Ha.
    destruct (reply_animation R _); [|discriminate Ha].
    unfold challenge_issued. cbn [cache uf_repo sent tick set_cache].
    now rewrite Hv, <- app_assoc.
Qed.

Lemma store_challenge_record (R : Readings) (uid : Z) (r : Repo) :
  challenge_due R uid r = true ->
  select_valid_verify uid (store_challenge R uid r)
  = Some {| code := captcha_text R; expires_at := wall_clock R + ttl R;
            verified := false |}
  /\ (forall u, u <> uid ->
        select_valid_verify u (store_challenge R uid r) = select_valid_verify u r)
  /\ block_users (store_challenge R uid r) = block_users r
  /\ users (store_challenge R uid r) = users r
  /\ messages (store_challenge R uid r) = messages r.
Proof.
  unfold challenge_due, store_challenge, select_valid_verify.
  destruct (verify_users r !! uid) as [v|] eqn:Hv; intros Hdue.
  - apply andb_true_iff in Hdue. destruct Hdue as [Hunv _]. apply negb_true_iff in Hunv.
    unfold update_verify_code. cbn [verify_users set_verify_users block_users users
      messages]. rewrite lookup_alter_eq, Hv. cbn. rewrite Hunv.
    refine (conj eq_refl (conj _ (conj eq_refl (conj eq_refl eq_refl)))).
    intros u Hne. now rewrite lookup_alter_ne by congruence.
  - unfold insert_verify. cbn [verify_users set_verify_users block_users users messages].
    rewrite lookup_insert_eq.
    refine (conj eq_refl (conj _ (conj eq_refl (conj eq_refl eq_refl)))).
    intros u Hne. now rewrite lookup_insert_ne by congruence.
Qed.

(** X28. Issuing a challenge.  When a user who is neither blocked nor
    verified in the cache writes, and has no verification record or an
    unverified one whose deadline has passed, [handle_private_message]
    issues a new challenge and does not look at the text of the
    message: a wait notice is posted and deleted again, the record
    holds the new code with the deadline [now + ttl] and
    [verified = False], and the cached attempt counter is 0, so the
    three tries start afresh with every new challenge.  /start does the
    same for such a user.  Records of other users, and the tables of
    blocks, users and mappings, are not touched.  (The gateway accepts
    the calls, the animation included.) *)
Theorem challenge_is_issued_when_due (E : Env) (R : Readings) (upd : tg.Update)
    (s : BotState) (msg : tg.Message) (usr : tg.User)
    (Hmsg : tg.message upd = Some msg)
    (Husr : tg.effective_user upd = Some usr)
    (Hdue : challenge_due R (tg.id usr) (uf_repo s) = true)
    (Hgw : forall n c, is_Ok (gateway E n c) = true)
    (Hanim : forall caption, is_Ok (reply_animation R caption) = true) :
  let uid := tg.id usr in
  let issued := fun out : res unit * BotState =>
    out.1 = Ok tt
    /\ (exists m d : Z,
          sent out.2
          = sent s ++ [(ReplyText (tg.chat msg) (tg.message_id msg) please_wait_notice,
                        Ok m);
                       (DeleteMessage (tg.chat msg) m, Ok d)])
    /\ select_valid_verify uid (uf_repo out.2)
       = Some {| code := captcha_text R; expires_at := wall_clock R + ttl R;
                 verified := false |}
    /\ cached_flag uid "verify_attempts" (cache out.2) = Some (VInt 0)
    /\ cached_flag uid "verify" (cache out.2) = Some (VBool false)
    /\ (forall u, u <> uid ->
          select_valid_verify u (uf_repo out.2) = select_valid_verify u (uf_repo s))
    /\ block_users (uf_repo out.2) = block_users (uf_repo s)
    /\ users (uf_repo out.2) = users (uf_repo s)
    /\ messages (uf_repo out.2) = messages (uf_repo s) in
  issued (_start E R upd s)
  /\ (truthy (default VNone (cached_flag uid "block" (cache s))) = false ->
      truthy (verified_flag uid s) = false ->
      issued (handle_private_message E R upd s)).
Proof.
  intros uid issued.
  assert (Hissued : forall (s0 : BotState) (out : res unit * BotState) m d,
            uf_repo s0 = uf_repo s -> sent s0 = sent s ->
            out = (Ok tt, challenge_issued R uid msg m d (store_challenge R uid) s0) ->
            issued out).
  { intros s0 out m d Hr0 Hs0 ->. unfold issued, challenge_issued.
    cbn [fst snd cache uf_repo sent]. rewrite Hr0, Hs0.
    destruct (store_challenge_record R uid (uf_repo s) Hdue) as (H1 & H2 & H3 & H4 & H5).
    refine (conj eq_refl (conj _ (conj H1 (conj _ (conj _ (conj H2 (conj H3
              (conj H4 H5)))))))).
    - now exists m, d.
    - apply cached_flag_set_flag_eq.
    - rewrite cached_flag_set_flag_key by discriminate. apply cached_flag_set_flag_eq. }
  split.
  - destruct (gif_verify_issues E R upd true s msg usr Hmsg Husr Hdue Hgw Hanim)
      as (m & d & Hrun).
    apply (Hissued (set_cache (get_user_lock uid (cache s)).2 s) _ m d eq_refl eq_refl).
    unfold _start. rewrite Hmsg. unfold bind. now rewrite Hrun.
  - intros Hnb Hnv.
    destruct (verification_known_frame uid uid "verify" s)
      as (_ & _ & _ & _ & _ & Hrepo & Hsent & _).
    assert (Hdue' : challenge_due R (tg.id usr) (uf_repo (verification_known uid s)) = true)
      by (now rewrite Hrepo).
    destruct (gif_verify_issues E R upd false (verification_known uid s) msg usr Hmsg Husr
                Hdue' Hgw Hanim) as (m & d & Hrun).
    apply (Hissued (set_cache (get_user_lock uid (cache (verification_known uid s))).2
                      (verification_known uid s)) _ m d Hrepo Hsent).
    rewrite (handle_private_message_unfold E R upd s msg usr Hmsg Husr).
    cbv zeta. fold uid. rewrite Hnb, Hnv. unfold bind at 1. now rewrite Hrun.
Qed.

Lemma challenge_is_issued_when_due_witness :
  select_valid_verify 42
    (uf_repo (handle_private_message (env_with gateway_ok)
                {| ttl := 30; monotonic := 0; wall_clock := 60; captcha_text := "ABCEF";
                   reply_animation := fun _ => Ok 1 |}
                (private_update 9 (Some "aejmr") None) state_challenged).2)
  = Some {| code := "ABCEF"; expires_at := 90; verified := false |}.
Proof.
  exact (proj1 (proj2 (proj2 (proj2 (challenge_is_issued_when_due (env_with gateway_ok)
                  {| ttl := 30; monotonic := 0; wall_clock := 60; captcha_text := "ABCEF";
                     reply_animation := fun _ => Ok 1 |}
                  (private_update 9 (Some "aejmr") None) state_challenged
                  _ alice eq_refl eq_refl eq_refl (fun _ _ => eq_refl) (fun _ => eq_refl))
                 eq_refl eq_refl)))).
Defined.

(** ** bot.py: from the first message to the first relay *)







(** ** bot.py: a message of a user whose topic cannot be created *)




